(* ===== verification/_CoqProject ===== *)
-Q . S2P
Prelude.v
JsValues.v
ReactHooks.v
StyleTypes.v
QRStyling.v
DataUrl.v
JsObject.v
JsEquiv.v
QRLib.v
QRGeneratorPro.v
Refinement.v
Preview.v
StrictMode.v
View.v
LibKeyOrder.v
