(* ===== verification/Prelude.v ===== *)
(** * A verification development of [QRGeneratorPro]

    The repository is one React component,
    [src/src/components/QRGeneratorPro.tsx]: a settings panel bound to a
    [QRCodeStyling] object of the qr-code-styling library.  Its parts and
    how they interact:
    - the state store: seven [useState] cells (text, three style strings,
      two colours, the logo) (lines 9-22);
    - the QR instance: [useRef(new QRCodeStyling({...})).current]
      (lines 25-46), a single mutable object that all later calls go to;
    - the mount effect (lines 49-53): [qr.append(qrRef.current)] with the
      dependency list [[]];
    - the sync effect (lines 56-82): [qr.update({...})] rebuilt from the
      seven state cells, with those cells as its dependency list;
    - the logo loader (lines 85-94): a [FileReader] whose [onload]
      callback calls [setLogo] when the asynchronous read completes;
    - the exporter (lines 97-99): [qr.download({name: "qrcode", ...})];
    - the JSX (lines 101-200): the inputs and selects whose [onChange]
      handlers call the setters, the preview [div] bound to [qrRef], and
      the three download buttons.

    Files of the development, in dependency order:
    - [Prelude] (this file): the [qr_scope] notations, the [elem_cases]
      tactic, the [qr] and [qr_rw] hint databases and generic lemmas on
      lists and options shared by the components.
    - [JsValues]: the JavaScript values the component touches ([string],
      [null], [undefined]), [Object.is], and the [||] operator that turns
      [logo] into [logo || undefined].
    - [ReactHooks]: what the component relies on from React:
      [areHookInputsEqual] (the dependency-list comparison that decides
      whether an effect re-runs) and the setter bail-out of [useState].
    - [StyleTypes]: the library's [DotType], [CornerDotType] and
      [CornerSquareType] as inductive types with their string forms, the
      option lists of the three [<select>] elements (lines 118-154), and
      the simple-colour strings that a colour input produces.
    - [QRStyling]: the qr-code-styling interface the component calls: the
      [Options] record, the [update] payload, the method calls
      ([append], [update], [download]) as a data type [QRCall], the class
      [QRStylingApi] with its laws [QRStylingLaws] (the contract the
      component relies on), and a small reference implementation
      [QRModel].
    - [DataUrl]: the [File] record and [FileReader.readAsDataURL]: the
      [data:] URL of a file ([application/octet-stream] when its type is
      empty), with the base64 encoding written out and decoded back.
    - [JsObject]: JavaScript values as trees ([jsv], with an induction
      principle through arrays and objects), the library's [mergeDeep]
      ([merge_deep], [merge_deep_all]) and its fuelled twin
      [merge_deep_fuel], the component's two object literals
      ([ctor_object], lines 26-45, and [payload_object], lines 57-73),
      the library's [defaultOptions], and [options_of_object], the fields
      the library reads back.  [merge_payload] of [QRStyling] is proved to
      be what [mergeDeep] does to the payload ([merge_deep_payload]).
    - [JsEquiv]: JavaScript values up to the order of their keys: the
      partial equivalence [jsv_equiv] (notation [≃]; a value is related
      to itself when its objects have distinct keys, [wf_jsv]), decided
      by [jsv_equivb] ([jsv_equiv_dec]), with [merge_deep],
      [merge_deep_all] and [options_of_object] as its morphisms ([Proper]
      instances).
    - [QRLib]: the qr-code-styling object itself: options object,
      container, QR code, drawn element, the DOM children of the
      container, saved files and rejections; [lib_new], [lib_update],
      [lib_append] and [lib_download] follow the library's constructor and
      methods.  [LibT] (the objects whose options can be read) is an
      instance of [QRStylingLaws], so every theorem of [QRGeneratorPro]
      holds for it.
    - [QRGeneratorPro]: the component itself.  Its state [St] holds the
      seven cells, the ref, the dependency lists React remembers for the
      two effects, the number of [QRCodeStyling] constructions, the trace
      of method calls made on the kept instance, and the in-flight
      [FileReader]s.  [render], [commit], the setters, [handleLogoUpload],
      [reader_onload] and [download] are one definition each, and
      [dispatch] runs one UI event the way React does (handler, then, if
      a cell changed, a render and a commit that runs the effects whose
      dependencies changed).  [reachable] is the step relation closed
      from the first mount.
    - [Refinement]: an abstract specification of the panel (typed
      settings, pending reads, exports, a displayed configuration that is
      a function of the settings) with its step function [panel_step], the
      abstraction [abs] of the component's state, and the refinement
      theorem.
    - [Preview]: the component run on the library model: [kept s] is the
      kept instance of a state as a [QRLib], the replay of the state's
      calls; what the preview [div] shows and what the downloads save.
    - [StrictMode]: React's development StrictMode, which evaluates the
      body twice on every render ([render_strict], [dispatch_strict])
      and re-mounts the effects after the first commit ([mount_strict],
      [reachable_strict]); its states are those of [QRGeneratorPro] with
      the mount's two calls repeated in front and twice the evaluations
      of the constructor ([reprefix], [dispatch_strict_reprefix]).
    - [View]: what the JSX displays: [view] gives the values of the
      controlled elements (text input, selects, colour inputs) with
      HTML's rules for a select's value and a colour input's
      sanitization, the placeholder and the button labels.
    - [LibKeyOrder]: the library object up to the key order of its
      options ([lib_equiv]), preserved by every call the component makes.

    The theorems, grouped (claim ids in brackets):
    - configuration (QRGeneratorPro): in every reachable state the options
      of the kept instance are the constructor's with the payload of the
      current cells merged in [C1], field by field: data is the text, image
      the logo, 300x300 SVG kept [C2];
    - effects (QRGeneratorPro, ReactHooks): the instance is attached
      exactly once [C3]; every deliverable event issues one update with
      the new cells' payload when it changes a cell, the logo included,
      and none otherwise [C8], and a settings event changes only its own
      field of the payload [C7]; the sync effect re-runs iff a cell
      changed and the mount effect never re-runs [C22]; each event makes
      at most one call and one render [C19];
    - refinement (Refinement): from the mount, any sequence of
      deliverable events leaves the component in the abstraction of the
      state the panel specification reaches by the same events [C4];
    - the library (QRLib, JsObject): [update] with the component's
      payload, on every branch: merged options, the early return on empty
      data that empties the preview but keeps the QR code, one drawing
      otherwise [C11]; the constructor holds the literal's options and no
      QR code for empty data [C12].  Facts of the library model that are
      not claims about the component: [mergeDeep] terminates within as
      many nested calls as the source has levels of objects
      ([JsObject.merge_deep_terminates]); merging the same payload twice
      is merging it once ([QRStyling.merge_payload_twice]); the library reads its options only
      by key ([JsEquiv.options_key_order_independent],
      [LibKeyOrder.kept_key_order]);
    - preview and exports (Preview): the preview shows one drawing of the
      current text, or nothing for an empty text [C5]; a download saves
      ["qrcode." ++ extension] with the QR code of the last non-empty text
      applied, or is rejected with ["QR code is empty"] [C6]; from any
      state with a text, clearing it empties the preview while the next
      download still saves the cleared text [C14]; over whole runs the
      exports refine an abstract machine that remembers the last
      non-empty text typed ([Preview.exports_step], simulation relation
      [exports_rel]) [C24]; under StrictMode the instance is appended
      twice, with the same options and the same single drawing in the
      preview [C15];
    - uploads (QRGeneratorPro, DataUrl): a pick starts a read whose
      completion sets the logo and the applied image [C9]; a pick itself,
      or a pick with no file, changes nothing [C17]; a logo is never
      cleared [C18]; the read that completes last wins, even when it is
      the stale one [C16].  The data URL decodes back to the file's bytes
      ([DataUrl.data_url_roundtrip]);
    - exports (QRGeneratorPro): the download calls are exactly the clicks,
      in order, named ["qrcode"] with the button's extension [C10];
    - types (QRGeneratorPro, StyleTypes, JsValues): the style cells always
      name a variant of the library's types [C20], the colours are simple
      colours [C21]; the lemmas on the selects' option lists and the
      string forms of the types ([StyleTypes.select_values_parse],
      [StyleTypes.select_coverage]) and on [logo || undefined]
      ([JsValues.or_undefined_none_iff]) serve them;
    - display (View): the panel shows its state exactly: the text, the
      option of each select's cell (never React's fallback to the first
      option), the colours unchanged by sanitization [C23];
    - the finding that [new QRCodeStyling(...)] runs on every render [C13].
    The invariant [Inv] of [QRGeneratorPro] carries the proofs: it holds
    at the mount and every deliverable event preserves it
    ([reachable_Inv]); [dispatch_shape] says that an event either changes
    no cell (no render, no call but a click's download) or changes the
    cells with one render and one [update].  In [Preview],
    [reachable_calls] adds that the first call is the mount's [append]
    and no later call is one.

    Bounds and fuel: every handler is straight-line code, [reachable] is
    an inductive closure and [run_events] recurses on its list of events.
    The one recursion of the program that is not structural in the
    source's sense is [mergeDeep], which recurses into the objects of its
    source: [merge_deep] is structural on the source tree (nested
    recursion through the list of properties), and [merge_deep_fuel]
    bounds the nesting of calls, the JavaScript stack; [obj_depth] of the
    source (at least one) is enough fuel, and the component's payload has
    depth 2.  The base64 round trip is proved by well-founded induction on
    the length of the bytes, with byte-level facts checked exhaustively
    over all pairs of bytes ([DataUrl.check_b1_b2_all]).

    Not modelled: the layout and styles of the JSX; the library's QR
    encoding, the drawing of modules, corners and the logo into the SVG,
    and raster conversion (the canvas a PNG or JPEG export draws is taken
    to show [this._qr]); the browser's download mechanism; React's
    scheduler beyond the order of a handler, a render and a commit (each
    handler calls at most one setter, so batching does not arise).
    Where the model of React is coarser than React: [set_cell] bails out
    of a render for a same-value set, as React's eager bail-out does,
    while React may still evaluate the body once more (one more discarded
    [QRCodeStyling]) when the fiber has pending work; the effects of a
    commit run within the event, while React 18 may run the passive
    effects of a non-discrete event such as [FileReader]'s [load] later
    (no theorem reads the interval); StrictMode is modelled as React
    runs it, but whether the application mounts the component under
    [<StrictMode>] is outside [src/].  Where the browser model is
    coarser: a [data:] URL of an empty file (Chrome writes ["data:"]).
    [options_of_object] reads every field the component sets and
    requires all of them, where the library tolerates missing ones; every
    object the component builds has them all.  The
    library model follows qr-code-styling 1.x as the component uses it
    (draw type [svg]); the version is not pinned in the repository, so
    the library's internals past what the component observes (the
    canvas it keeps for raster exports, [sanitizeOptions] on fields the
    component never sets, the extension hooks) are left out: they differ
    between versions and the component's code does not reach them.  The
    lines of the source the development does not translate are the
    imports (lines 1-3), blank lines and a comment. *)

From stdpp Require Import base list option.

Declare Scope qr_scope.
Delimit Scope qr_scope with qr.

(** Appending one call to a trace of calls, the shape every effect and
    handler has. *)
Notation "tr +: c" := (tr ++ [c])
  (at level 61, left associativity) : qr_scope.

Open Scope qr_scope.

Create HintDb qr.
Create Rewrite HintDb qr_rw.

(** Split [H : x ∈ [a; b; ...]] into one goal per element, with [x]
    replaced by it. *)
Ltac elem_cases H :=
  repeat (apply elem_of_cons in H as [->|H]);
  [.. | by apply not_elem_of_nil in H].

(** ** Counting the elements of a list that satisfy a boolean test *)

Fixpoint countb {A} (p : A -> bool) (l : list A) : nat :=
  match l with
  | [] => 0
  | x :: l' => (if p x then 1 else 0) + countb p l'
  end.

Lemma countb_app {A} (p : A -> bool) (l1 l2 : list A) :
  countb p (l1 ++ l2) = countb p l1 + countb p l2.
Proof. induction l1 as [|x l1 IH]; simpl; [done|]. rewrite IH. lia. Qed.

Lemma countb_snoc {A} (p : A -> bool) (l : list A) (x : A) :
  countb p (l +: x) = countb p l + (if p x then 1 else 0).
Proof. rewrite countb_app. simpl. lia. Qed.

(** ** The last element of a list that a partial function accepts *)

Fixpoint last_match {A B} (f : A -> option B) (l : list A) : option B :=
  match l with
  | [] => None
  | x :: l' =>
      match last_match f l' with
      | Some y => Some y
      | None => f x
      end
  end.

Lemma last_match_app {A B} (f : A -> option B) (l1 l2 : list A) :
  last_match f (l1 ++ l2) =
  match last_match f l2 with Some y => Some y | None => last_match f l1 end.
Proof.
  induction l1 as [|x l1 IH]; simpl.
  - by destruct (last_match f l2).
  - rewrite IH. by destruct (last_match f l2).
Qed.

Lemma last_match_snoc_hit {A B} (f : A -> option B) l x y :
  f x = Some y -> last_match f (l +: x) = Some y.
Proof. intros Hx. rewrite last_match_app. simpl. by rewrite Hx. Qed.

Lemma last_match_snoc_miss {A B} (f : A -> option B) l x :
  f x = None -> last_match f (l +: x) = last_match f l.
Proof. intros Hx. rewrite last_match_app. simpl. by rewrite Hx. Qed.

(** A partial function [g] that reads the matches of [f] through [h]:
    the last match of [g] is read from the last match of [f]. *)
Lemma last_match_None_through {A B C} (f : A -> option B) (g : A -> option C) l :
  (forall x, f x = None -> g x = None) -> last_match f l = None -> last_match g l = None.
Proof.
  intros Hfg. induction l as [|x l IH]; simpl; [done|].
  destruct (last_match f l); [done|]. intros Hx. by rewrite IH, Hfg.
Qed.

Lemma last_match_through {A B C} (f : A -> option B) (g : A -> option C) (h : B -> option C) l y z :
  (forall x, f x = None -> g x = None) -> (forall x y, f x = Some y -> g x = h y) ->
  last_match f l = Some y -> h y = Some z -> last_match g l = Some z.
Proof.
  intros Hn Hs. induction l as [|x l IH]; simpl; [done|].
  destruct (last_match f l) eqn:E.
  - intros [= ->] Hz. by rewrite IH.
  - intros Hx Hz. rewrite (last_match_None_through f g l Hn E). by rewrite (Hs x y Hx).
Qed.

(** ** Options *)

Lemma option_map_is_Some {A B} (f : A -> B) o y : option_map f o = Some y -> is_Some o.
Proof. destruct o; simpl; [eauto|done]. Qed.

#[export] Hint Rewrite @countb_app @countb_snoc : qr_rw.
#[export] Hint Resolve last_match_snoc_hit : qr.
