(* ===== verification/JsValues.v ===== *)
(** * JavaScript values of the component

    The component's state cells hold strings and [string | null] (the
    logo), and the [update] payload receives [logo || undefined]
    ([QRGeneratorPro.tsx], line 59).  This file models those values, the
    [Object.is] comparison React applies to them, and the [||] operator
    with JavaScript truthiness.  [Object.is] and truthiness follow the
    ECMAScript specification (SameValue, ToBoolean) restricted to these
    values. *)

From stdpp Require Import base list strings.
From S2P Require Import Prelude.

Inductive jsval :=
| JsString (s : string)
| JsNull
| JsUndefined.

#[export] Instance jsval_eq_dec : EqDecision jsval.
Proof. solve_decision. Defined.

(** [Object.is]: SameValue on strings, [null] and [undefined]. *)
Definition object_is (a b : jsval) : bool :=
  match a, b with
  | JsString x, JsString y => String.eqb x y
  | JsNull, JsNull => true
  | JsUndefined, JsUndefined => true
  | _, _ => false
  end.

(** A [string | null] cell as a JavaScript value. *)
Definition of_nullable (v : option string) : jsval :=
  match v with
  | Some s => JsString s
  | None => JsNull
  end.

(** ToBoolean: the empty string, [null] and [undefined] are falsy. *)
Definition truthy (v : jsval) : bool :=
  match v with
  | JsString s => negb (String.eqb s "")
  | JsNull | JsUndefined => false
  end.

(** [a || b]: [a] when it is truthy, [b] otherwise. *)
Definition js_or (a b : jsval) : jsval := if truthy a then a else b.

(** [logo || undefined], read back as an optional string:
    [None] is [undefined]. *)
Definition or_undefined (logo : option string) : option string :=
  match js_or (of_nullable logo) JsUndefined with
  | JsString s => Some s
  | _ => None
  end.

Lemma object_is_true a b : object_is a b = true <-> a = b.
Proof.
  destruct a as [x| |], b as [y| |]; simpl; try (split; congruence).
  rewrite String.eqb_eq. split; congruence.
Qed.

Lemma object_is_refl a : object_is a a = true.
Proof. by apply object_is_true. Qed.

Lemma object_is_string x y : object_is (JsString x) (JsString y) = String.eqb x y.
Proof. done. Qed.

Lemma of_nullable_inj v w : of_nullable v = of_nullable w -> v = w.
Proof. destruct v, w; simpl; congruence. Qed.

(** [logo || undefined] keeps every non-empty logo and drops [null] and
    the empty string. *)
Lemma or_undefined_some s : s <> "" -> or_undefined (Some s) = Some s.
Proof.
  intros Hs. unfold or_undefined, js_or. simpl.
  destruct (String.eqb_spec s ""); [contradiction|done].
Qed.

(** [logo || undefined] (line 59) sends the library [image:
    undefined] exactly when the logo cell is [null] or the empty string:
    JavaScript's truthiness drops an empty logo along with a missing one. *)
Lemma or_undefined_none_iff v :
  or_undefined v = None <-> v = None \/ v = Some "".
Proof.
  unfold or_undefined, js_or. destruct v as [s|]; simpl.
  - destruct (String.eqb_spec s ""); simpl; subst; [naive_solver|].
    split; [done|]. intros [|]; congruence.
  - naive_solver.
Qed.

#[export] Hint Resolve object_is_refl or_undefined_some : qr.
