(* ===== verification/ReactHooks.v ===== *)
(** * What the component relies on from React

    Two pieces of React's hook implementation decide when the component
    re-renders and when its effects run:
    - the setter returned by [useState] bails out, without scheduling a
      render, when the new value is [Object.is] the current one
      (React's [dispatchSetState] eager path);
    - an effect with a dependency list runs at mount, and after a later
      render only when [areHookInputsEqual(nextDeps, prevDeps)] is false
      (React's [updateEffectImpl]).  [areHookInputsEqual] compares the two
      lists element-wise with [Object.is] up to the shorter length.
    The definitions follow React's source for these functions; the
    component calls them through [useState] and [useEffect]. *)

From stdpp Require Import base list strings.
From S2P Require Import Prelude JsValues.

(** [areHookInputsEqual(nextDeps, prevDeps)]: the loop runs while
    [i < prevDeps.length && i < nextDeps.length]. *)
Fixpoint are_hook_inputs_equal (next prev : list jsval) : bool :=
  match next, prev with
  | x :: next', y :: prev' => object_is x y && are_hook_inputs_equal next' prev'
  | _, _ => true
  end.

(** Whether an effect runs after a commit: [None] is the mount, where
    the effect always runs. *)
Definition effect_should_run (prev : option (list jsval)) (next : list jsval) : bool :=
  match prev with
  | None => true
  | Some p => negb (are_hook_inputs_equal next p)
  end.

(** [setX(v)] on a cell holding [cur]: the value the cell holds after the
    call, and whether a render is scheduled. *)
Definition set_state (cur v : jsval) : jsval * bool :=
  if object_is v cur then (cur, false) else (v, true).

Lemma are_hook_inputs_equal_same_length next prev :
  length next = length prev ->
  are_hook_inputs_equal next prev = true <-> next = prev.
Proof.
  revert prev; induction next as [|x next IH]; intros [|y prev] Hlen;
    simpl in *; try done.
  rewrite andb_true_iff, object_is_true, (IH prev) by lia.
  split; [intros [-> ->]; done | intros Heq; by injection Heq].
Qed.

Lemma are_hook_inputs_equal_refl deps : are_hook_inputs_equal deps deps = true.
Proof. by apply are_hook_inputs_equal_same_length. Qed.

(** An effect with the empty dependency list runs once, at mount. *)
Lemma effect_should_run_empty prev :
  effect_should_run prev [] = bool_decide (prev = None).
Proof. by destruct prev as [[|]|]. Qed.

Lemma effect_should_run_same deps : effect_should_run (Some deps) deps = false.
Proof. simpl. by rewrite are_hook_inputs_equal_refl. Qed.

Lemma set_state_same cur : set_state cur cur = (cur, false).
Proof. unfold set_state. by rewrite object_is_refl. Qed.

Lemma set_state_changed cur v : v <> cur -> set_state cur v = (v, true).
Proof.
  intros Hne. unfold set_state.
  destruct (object_is v cur) eqn:E; [|done].
  apply object_is_true in E. contradiction.
Qed.

#[export] Hint Resolve are_hook_inputs_equal_refl : qr.
#[export] Hint Rewrite effect_should_run_same set_state_same : qr_rw.
