(* ===== verification/StyleTypes.v ===== *)
(** * Style vocabularies and the three [<select>] elements

    The component types its style cells with the library's [DotType],
    [CornerDotType] and [CornerSquareType] (imported at line 3 of
    [QRGeneratorPro.tsx]).  At run time these are plain strings, and the
    [onChange] handlers cast [e.target.value] to them without a check
    (lines 120, 136, 149).  This file gives the three types as inductive
    types with their string forms (qr-code-styling's [types/index.ts]),
    the option lists of the three [<select>] elements (lines 122-127,
    138-139, 152-153), and the simple-colour strings an
    [<input type="color">] produces (HTML's value sanitization: ["#"]
    followed by six lower-case hexadecimal digits). *)

From Stdlib Require Import Ascii.
From stdpp Require Import base list strings finite.
From S2P Require Import Prelude.

Inductive DotType :=
| DotDots | DotRounded | DotClassy | DotClassyRounded | DotSquare | DotExtraRounded.

Inductive CornerDotType := CornerDotDot | CornerDotSquare.

Inductive CornerSquareType :=
| CornerSquareDot | CornerSquareSquare | CornerSquareExtraRounded.

Definition string_of_dot_type (t : DotType) : string :=
  match t with
  | DotDots => "dots"
  | DotRounded => "rounded"
  | DotClassy => "classy"
  | DotClassyRounded => "classy-rounded"
  | DotSquare => "square"
  | DotExtraRounded => "extra-rounded"
  end.

Definition dot_type_of_string (s : string) : option DotType :=
  if String.eqb s "dots" then Some DotDots
  else if String.eqb s "rounded" then Some DotRounded
  else if String.eqb s "classy" then Some DotClassy
  else if String.eqb s "classy-rounded" then Some DotClassyRounded
  else if String.eqb s "square" then Some DotSquare
  else if String.eqb s "extra-rounded" then Some DotExtraRounded
  else None.

Definition string_of_corner_dot_type (t : CornerDotType) : string :=
  match t with
  | CornerDotDot => "dot"
  | CornerDotSquare => "square"
  end.

Definition corner_dot_type_of_string (s : string) : option CornerDotType :=
  if String.eqb s "dot" then Some CornerDotDot
  else if String.eqb s "square" then Some CornerDotSquare
  else None.

Definition string_of_corner_square_type (t : CornerSquareType) : string :=
  match t with
  | CornerSquareDot => "dot"
  | CornerSquareSquare => "square"
  | CornerSquareExtraRounded => "extra-rounded"
  end.

Definition corner_square_type_of_string (s : string) : option CornerSquareType :=
  if String.eqb s "dot" then Some CornerSquareDot
  else if String.eqb s "square" then Some CornerSquareSquare
  else if String.eqb s "extra-rounded" then Some CornerSquareExtraRounded
  else None.

(** The [<option value=... >label</option>] children of each select. *)
Definition dot_style_options : list (string * string) :=
  [("square", "Square"); ("dots", "Dots"); ("rounded", "Rounded");
   ("classy", "Classy"); ("classy-rounded", "Classy Rounded");
   ("extra-rounded", "Extra Rounded")].

Definition corner_dot_style_options : list (string * string) :=
  [("square", "Square"); ("dot", "Dot")].

Definition corner_square_style_options : list (string * string) :=
  [("square", "Square"); ("extra-rounded", "Extra Rounded")].

(** The value a [<select>] reports in [e.target.value] is the value of one
    of its options. *)
Definition select_value_ok (opts : list (string * string)) (v : string) : bool :=
  bool_decide (v ∈ map fst opts).

Definition is_lower_hex (c : Ascii.ascii) : bool :=
  let n := Ascii.nat_of_ascii c in
  (Nat.leb 48 n && Nat.leb n 57) || (Nat.leb 97 n && Nat.leb n 102).

Fixpoint all_lower_hex (s : string) : bool :=
  match s with
  | EmptyString => true
  | String c s' => is_lower_hex c && all_lower_hex s'
  end.

(** A valid lower-case simple colour, as [<input type="color">] reports it. *)
Definition is_simple_color (s : string) : bool :=
  match s with
  | String c rest =>
      Ascii.eqb c "#"%char && Nat.eqb (String.length rest) 6 && all_lower_hex rest
  | _ => false
  end.

#[export] Instance DotType_eq_dec : EqDecision DotType.
Proof. solve_decision. Defined.
#[export] Instance CornerDotType_eq_dec : EqDecision CornerDotType.
Proof. solve_decision. Defined.
#[export] Instance CornerSquareType_eq_dec : EqDecision CornerSquareType.
Proof. solve_decision. Defined.

#[export] Program Instance DotType_finite : Finite DotType :=
  {| enum := [DotDots; DotRounded; DotClassy; DotClassyRounded; DotSquare; DotExtraRounded] |}.
Next Obligation. apply (bool_decide_unpack _). by vm_compute. Qed.
Next Obligation. intros []; apply (bool_decide_unpack _); by vm_compute. Qed.

#[export] Program Instance CornerDotType_finite : Finite CornerDotType :=
  {| enum := [CornerDotDot; CornerDotSquare] |}.
Next Obligation. apply (bool_decide_unpack _). by vm_compute. Qed.
Next Obligation. intros []; apply (bool_decide_unpack _); by vm_compute. Qed.

#[export] Program Instance CornerSquareType_finite : Finite CornerSquareType :=
  {| enum := [CornerSquareDot; CornerSquareSquare; CornerSquareExtraRounded] |}.
Next Obligation. apply (bool_decide_unpack _). by vm_compute. Qed.
Next Obligation. intros []; apply (bool_decide_unpack _); by vm_compute. Qed.

(** ** The string forms *)

Lemma dot_type_roundtrip t : dot_type_of_string (string_of_dot_type t) = Some t.
Proof. by destruct t. Qed.

Lemma corner_dot_type_roundtrip t :
  corner_dot_type_of_string (string_of_corner_dot_type t) = Some t.
Proof. by destruct t. Qed.

Lemma corner_square_type_roundtrip t :
  corner_square_type_of_string (string_of_corner_square_type t) = Some t.
Proof. by destruct t. Qed.

(** Reduce a parser equation to the literal the string is equal to. *)
Ltac parse_cases :=
  repeat match goal with
  | H : context [String.eqb ?s ?lit] |- _ =>
      destruct (String.eqb_spec s lit); simplify_eq
  end.

Lemma dot_type_of_string_inv s t :
  dot_type_of_string s = Some t -> string_of_dot_type t = s.
Proof. unfold dot_type_of_string. intros H. by parse_cases. Qed.

Lemma corner_dot_type_of_string_inv s t :
  corner_dot_type_of_string s = Some t -> string_of_corner_dot_type t = s.
Proof. unfold corner_dot_type_of_string. intros H. by parse_cases. Qed.

Lemma corner_square_type_of_string_inv s t :
  corner_square_type_of_string s = Some t -> string_of_corner_square_type t = s.
Proof. unfold corner_square_type_of_string. intros H. by parse_cases. Qed.

(** ** The selects report values of the types *)

Lemma select_value_ok_elem opts v : select_value_ok opts v = true <-> v ∈ opts.*1.
Proof. apply bool_decide_eq_true. Qed.

Lemma dot_select_parses v :
  select_value_ok dot_style_options v = true ->
  option_map string_of_dot_type (dot_type_of_string v) = Some v.
Proof. rewrite select_value_ok_elem. simpl. intros H. by elem_cases H. Qed.

Lemma corner_dot_select_parses v :
  select_value_ok corner_dot_style_options v = true ->
  option_map string_of_corner_dot_type (corner_dot_type_of_string v) = Some v.
Proof. rewrite select_value_ok_elem. simpl. intros H. by elem_cases H. Qed.

Lemma corner_square_select_parses v :
  select_value_ok corner_square_style_options v = true ->
  option_map string_of_corner_square_type (corner_square_type_of_string v) = Some v.
Proof. rewrite select_value_ok_elem. simpl. intros H. by elem_cases H. Qed.

Lemma dot_select_is_Some v :
  select_value_ok dot_style_options v = true -> is_Some (dot_type_of_string v).
Proof. intros H. eapply option_map_is_Some, dot_select_parses, H. Qed.

Lemma corner_dot_select_is_Some v :
  select_value_ok corner_dot_style_options v = true -> is_Some (corner_dot_type_of_string v).
Proof. intros H. eapply option_map_is_Some, corner_dot_select_parses, H. Qed.

Lemma corner_square_select_is_Some v :
  select_value_ok corner_square_style_options v = true ->
  is_Some (corner_square_type_of_string v).
Proof. intros H. eapply option_map_is_Some, corner_square_select_parses, H. Qed.

#[export] Hint Resolve dot_select_is_Some corner_dot_select_is_Some
  corner_square_select_is_Some : qr.

(** ** Properties of the vocabularies *)

(** every value a style [<select>] of lines 118-154 can report
    parses as a variant of the type its setter casts it to, and prints back
    to the same string. *)
Theorem select_values_parse v :
  (select_value_ok dot_style_options v = true ->
   option_map string_of_dot_type (dot_type_of_string v) = Some v) /\
  (select_value_ok corner_dot_style_options v = true ->
   option_map string_of_corner_dot_type (corner_dot_type_of_string v) = Some v) /\
  (select_value_ok corner_square_style_options v = true ->
   option_map string_of_corner_square_type (corner_square_type_of_string v) = Some v).
Proof.
  split_and!; [apply dot_select_parses | apply corner_dot_select_parses
              | apply corner_square_select_parses].
Qed.

(** the string forms of the three library types are a bijection
    with their parsers: printing then parsing gives the variant back, and
    a parsed string is the string form of the variant it parses to. *)
Theorem style_type_strings_roundtrip :
  (forall t, dot_type_of_string (string_of_dot_type t) = Some t) /\
  (forall s t, dot_type_of_string s = Some t -> string_of_dot_type t = s) /\
  (forall t, corner_dot_type_of_string (string_of_corner_dot_type t) = Some t) /\
  (forall s t, corner_dot_type_of_string s = Some t -> string_of_corner_dot_type t = s) /\
  (forall t, corner_square_type_of_string (string_of_corner_square_type t) = Some t) /\
  (forall s t, corner_square_type_of_string s = Some t -> string_of_corner_square_type t = s).
Proof.
  split_and!; eauto using dot_type_roundtrip, dot_type_of_string_inv,
    corner_dot_type_roundtrip, corner_dot_type_of_string_inv,
    corner_square_type_roundtrip, corner_square_type_of_string_inv.
Qed.

(** the dot-style and corner-dot selects offer every variant of
    [DotType] and [CornerDotType], with no value twice; the corner-square
    select offers two of the three variants of [CornerSquareType]: the
    library's ["dot"] cannot be chosen. *)
Theorem select_coverage :
  (forall t, select_value_ok dot_style_options (string_of_dot_type t) = true) /\
  (forall t, select_value_ok corner_dot_style_options (string_of_corner_dot_type t) = true) /\
  select_value_ok corner_square_style_options (string_of_corner_square_type CornerSquareDot) = false /\
  (forall t, t <> CornerSquareDot ->
     select_value_ok corner_square_style_options (string_of_corner_square_type t) = true) /\
  NoDup dot_style_options.*1 /\ NoDup corner_dot_style_options.*1 /\
  NoDup corner_square_style_options.*1.
Proof.
  split_and!; try (intros []; done); try (apply (bool_decide_unpack _); by vm_compute).
Qed.
