(* ===== verification/QRStyling.v ===== *)
(** * The qr-code-styling interface the component calls

    [QRGeneratorPro.tsx] creates one [QRCodeStyling] object (lines 25-46)
    and calls three of its methods: [append(container)] (line 51),
    [update(options)] (lines 57-73) and [download({name, extension})]
    (line 98).  This file holds
    - the data the calls carry: the [Options] record of the constructor,
      the payload of [update] (the object literal of lines 57-73), the
      download options, and the calls themselves as the type [QRCall];
    - [merge_payload]: how [update] merges a payload into the options
      (qr-code-styling's [mergeDeep]: every key of the payload overwrites
      the key of the options, nested objects key by key; the payload has
      every key it names, [image: undefined] included);
    - the class [QRStylingApi] of what the component uses of the object
      and the class [QRStylingLaws] of what it relies on: the options a
      call leaves behind and the container it attaches to;
    - [QRModel], a reference implementation that discharges the laws, used
      to run the component on concrete inputs. *)

From stdpp Require Import base list strings.
From S2P Require Import Prelude.

Inductive DrawType := DrawCanvas | DrawSvg.

(** The library's [FileExtension]. *)
Inductive FileExtension := ExtSvg | ExtPng | ExtJpeg | ExtWebp.

(** A DOM element, by identity. *)
Definition Element := nat.

(** The constructor options, the fields the component sets. *)
Record Options := mkOptions {
  opt_width : nat;
  opt_height : nat;
  opt_type : DrawType;
  opt_data : string;
  opt_image : option string;
  opt_dots_color : string;
  opt_dots_type : string;
  opt_corners_dot_type : string;
  opt_corners_square_type : string;
  opt_background_color : string
}.

(** The object passed to [qr.update] (lines 57-73); [up_image = None] is
    [image: undefined]. *)
Record UpdatePayload := mkPayload {
  up_data : string;
  up_image : option string;
  up_dots_color : string;
  up_dots_type : string;
  up_corners_dot_type : string;
  up_corners_square_type : string;
  up_background_color : string
}.

#[export] Instance UpdatePayload_eq_dec : EqDecision UpdatePayload.
Proof. solve_decision. Defined.

Record DownloadOptions := mkDownload {
  dl_name : string;
  dl_extension : FileExtension
}.

(** A method call on the instance. *)
Inductive QRCall :=
| CallAppend (el : Element)
| CallUpdate (p : UpdatePayload)
| CallDownload (d : DownloadOptions).

(** [this._options = mergeDeep(this._options, options)]: the payload's
    keys overwrite, the keys it does not name ([width], [height], [type])
    are kept. *)
Definition merge_payload (p : UpdatePayload) (o : Options) : Options :=
  {| opt_width := opt_width o;
     opt_height := opt_height o;
     opt_type := opt_type o;
     opt_data := up_data p;
     opt_image := up_image p;
     opt_dots_color := up_dots_color p;
     opt_dots_type := up_dots_type p;
     opt_corners_dot_type := up_corners_dot_type p;
     opt_corners_square_type := up_corners_square_type p;
     opt_background_color := up_background_color p |}.

(** What the component uses of a [QRCodeStyling] object. *)
Class QRStylingApi (T : Type) := {
  qr_new : Options -> T;
  qr_call : QRCall -> T -> T;
  qr_options : T -> Options;
  qr_container : T -> option Element
}.

(** What the component relies on. *)
Class QRStylingLaws (T : Type) `{QRStylingApi T} : Prop := {
  qr_new_options o : qr_options (qr_new o) = o;
  qr_new_container o : qr_container (qr_new o) = None;
  qr_update_options p q : qr_options (qr_call (CallUpdate p) q) = merge_payload p (qr_options q);
  qr_update_container p q : qr_container (qr_call (CallUpdate p) q) = qr_container q;
  qr_append_options el q : qr_options (qr_call (CallAppend el) q) = qr_options q;
  qr_append_container el q : qr_container (qr_call (CallAppend el) q) = Some el;
  qr_download_options d q : qr_options (qr_call (CallDownload d) q) = qr_options q;
  qr_download_container d q : qr_container (qr_call (CallDownload d) q) = qr_container q
}.

(** The object after a trace of calls, oldest first. *)
Definition replay `{QRStylingApi T} (calls : list QRCall) (q : T) : T :=
  fold_left (fun q c => qr_call c q) calls q.

(** The payload of a call, when it is an [update]. *)
Definition update_of (c : QRCall) : option UpdatePayload :=
  match c with CallUpdate p => Some p | _ => None end.

(** The element of a call, when it is an [append]. *)
Definition append_of (c : QRCall) : option Element :=
  match c with CallAppend el => Some el | _ => None end.

(** The options of a call, when it is a [download]. *)
Definition download_of (c : QRCall) : option DownloadOptions :=
  match c with CallDownload d => Some d | _ => None end.

(** Whether a call is an [update]. *)
Definition is_update (c : QRCall) : bool :=
  match c with CallUpdate _ => true | _ => false end.

(** Whether a call is an [append]. *)
Definition is_append (c : QRCall) : bool :=
  match c with CallAppend _ => true | _ => false end.

(** ** The reference implementation *)

Record QRModel := mkQRModel {
  m_options : Options;
  m_container : option Element;
  m_downloads : list DownloadOptions
}.

Definition qr_model_call (c : QRCall) (q : QRModel) : QRModel :=
  match c with
  | CallAppend el => mkQRModel (m_options q) (Some el) (m_downloads q)
  | CallUpdate p => mkQRModel (merge_payload p (m_options q)) (m_container q) (m_downloads q)
  | CallDownload d => mkQRModel (m_options q) (m_container q) (m_downloads q +: d)
  end.

#[export] Instance QRModel_api : QRStylingApi QRModel := {|
  qr_new o := mkQRModel o None [];
  qr_call := qr_model_call;
  qr_options := m_options;
  qr_container := m_container
|}.

#[export] Instance QRModel_laws : QRStylingLaws QRModel.
Proof. split; done. Qed.

(** ** What a trace of calls leaves behind *)

Lemma merge_payload_twice p p' o :
  merge_payload p (merge_payload p' o) = merge_payload p o.
Proof. done. Qed.

Section Replay.
Context `{Laws : QRStylingLaws T}.

Lemma replay_snoc (calls : list QRCall) c (q : T) :
  replay (calls +: c) q = qr_call c (replay calls q).
Proof. unfold replay. by rewrite fold_left_app. Qed.

(** The options are those of the last [update], merged into the
    constructor's. *)
Lemma replay_options (calls : list QRCall) (q : T) :
  qr_options (replay calls q) =
  match last_match update_of calls with
  | Some p => merge_payload p (qr_options q)
  | None => qr_options q
  end.
Proof.
  induction calls as [|c calls IH] using rev_ind; [done|].
  rewrite replay_snoc, last_match_app.
  destruct c as [el|p|d]; simpl.
  - by rewrite qr_append_options, IH.
  - by rewrite qr_update_options, IH; destruct (last_match update_of calls).
  - by rewrite qr_download_options, IH.
Qed.

(** The container is that of the last [append]. *)
Lemma replay_container (calls : list QRCall) (q : T) :
  qr_container (replay calls q) =
  match last_match append_of calls with
  | Some el => Some el
  | None => qr_container q
  end.
Proof.
  induction calls as [|c calls IH] using rev_ind; [done|].
  rewrite replay_snoc, last_match_app.
  destruct c as [el|p|d]; simpl.
  - by rewrite qr_append_container.
  - by rewrite qr_update_container, IH.
  - by rewrite qr_download_container, IH.
Qed.
End Replay.
