(* ===== verification/DataUrl.v ===== *)
(** * Files and [FileReader.readAsDataURL]

    [handleLogoUpload] (lines 85-94 of [QRGeneratorPro.tsx]) reads the
    picked file with [reader.readAsDataURL(file)] and stores
    [reader.result as string] as the logo.  This file models the picked
    [File] and the string the read produces, after the W3C File API:
    ["data:" ++ type ++ ";base64," ++ base64(bytes)], with the base64
    encoding of RFC 4648 written out on bytes (each group of three bytes
    becomes four characters of the alphabet, a final group of one or two
    bytes is padded with ["="]), and its decoder. *)

From Stdlib Require Import Ascii NArith Wf_nat.
From stdpp Require Import base list strings.
From S2P Require Import Prelude.

Record File := mkFile {
  file_name : string;
  file_type : string;
  file_bytes : list Byte.byte
}.

Definition b64_alphabet : string :=
  "ABCDEFGHIJKLMNOPQRSTUVWXYZabcdefghijklmnopqrstuvwxyz0123456789+/".

(** The character of a sextet ([n < 64]). *)
Definition b64_char (n : N) : ascii :=
  match String.get (N.to_nat n) b64_alphabet with
  | Some c => c
  | None => "="%char
  end.

Definition bval (b : Byte.byte) : N := Byte.to_N b.

(** The four sextets of three bytes, as encoders compute them. *)
Definition sextets3 (b1 b2 b3 : N) : N * N * N * N :=
  (N.shiftr b1 2,
   N.lor (N.shiftl (N.land b1 3) 4) (N.shiftr b2 4),
   N.lor (N.shiftl (N.land b2 15) 2) (N.shiftr b3 6),
   N.land b3 63).

Fixpoint base64_encode (bs : list Byte.byte) : string :=
  match bs with
  | [] => EmptyString
  | [b1] =>
      let '(s1, s2, _, _) := sextets3 (bval b1) 0 0 in
      String (b64_char s1) (String (b64_char s2) (String "=" (String "=" EmptyString)))
  | [b1; b2] =>
      let '(s1, s2, s3, _) := sextets3 (bval b1) (bval b2) 0 in
      String (b64_char s1) (String (b64_char s2) (String (b64_char s3) (String "=" EmptyString)))
  | b1 :: b2 :: b3 :: rest =>
      let '(s1, s2, s3, s4) := sextets3 (bval b1) (bval b2) (bval b3) in
      String (b64_char s1) (String (b64_char s2) (String (b64_char s3)
        (String (b64_char s4) (base64_encode rest))))
  end.

(** The media type a data URL carries: the file's, or
    ["application/octet-stream"] when the browser knows none (an empty
    [type], as Chrome and Firefox write it). *)
Definition data_url_type (f : File) : string :=
  if String.eqb (file_type f) "" then "application/octet-stream" else file_type f.

(** [reader.result] after [readAsDataURL(file)] has completed. *)
Definition read_as_data_url (f : File) : string :=
  String.append "data:"
    (String.append (data_url_type f) (String.append ";base64," (base64_encode (file_bytes f)))).

(** ** The decoder *)

(** The position of a character in the alphabet. *)
Fixpoint string_index (c : ascii) (s : string) (i : N) : option N :=
  match s with
  | EmptyString => None
  | String c' s' => if Ascii.eqb c c' then Some i else string_index c s' (N.succ i)
  end.

Definition b64_value (c : ascii) : option N := string_index c b64_alphabet 0.

(** The three bytes of four sextets, the inverse of [sextets3]. *)
Definition byte1_of (s1 s2 : N) : N := N.lor (N.shiftl s1 2) (N.shiftr s2 4).
Definition byte2_of (s2 s3 : N) : N := N.lor (N.shiftl (N.land s2 15) 4) (N.shiftr s3 2).
Definition byte3_of (s3 s4 : N) : N := N.lor (N.shiftl (N.land s3 3) 6) s4.

Fixpoint base64_decode (s : string) : option (list Byte.byte) :=
  match s with
  | EmptyString => Some []
  | String c1 (String c2 (String c3 (String c4 rest))) =>
      s1 ← b64_value c1; s2 ← b64_value c2;
      if Ascii.eqb c3 "=" then
        if Ascii.eqb c4 "=" && String.eqb rest "" then
          b1 ← Byte.of_N (byte1_of s1 s2); Some [b1]
        else None
      else
        s3 ← b64_value c3;
        if Ascii.eqb c4 "=" then
          if String.eqb rest "" then
            b1 ← Byte.of_N (byte1_of s1 s2); b2 ← Byte.of_N (byte2_of s2 s3); Some [b1; b2]
          else None
        else
          s4 ← b64_value c4;
          b1 ← Byte.of_N (byte1_of s1 s2); b2 ← Byte.of_N (byte2_of s2 s3);
          b3 ← Byte.of_N (byte3_of s3 s4);
          rest' ← base64_decode rest; Some (b1 :: b2 :: b3 :: rest')
  | _ => None
  end.

(** The bytes of a data URL with the given media type, if it is one. *)
Definition data_url_bytes (type : string) (url : string) : option (list Byte.byte) :=
  let prefix := String.append "data:" (String.append type ";base64,") in
  if String.prefix prefix url
  then base64_decode (String.substring (String.length prefix) (String.length url) url)
  else None.

(** ** Exhaustive checks on bytes *)

Definition nums (n : nat) : list N := N.of_nat <$> seq 0 n.

(** A boolean test on every pair of numbers below [n]. *)
Definition forall_pairs (n : nat) (p : N -> N -> bool) : bool :=
  forallb (fun x => forallb (p x) (nums n)) (nums n).

(** What [sextets3] and the [byteK_of] satisfy on two consecutive bytes. *)
Definition check_b1_b2 (b1 b2 : N) : bool :=
  let '(s1, s2, _, _) := sextets3 b1 b2 0 in
  N.ltb s1 64 && N.ltb s2 64 && N.eqb (byte1_of s1 s2) b1 &&
  N.eqb (N.land s2 15) (N.shiftr b2 4).

Definition check_b2_b3 (b2 b3 : N) : bool :=
  let '(_, _, s3, s4) := sextets3 0 b2 b3 in
  N.ltb s3 64 && N.ltb s4 64 &&
  N.eqb (N.lor (N.shiftl (N.shiftr b2 4) 4) (N.shiftr s3 2)) b2 &&
  N.eqb (byte3_of s3 s4) b3.

Definition check_char (s : N) : bool :=
  match b64_value (b64_char s) with
  | Some s' => N.eqb s' s && negb (Ascii.eqb (b64_char s) "=")
  | None => false
  end.

Lemma nums_spec (n : nat) (x : N) : (x < N.of_nat n)%N -> In x (nums n).
Proof.
  intros Hx. apply in_map_iff. exists (N.to_nat x). split; [apply N2Nat.id|].
  apply in_seq. lia.
Qed.

Lemma forallb_nums (n : nat) p (x : N) :
  forallb p (nums n) = true -> (x < N.of_nat n)%N -> p x = true.
Proof. intros H Hx. eapply forallb_forall; [exact H|]. by apply nums_spec. Qed.

Lemma forall_pairs_spec (n : nat) p (x y : N) :
  forall_pairs n p = true -> (x < N.of_nat n)%N -> (y < N.of_nat n)%N -> p x y = true.
Proof. intros H Hx Hy. by apply (forallb_nums n); [apply (forallb_nums n (fun x => forallb (p x) (nums n)))|]. Qed.

Lemma check_b1_b2_all : forall_pairs 256 check_b1_b2 = true.
Proof. vm_compute. reflexivity. Qed.

Lemma check_b2_b3_all : forall_pairs 256 check_b2_b3 = true.
Proof. vm_compute. reflexivity. Qed.

Lemma check_char_all : forallb check_char (nums 64) = true.
Proof. vm_compute. reflexivity. Qed.

Lemma b64_char_spec (s : N) :
  (s < 64)%N -> b64_value (b64_char s) = Some s /\ Ascii.eqb (b64_char s) "=" = false.
Proof.
  intros Hs. pose proof (forallb_nums 64 _ s check_char_all Hs) as H.
  unfold check_char in H. destruct (b64_value (b64_char s)) as [s'|]; [|done].
  apply andb_true_iff in H as [->%N.eqb_eq ->%negb_true_iff]. done.
Qed.

Lemma bval_lt b : (bval b < 256)%N.
Proof. pose proof (Byte.to_N_bounded b). unfold bval. lia. Qed.

Lemma of_N_bval b : Byte.of_N (bval b) = Some b.
Proof. apply Byte.of_to_N. Qed.

Lemma sextets_b1_b2 (b1 b2 : N) :
  (b1 < 256)%N -> (b2 < 256)%N ->
  let s2 := N.lor (N.shiftl (N.land b1 3) 4) (N.shiftr b2 4) in
  (N.shiftr b1 2 < 64)%N /\ (s2 < 64)%N /\ byte1_of (N.shiftr b1 2) s2 = b1 /\
  N.land s2 15 = N.shiftr b2 4.
Proof.
  intros H1 H2. pose proof (forall_pairs_spec 256 _ b1 b2 check_b1_b2_all H1 H2) as H.
  unfold check_b1_b2, sextets3 in H. simpl.
  repeat rewrite andb_true_iff in H. destruct H as [[[?%N.ltb_lt ?%N.ltb_lt] ?%N.eqb_eq] ?%N.eqb_eq].
  done.
Qed.

Lemma sextets_b2_b3 (b2 b3 : N) :
  (b2 < 256)%N -> (b3 < 256)%N ->
  let s3 := N.lor (N.shiftl (N.land b2 15) 2) (N.shiftr b3 6) in
  (s3 < 64)%N /\ (N.land b3 63 < 64)%N /\
  N.lor (N.shiftl (N.shiftr b2 4) 4) (N.shiftr s3 2) = b2 /\
  byte3_of s3 (N.land b3 63) = b3.
Proof.
  intros H2 H3. pose proof (forall_pairs_spec 256 _ b2 b3 check_b2_b3_all H2 H3) as H.
  unfold check_b2_b3, sextets3 in H. simpl.
  repeat rewrite andb_true_iff in H. destruct H as [[[?%N.ltb_lt ?%N.ltb_lt] ?%N.eqb_eq] ?%N.eqb_eq].
  done.
Qed.

(** A data URL starts with ["data:"]: it is never the empty string, so
    [logo || undefined] keeps it. *)
Lemma read_as_data_url_nonempty f : read_as_data_url f <> "".
Proof. done. Qed.

(** Rewrite the sextet lookups of a group and the bytes it decodes to. *)
Ltac b64_group :=
  repeat match goal with
  | H : (?s < 64)%N |- context [b64_value (b64_char ?s)] =>
      rewrite (proj1 (b64_char_spec s H))
  | H : (?s < 64)%N |- context [Ascii.eqb (b64_char ?s) "="] =>
      rewrite (proj2 (b64_char_spec s H))
  end.

Theorem base64_roundtrip bs : base64_decode (base64_encode bs) = Some bs.
Proof.
  remember (length bs) as n eqn:Hn. revert bs Hn.
  induction n as [n IH] using lt_wf_ind. intros bs Hn.
  destruct bs as [|b1 [|b2 [|b3 rest]]]; [done| | |].
  - destruct (sextets_b1_b2 (bval b1) 0 (bval_lt b1) ltac:(lia)) as (H1 & H2 & H3 & _).
    cbn [base64_encode sextets3 base64_decode]. b64_group. simpl.
    by rewrite H3, of_N_bval.
  - destruct (sextets_b1_b2 (bval b1) (bval b2) (bval_lt b1) (bval_lt b2)) as (H1 & H2 & H3 & H4).
    destruct (sextets_b2_b3 (bval b2) 0 (bval_lt b2) ltac:(lia)) as (H5 & _ & H6 & _).
    cbn [base64_encode sextets3 base64_decode]. b64_group. simpl.
    unfold byte2_of. by rewrite H3, H4, H6, !of_N_bval.
  - destruct (sextets_b1_b2 (bval b1) (bval b2) (bval_lt b1) (bval_lt b2)) as (H1 & H2 & H3 & H4).
    destruct (sextets_b2_b3 (bval b2) (bval b3) (bval_lt b2) (bval_lt b3)) as (H5 & H7 & H6 & H8).
    cbn [base64_encode sextets3 base64_decode]. b64_group. simpl.
    unfold byte2_of. rewrite H3, H4, H6, H8, !of_N_bval. simpl.
    by rewrite (IH (length rest)) by (simpl in Hn; lia).
Qed.

Lemma string_prefix_append p s : String.prefix p (String.append p s) = true.
Proof.
  induction p as [|c p IH]; simpl; [by destruct s|].
  destruct (Ascii.ascii_dec c c); [done|contradiction].
Qed.

Lemma substring_0_all s m : String.length s <= m -> String.substring 0 m s = s.
Proof.
  revert m. induction s as [|c s IH]; intros [|m] Hm; simpl in *; try done; [lia|].
  f_equal. apply IH. lia.
Qed.

Lemma substring_after_prefix p s m :
  String.length p + String.length s <= m + String.length p ->
  String.substring (String.length p) m (String.append p s) = s.
Proof.
  induction p as [|c p IH]; simpl; intros Hm; [apply substring_0_all; lia|].
  apply IH. lia.
Qed.

Lemma string_append_assoc a b c :
  String.append (String.append a b) c = String.append a (String.append b c).
Proof.
  induction a as [|x a IH]; [done|].
  change (String x (String.append (String.append a b) c) =
          String x (String.append a (String.append b c))). by rewrite IH.
Qed.

Lemma string_length_append p s :
  String.length (String.append p s) = String.length p + String.length s.
Proof.
  induction p as [|c p IH]; [done|].
  change (S (String.length (String.append p s)) = S (String.length p) + String.length s).
  by rewrite IH.
Qed.

(** Stripping the ["data:<type>;base64,"] prefix of [read_as_data_url f]
    and base64-decoding the rest gives back exactly the bytes of [f]. *)
Theorem data_url_roundtrip f :
  data_url_bytes (data_url_type f) (read_as_data_url f) = Some (file_bytes f).
Proof.
  unfold data_url_bytes, read_as_data_url.
  rewrite <- !string_append_assoc, string_prefix_append, substring_after_prefix.
  - apply base64_roundtrip.
  - rewrite !string_length_append. lia.
Qed.

Lemma base64_encode_length bs :
  String.length (base64_encode bs) = 4 * ((length bs + 2) / 3).
Proof.
  remember (length bs) as n eqn:Hn. revert bs Hn.
  induction n as [n IH] using lt_wf_ind. intros bs Hn.
  destruct bs as [|b1 [|b2 [|b3 rest]]]; simpl in Hn; subst n; try done.
  cbn [base64_encode sextets3 String.length].
  rewrite (IH (length rest)); [| simpl; lia | done].
  simpl length. replace (S (S (S (length rest))) + 2) with ((length rest + 2) + 1 * 3) by lia.
  rewrite Nat.div_add by lia. lia.
Qed.

(** The data URL of a file of [n] bytes and media type [t] has exactly
    [13 + length t + 4 * ceil(n / 3)] characters ("data:", ";base64,"
    and four characters per started group of three bytes). *)
Lemma read_as_data_url_length f :
  String.length (read_as_data_url f) =
  13 + String.length (data_url_type f) + 4 * ((length (file_bytes f) + 2) / 3).
Proof.
  unfold read_as_data_url. rewrite !string_length_append, base64_encode_length.
  simpl. lia.
Qed.
