(* ===== verification/JsObject.v ===== *)
(** * JavaScript objects and qr-code-styling's [mergeDeep]

    The options of a [QRCodeStyling] object are a plain JavaScript object,
    and [update(options)] merges its argument into them with the library's
    [mergeDeep] (qr-code-styling, [src/tools/merge.ts]):

      mergeDeep(target, ...sources):
        if (!sources.length) return target;
        const source = sources.shift();
        if (source === undefined || !isObject(target) || !isObject(source))
          return target;
        target = { ...target };
        Object.keys(source).forEach((key) => {
          const targetValue = target[key]; const sourceValue = source[key];
          if (Array.isArray(targetValue) && Array.isArray(sourceValue))
            target[key] = sourceValue;
          else if (isObject(targetValue) && isObject(sourceValue))
            target[key] = mergeDeep(Object.assign({}, targetValue), sourceValue);
          else target[key] = sourceValue;
        });
        return mergeDeep(target, ...sources);

    A value is a tree ([jsv]); an object is the association list of its own
    properties in insertion order (assigning an existing key keeps its
    place, a new key goes last).  [merge_deep] is the merge of one source,
    [merge_deep_all] the variadic function, and [merge_deep_fuel] the same
    recursion with a bound on the number of nested calls, the JavaScript
    call stack: it shows that the recursion terminates on every (acyclic)
    source, within as many nested calls as the source has levels of
    objects. *)

From Stdlib Require Import QArith_base.
From stdpp Require Import base list strings option.
From S2P Require Import Prelude QRStyling.

Unset Elimination Schemes.

Inductive jsv :=
| JUndefined
| JNull
| JBool (b : bool)
| JNumber (q : Q)
| JString (s : string)
| JArray (vs : list jsv)
| JObject (props : list (string * jsv)).

Set Elimination Schemes.

(** Induction on values, through the elements of arrays and the
    properties of objects. *)
Definition jsv_ind (P : jsv -> Prop)
    (fundef : P JUndefined) (fnull : P JNull) (fbool : forall b, P (JBool b))
    (fnum : forall q, P (JNumber q)) (fstr : forall s, P (JString s))
    (farr : forall vs, Forall P vs -> P (JArray vs))
    (fobj : forall ps, Forall (fun kv => P kv.2) ps -> P (JObject ps)) :
    forall v, P v :=
  fix F v :=
    match v with
    | JUndefined => fundef
    | JNull => fnull
    | JBool b => fbool b
    | JNumber q => fnum q
    | JString s => fstr s
    | JArray vs =>
        farr vs ((fix G (l : list jsv) : Forall P l :=
                    match l with
                    | [] => Forall_nil_2 _
                    | x :: l' => Forall_cons_2 _ _ _ (F x) (G l')
                    end) vs)
    | JObject ps =>
        fobj ps ((fix G (l : list (string * jsv)) : Forall (fun kv => P kv.2) l :=
                    match l with
                    | [] => Forall_nil_2 _
                    | kv :: l' => Forall_cons_2 _ _ _ (F kv.2) (G l')
                    end) ps)
    end.

(** [isObject]: [!!obj && typeof obj === "object" && !Array.isArray(obj)]. *)
Definition is_object (v : jsv) : bool :=
  match v with JObject _ => true | _ => false end.

Definition is_array (v : jsv) : bool :=
  match v with JArray _ => true | _ => false end.

(** [obj[key]]: [undefined] when the object has no such property. *)
Fixpoint get_prop (ps : list (string * jsv)) (k : string) : jsv :=
  match ps with
  | [] => JUndefined
  | (k', v) :: ps' => if String.eqb k k' then v else get_prop ps' k
  end.

(** [obj[key] = v]: in place when the key exists, appended otherwise. *)
Fixpoint set_prop (ps : list (string * jsv)) (k : string) (v : jsv) : list (string * jsv) :=
  match ps with
  | [] => [(k, v)]
  | (k', v') :: ps' => if String.eqb k k' then (k', v) :: ps' else (k', v') :: set_prop ps' k v
  end.

(** The value [mergeDeep] assigns to a key, from the target's and the
    source's values and the merge of nested objects. *)
Definition merge_value (merge : jsv -> jsv -> jsv) (tv sv : jsv) : jsv :=
  if is_array tv && is_array sv then sv
  else if is_object tv && is_object sv then merge tv sv
  else sv.

(** The [forEach] over [Object.keys(source)], on the copy [acc] of the
    target. *)
Fixpoint merge_props (merge : jsv -> jsv -> jsv) (sps acc : list (string * jsv)) :
    list (string * jsv) :=
  match sps with
  | [] => acc
  | (k, sv) :: sps' => merge_props merge sps' (set_prop acc k (merge_value merge (get_prop acc k) sv))
  end.

(** [mergeDeep(target, source)] for one source. *)
Fixpoint merge_deep (target source : jsv) {struct source} : jsv :=
  match target, source with
  | JObject tps, JObject sps => JObject (merge_props merge_deep sps tps)
  | _, _ => target
  end.

(** [mergeDeep(target, ...sources)]: a source that is not an object
    (undefined included) stops the merge, the later sources unread. *)
Fixpoint merge_deep_all (target : jsv) (sources : list jsv) : jsv :=
  match sources with
  | [] => target
  | src :: rest =>
      if is_object target && is_object src then merge_deep_all (merge_deep target src) rest
      else target
  end.

(** The same recursion with at most [fuel] nested calls of [mergeDeep];
    [None] is a stack overflow. *)
Definition merge_value_opt (merge : jsv -> jsv -> option jsv) (tv sv : jsv) : option jsv :=
  if is_array tv && is_array sv then Some sv
  else if is_object tv && is_object sv then merge tv sv
  else Some sv.

Fixpoint merge_props_opt (merge : jsv -> jsv -> option jsv) (sps acc : list (string * jsv)) :
    option (list (string * jsv)) :=
  match sps with
  | [] => Some acc
  | (k, sv) :: sps' =>
      nv ← merge_value_opt merge (get_prop acc k) sv;
      merge_props_opt merge sps' (set_prop acc k nv)
  end.

Fixpoint merge_deep_fuel (fuel : nat) (target source : jsv) : option jsv :=
  match fuel with
  | 0 => None
  | S fuel' =>
      match target, source with
      | JObject tps, JObject sps => JObject <$> merge_props_opt (merge_deep_fuel fuel') sps tps
      | _, _ => Some target
      end
  end.

(** Levels of nested objects: the depth of the recursion of [mergeDeep]
    on this source. *)
Fixpoint obj_depth (v : jsv) : nat :=
  match v with
  | JObject ps => S (foldr (fun kv m => obj_depth kv.2 `max` m) 0 ps)
  | _ => 0
  end.

(** The property of a key, when the object has it. *)
Fixpoint find_prop (ps : list (string * jsv)) (k : string) : option jsv :=
  match ps with
  | [] => None
  | (k', v) :: ps' => if String.eqb k k' then Some v else find_prop ps' k
  end.

(** ** The component's objects *)

Definition js_of_nat (n : nat) : jsv := JNumber (inject_Z (Z.of_nat n)).

Definition js_of_draw_type (t : DrawType) : jsv :=
  JString (match t with DrawCanvas => "canvas" | DrawSvg => "svg" end).

(** [image]: a string, or [undefined]. *)
Definition js_of_image (i : option string) : jsv :=
  match i with Some u => JString u | None => JUndefined end.

(** The object literal given to [new QRCodeStyling] (lines 26-45), its
    keys in the source's order. *)
Definition ctor_object (o : Options) : jsv :=
  JObject [("width", js_of_nat (opt_width o));
           ("height", js_of_nat (opt_height o));
           ("type", js_of_draw_type (opt_type o));
           ("data", JString (opt_data o));
           ("image", js_of_image (opt_image o));
           ("dotsOptions", JObject [("color", JString (opt_dots_color o));
                                    ("type", JString (opt_dots_type o))]);
           ("cornersDotOptions", JObject [("type", JString (opt_corners_dot_type o))]);
           ("cornersSquareOptions", JObject [("type", JString (opt_corners_square_type o))]);
           ("backgroundOptions", JObject [("color", JString (opt_background_color o))])].

(** The object literal given to [qr.update] (lines 57-73). *)
Definition payload_object (p : UpdatePayload) : jsv :=
  JObject [("data", JString (up_data p));
           ("image", js_of_image (up_image p));
           ("dotsOptions", JObject [("color", JString (up_dots_color p));
                                    ("type", JString (up_dots_type p))]);
           ("cornersDotOptions", JObject [("type", JString (up_corners_dot_type p))]);
           ("cornersSquareOptions", JObject [("type", JString (up_corners_square_type p))]);
           ("backgroundOptions", JObject [("color", JString (up_background_color p))])].

(** ** The library's side *)

(** qr-code-styling's [defaultOptions] ([src/core/QROptions.ts]). *)
Definition default_options : jsv :=
  JObject [("type", JString "canvas");
           ("width", js_of_nat 300);
           ("height", js_of_nat 300);
           ("data", JString "");
           ("margin", js_of_nat 0);
           ("qrOptions", JObject [("typeNumber", js_of_nat 0); ("mode", JUndefined);
                                  ("errorCorrectionLevel", JString "Q")]);
           ("imageOptions", JObject [("hideBackgroundDots", JBool true);
                                     ("imageSize", JNumber (2 # 5));
                                     ("crossOrigin", JUndefined);
                                     ("margin", js_of_nat 0)]);
           ("dotsOptions", JObject [("type", JString "square"); ("color", JString "#000")]);
           ("backgroundOptions", JObject [("round", js_of_nat 0); ("color", JString "#fff")])].

Definition nat_of_js (v : jsv) : option nat :=
  match v with
  | JNumber q => if (Qden q =? 1)%positive && (0 <=? Qnum q)%Z then Some (Z.to_nat (Qnum q)) else None
  | _ => None
  end.

Definition string_of_js (v : jsv) : option string :=
  match v with JString s => Some s | _ => None end.

Definition draw_type_of_js (v : jsv) : option DrawType :=
  match v with
  | JString "canvas" => Some DrawCanvas
  | JString "svg" => Some DrawSvg
  | _ => None
  end.

Definition image_of_js (v : jsv) : option (option string) :=
  match v with JString u => Some (Some u) | JUndefined => Some None | _ => None end.

Definition props_of_js (v : jsv) : option (list (string * jsv)) :=
  match v with JObject ps => Some ps | _ => None end.

(** The fields the library reads from [this._options] ([width],
    [height], [type], [data], [image], [dotsOptions.color],
    [dotsOptions.type], [cornersDotOptions.type],
    [cornersSquareOptions.type], [backgroundOptions.color]); [None] when
    one is missing or of the wrong type. *)
Definition options_of_object (v : jsv) : option Options :=
  ps ← props_of_js v;
  w ← nat_of_js (get_prop ps "width");
  h ← nat_of_js (get_prop ps "height");
  ty ← draw_type_of_js (get_prop ps "type");
  d ← string_of_js (get_prop ps "data");
  img ← image_of_js (get_prop ps "image");
  dots ← props_of_js (get_prop ps "dotsOptions");
  dc ← string_of_js (get_prop dots "color");
  dt ← string_of_js (get_prop dots "type");
  cd ← props_of_js (get_prop ps "cornersDotOptions");
  cdt ← string_of_js (get_prop cd "type");
  cs ← props_of_js (get_prop ps "cornersSquareOptions");
  cst ← string_of_js (get_prop cs "type");
  bg ← props_of_js (get_prop ps "backgroundOptions");
  bc ← string_of_js (get_prop bg "color");
  Some (mkOptions w h ty d img dc dt cdt cst bc).

(** Concrete options and payload, to run the theorems on. *)
Definition demo_options : Options :=
  mkOptions 300 300 DrawSvg "" None "#000000" "square" "square" "square" "#ffffff".

Definition demo_payload : UpdatePayload :=
  mkPayload "hello" (Some "data:image/png;base64,AA==") "#ff0000" "dots" "dot" "extra-rounded" "#ffffff".

(** ** Lookups, assignments and the merge loop *)

Lemma get_set_prop ps k k' v :
  get_prop (set_prop ps k v) k' = if String.eqb k' k then v else get_prop ps k'.
Proof.
  induction ps as [|[k1 v1] ps IH]; simpl; [done|].
  destruct (String.eqb_spec k k1) as [->|Hne]; simpl.
  - by destruct (String.eqb k' k1).
  - rewrite IH. destruct (String.eqb_spec k' k1), (String.eqb_spec k' k); congruence.
Qed.

Lemma find_prop_None ps k : k ∉ map fst ps -> find_prop ps k = None.
Proof.
  induction ps as [|[k1 v1] ps IH]; simpl; intros Hk; [done|].
  apply not_elem_of_cons in Hk as [Hk1 Hk]. destruct (String.eqb_spec k k1); [done|].
  by apply IH.
Qed.

Lemma get_merge_props m sps acc k :
  NoDup (map fst sps) ->
  get_prop (merge_props m sps acc) k =
  match find_prop sps k with
  | Some sv => merge_value m (get_prop acc k) sv
  | None => get_prop acc k
  end.
Proof.
  revert acc. induction sps as [|[k1 sv1] sps IH]; intros acc Hnd; simpl; [done|].
  cbn in Hnd; apply list.NoDup_cons in Hnd as [Hk1 Hnd]. rewrite IH, get_set_prop by done.
  destruct (String.eqb_spec k k1) as [->|Hne]; [by rewrite find_prop_None|done].
Qed.

(** Discharge [NoDup] of the keys of an object literal. *)
Ltac nodup_keys := cbn [map fst]; apply (bool_decide_unpack _); vm_compute; exact I.

Lemma props_of_js_Some v ps : props_of_js v = Some ps -> v = JObject ps.
Proof. destruct v; simpl; congruence. Qed.

Lemma merge_deep_objects tps sps :
  merge_deep (JObject tps) (JObject sps) = JObject (merge_props merge_deep sps tps).
Proof. done. Qed.

Lemma merge_value_scalar m tv sv :
  is_array sv = false -> is_object sv = false -> merge_value m tv sv = sv.
Proof. intros Ha Ho. unfold merge_value. by rewrite Ha, Ho, !andb_false_r. Qed.

Lemma merge_value_objects m tps sps :
  merge_value m (JObject tps) (JObject sps) = m (JObject tps) (JObject sps).
Proof. done. Qed.

(** qr-code-styling's [mergeDeep] of the payload of [qr.update]
    (lines 57-73) into any options object the library can read yields the
    options [merge_payload] describes: the payload's data, image, colours
    and style types, with width, height and draw type kept.  This is the
    record-level merge [merge_payload] checked against the library's merge
    on JavaScript objects. *)
Lemma merge_deep_payload v o p :
  options_of_object v = Some o ->
  options_of_object (merge_deep v (payload_object p)) = Some (merge_payload p o).
Proof.
  intros Hv. destruct v as [| | | | | |tps]; try discriminate.
  unfold payload_object. rewrite merge_deep_objects.
  unfold options_of_object. cbn [props_of_js mbind option_bind].
  rewrite !get_merge_props by nodup_keys. cbn [find_prop String.eqb Ascii.eqb Bool.eqb].
  unfold options_of_object in Hv. simplify_option_eq.
  repeat match goal with H : props_of_js _ = Some _ |- _ => apply props_of_js_Some in H; rewrite H end.
  rewrite !merge_value_objects, !merge_deep_objects. cbn [props_of_js mbind option_bind].
  rewrite !get_merge_props by nodup_keys. cbn [find_prop String.eqb Ascii.eqb Bool.eqb].
  rewrite !merge_value_scalar by (try destruct (up_image p); done).
  by destruct p as [? [] ? ? ? ? ?].
Qed.

Lemma nat_of_js_of_nat n : nat_of_js (js_of_nat n) = Some n.
Proof. unfold nat_of_js, js_of_nat. simpl. rewrite Nat2Z.id. by destruct (Z.leb_spec 0 (Z.of_nat n)); [|lia]. Qed.

Lemma draw_type_of_js_of_draw_type t : draw_type_of_js (js_of_draw_type t) = Some t.
Proof. by destruct t. Qed.

Lemma image_of_js_of_image i : image_of_js (js_of_image i) = Some i.
Proof. by destruct i. Qed.

(** The constructor [new QRCodeStyling({...})] (lines 26-45) merges
    the literal into the library's [defaultOptions]; the options it then
    holds are exactly those of the literal, whatever their values: every
    field the library reads is one the component sets. *)
Lemma ctor_options o :
  options_of_object (merge_deep_all default_options [ctor_object o]) = Some o.
Proof.
  unfold ctor_object, default_options. cbn [merge_deep_all is_object andb]. rewrite merge_deep_objects.
  unfold options_of_object. cbn [props_of_js mbind option_bind].
  rewrite !get_merge_props by nodup_keys. cbn [find_prop String.eqb Ascii.eqb Bool.eqb get_prop].
  rewrite !merge_value_objects, !merge_deep_objects. cbn [props_of_js mbind option_bind].
  rewrite !get_merge_props by nodup_keys. cbn [find_prop String.eqb Ascii.eqb Bool.eqb get_prop].
  cbn [merge_value is_array is_object andb props_of_js mbind option_bind js_of_nat].
  rewrite nat_of_js_of_nat, nat_of_js_of_nat, draw_type_of_js_of_draw_type, image_of_js_of_image.
  by destruct o.
Qed.

Lemma obj_depth_child ps kv : kv ∈ ps -> obj_depth kv.2 < obj_depth (JObject ps).
Proof.
  cbn [obj_depth]. induction ps as [|kv' ps IH]; intros Hin; [by apply not_elem_of_nil in Hin|].
  apply elem_of_cons in Hin as [->|Hin]; simpl; [lia|]. specialize (IH Hin). lia.
Qed.

Lemma is_object_depth v : is_object v = true -> 1 <= obj_depth v.
Proof. destruct v; simpl; try done. lia. Qed.

Lemma merge_value_opt_ok m m' tv sv :
  (is_object sv = true -> forall tv, m tv sv = Some (m' tv sv)) ->
  merge_value_opt m tv sv = Some (merge_value m' tv sv).
Proof.
  intros Hm. unfold merge_value_opt, merge_value.
  destruct (_ && _); [done|]. destruct (is_object sv) eqn:Ho; rewrite ?andb_false_r; [|done].
  destruct (is_object tv); [by apply Hm|done].
Qed.

Lemma merge_props_opt_ok m m' sps acc :
  (forall kv, kv ∈ sps -> is_object kv.2 = true -> forall tv, m tv kv.2 = Some (m' tv kv.2)) ->
  merge_props_opt m sps acc = Some (merge_props m' sps acc).
Proof.
  revert acc. induction sps as [|[k sv] sps IH]; intros acc Hm; simpl; [done|].
  rewrite (merge_value_opt_ok m m'); simpl.
  - apply IH. intros kv Hin. apply Hm. by right.
  - apply (Hm (k, sv)). by left.
Qed.

(** [mergeDeep] terminates on every source: with as many nested
    calls as the source has levels of objects (and at least one), the
    bounded recursion returns the merge. *)
Lemma merge_deep_terminates s :
  forall fuel t, 1 `max` obj_depth s <= fuel -> merge_deep_fuel fuel t s = Some (merge_deep t s).
Proof.
  induction s as [| | | | | vs _ | sps IH] using jsv_ind; intros [|fuel] t Hf; try lia;
    destruct t; try done.
  cbn [merge_deep_fuel]. rewrite merge_deep_objects, (merge_props_opt_ok _ merge_deep); [done|].
  intros kv Hin Ho tv. rewrite list.Forall_forall in IH. apply (IH kv Hin).
  pose proof (obj_depth_child _ _ Hin). pose proof (is_object_depth _ Ho). lia.
Qed.

#[export] Hint Rewrite get_set_prop nat_of_js_of_nat draw_type_of_js_of_draw_type
  image_of_js_of_image : qr_rw.
