(* ===== verification/JsEquiv.v ===== *)
(** * JavaScript objects up to the order of their keys

    [mergeDeep] and the library's reads of [this._options] look a
    property up by its key; the order of [Object.keys] only decides where
    a new key lands in the merged object.  Two values are equivalent
    ([jsv_equiv], written [v ≃ w]) when they are the same primitive,
    arrays of equivalent elements, or objects with distinct keys, the same
    keys in any order and equivalent values at every key.  It is a partial
    equivalence relation: a value is related to itself exactly when every
    object in it has distinct keys ([wf_jsv]), as a JavaScript object has
    and [set_prop] keeps.  [jsv_equivb] decides it.

    [merge_deep] and [merge_deep_all] are morphisms of the relation, and
    [options_of_object] maps equivalent values to the same options, so
    what the library draws does not depend on the order in which the
    component writes the keys of its object literals ([ctor_object],
    [payload_object]). *)

From stdpp Require Import base list strings option.
From Stdlib Require Import QArith_base.
From S2P Require Import Prelude QRStyling JsObject.

(** [Object.keys(obj)] of an object's own properties. *)
Definition keys (ps : list (string * jsv)) : list string := map fst ps.

Inductive jsv_equiv : jsv -> jsv -> Prop :=
| equiv_undefined : jsv_equiv JUndefined JUndefined
| equiv_null : jsv_equiv JNull JNull
| equiv_bool b : jsv_equiv (JBool b) (JBool b)
| equiv_number q : jsv_equiv (JNumber q) (JNumber q)
| equiv_string s : jsv_equiv (JString s) (JString s)
| equiv_array vs ws :
    length vs = length ws ->
    (forall i, jsv_equiv (nth i vs JUndefined) (nth i ws JUndefined)) ->
    jsv_equiv (JArray vs) (JArray ws)
| equiv_object ps qs :
    NoDup (keys ps) -> NoDup (keys qs) -> keys ps ≡ₚ keys qs ->
    (forall k, jsv_equiv (get_prop ps k) (get_prop qs k)) ->
    jsv_equiv (JObject ps) (JObject qs).

Notation "v ≃ w" := (jsv_equiv v w) (at level 70, no associativity) : qr_scope.

(** Every object in the value has distinct keys. *)
Fixpoint wf_jsv (v : jsv) : bool :=
  match v with
  | JArray vs => forallb wf_jsv vs
  | JObject ps => bool_decide (NoDup (keys ps)) && forallb (fun kv => wf_jsv kv.2) ps
  | _ => true
  end.

(** The relation as a boolean test: objects are compared key by key,
    arrays element by element. *)
Fixpoint jsv_equivb (v w : jsv) : bool :=
  match v, w with
  | JUndefined, JUndefined | JNull, JNull => true
  | JBool b, JBool b' => Bool.eqb b b'
  | JNumber q, JNumber q' => Z.eqb (Qnum q) (Qnum q') && Pos.eqb (Qden q) (Qden q')
  | JString s, JString s' => String.eqb s s'
  | JArray vs, JArray ws =>
      (fix go (vs ws : list jsv) : bool :=
         match vs, ws with
         | [], [] => true
         | v :: vs', w :: ws' => jsv_equivb v w && go vs' ws'
         | _, _ => false
         end) vs ws
  | JObject ps, JObject qs =>
      bool_decide (NoDup (keys ps)) && bool_decide (NoDup (keys qs)) &&
      bool_decide (keys ps ≡ₚ keys qs) &&
      forallb (fun kv => jsv_equivb kv.2 (get_prop qs kv.1)) ps
  | _, _ => false
  end.

(** ** A partial equivalence *)

Lemma jsv_equiv_sym v w : v ≃ w -> w ≃ v.
Proof.
  induction 1 as [| | | | |vs ws Hl _ IH|ps qs Hp Hq Hpq _ IH]; constructor; auto.
  by symmetry.
Qed.

Lemma jsv_equiv_trans u v w : u ≃ v -> v ≃ w -> u ≃ w.
Proof.
  intros H. revert w.
  induction H as [| | | | |vs ws Hl _ IH|ps qs Hp Hq Hpq _ IH]; intros w Hw; inversion Hw; subst;
    constructor; auto; [congruence | by etrans].
Qed.

#[export] Instance jsv_equiv_PER : RelationClasses.PER jsv_equiv.
Proof. split; [exact jsv_equiv_sym | exact jsv_equiv_trans]. Qed.

Lemma is_object_equiv v w : v ≃ w -> is_object w = is_object v.
Proof. by destruct 1. Qed.

Lemma is_array_equiv v w : v ≃ w -> is_array w = is_array v.
Proof. by destruct 1. Qed.

(** The readers of scalars see equivalent values alike. *)
Lemma nat_of_js_equiv v w : v ≃ w -> nat_of_js w = nat_of_js v.
Proof. by destruct 1. Qed.

Lemma string_of_js_equiv v w : v ≃ w -> string_of_js w = string_of_js v.
Proof. by destruct 1. Qed.

Lemma draw_type_of_js_equiv v w : v ≃ w -> draw_type_of_js w = draw_type_of_js v.
Proof. by destruct 1. Qed.

Lemma image_of_js_equiv v w : v ≃ w -> image_of_js w = image_of_js v.
Proof. by destruct 1. Qed.

(** ** Keys and lookups *)

Lemma get_prop_cases ps k :
  get_prop ps k = JUndefined \/ (k, get_prop ps k) ∈ ps.
Proof.
  induction ps as [|[k' v] ps IH]; simpl; [by left|].
  destruct (String.eqb_spec k k') as [->|_]; [right; by left|].
  destruct IH as [IH|IH]; [by left | right; by right].
Qed.

Lemma get_prop_not_key ps k : k ∉ keys ps -> get_prop ps k = JUndefined.
Proof.
  induction ps as [|[k' v] ps IH]; simpl; intros Hk; [done|].
  apply not_elem_of_cons in Hk as [Hk1 Hk]. destruct (String.eqb_spec k k'); [done|]. by apply IH.
Qed.

Lemma get_prop_elem ps k v : NoDup (keys ps) -> (k, v) ∈ ps -> get_prop ps k = v.
Proof.
  induction ps as [|[k' v'] ps IH]; simpl; intros Hnd Hin; [by apply not_elem_of_nil in Hin|].
  apply list.NoDup_cons in Hnd as [Hk' Hnd].
  apply elem_of_cons in Hin as [[= -> ->]|Hin]; [by rewrite String.eqb_refl|].
  destruct (String.eqb_spec k k') as [->|_]; [|by apply IH].
  destruct Hk'. apply list_elem_of_In, in_map_iff. exists (k', v). split; [done|by apply list_elem_of_In].
Qed.

Lemma find_prop_key ps k : k ∈ keys ps -> find_prop ps k = Some (get_prop ps k).
Proof.
  induction ps as [|[k' v] ps IH]; simpl; intros Hk; [by apply not_elem_of_nil in Hk|].
  destruct (String.eqb_spec k k') as [->|Hne]; [done|].
  apply elem_of_cons in Hk as [->|Hk]; [done|by apply IH].
Qed.

Lemma keys_set_prop ps k v x : x ∈ keys (set_prop ps k v) <-> x = k \/ x ∈ keys ps.
Proof.
  induction ps as [|[k' v'] ps IH]; simpl.
  - rewrite list_elem_of_singleton. split; [by left | by intros [->|H%not_elem_of_nil]].
  - destruct (String.eqb_spec k k') as [->|_]; simpl; rewrite !elem_of_cons; [naive_solver|].
    rewrite IH. naive_solver.
Qed.

Lemma NoDup_set_prop ps k v : NoDup (keys ps) -> NoDup (keys (set_prop ps k v)).
Proof.
  induction ps as [|[k' v'] ps IH]; simpl; intros Hnd; [by apply NoDup_singleton|].
  apply list.NoDup_cons in Hnd as [Hk' Hnd].
  destruct (String.eqb_spec k k') as [->|Hne]; simpl; apply list.NoDup_cons; split; auto.
  rewrite keys_set_prop. by intros [->|?].
Qed.

Lemma keys_merge_props m sps acc x :
  x ∈ keys (merge_props m sps acc) <-> x ∈ keys sps \/ x ∈ keys acc.
Proof.
  revert acc. induction sps as [|[k sv] sps IH]; intros acc; simpl.
  - rewrite elem_of_nil. tauto.
  - rewrite IH, keys_set_prop, elem_of_cons. tauto.
Qed.

Lemma NoDup_merge_props m sps acc : NoDup (keys acc) -> NoDup (keys (merge_props m sps acc)).
Proof.
  revert acc. induction sps as [|[k sv] sps IH]; intros acc Hnd; simpl; [done|].
  by apply IH, NoDup_set_prop.
Qed.

Lemma find_prop_not_key ps k : k ∉ keys ps -> find_prop ps k = None.
Proof. apply find_prop_None. Qed.

Lemma get_prop_equiv ps qs k : JObject ps ≃ JObject qs -> get_prop ps k ≃ get_prop qs k.
Proof. by inversion 1. Qed.

(** ** [mergeDeep] is a morphism *)

Lemma merge_deep_source_scalar t s : is_object s = false -> merge_deep t s = t.
Proof. by destruct t, s. Qed.

Lemma merge_deep_target_scalar t s : is_object t = false -> merge_deep t s = t.
Proof. by destruct t, s. Qed.

Lemma merge_value_equiv m m' tv tv' sv sv' :
  tv ≃ tv' -> sv ≃ sv' ->
  (is_object sv = true -> is_object tv = true -> m tv sv ≃ m' tv' sv') ->
  merge_value m tv sv ≃ merge_value m' tv' sv'.
Proof.
  intros Ht Hs Hm. unfold merge_value.
  rewrite (is_array_equiv _ _ Ht), (is_array_equiv _ _ Hs), (is_object_equiv _ _ Ht), (is_object_equiv _ _ Hs).
  destruct (is_array tv && is_array sv); [done|].
  destruct (is_object tv), (is_object sv); simpl; auto.
Qed.

(** The merge of equivalent sources into equivalent targets: the keys
    are the union of the target's and the source's, in an order that
    depends on theirs, and the value at each key is the same merge. *)
Lemma merge_deep_equiv s s' : s ≃ s' -> forall t t', t ≃ t' -> merge_deep t s ≃ merge_deep t' s'.
Proof.
  induction 1 as [| | | | |vs ws _ _ _|sps sps' Hs Hs' Hp Hsk IH]; intros t t' Ht;
    try by rewrite !merge_deep_source_scalar.
  destruct (is_object t) eqn:Ho.
  2: by rewrite !merge_deep_target_scalar; first [done | by rewrite (is_object_equiv _ _ Ht)].
  inversion Ht as [| | | | | |tps tps' Ht1 Ht2 Htp Htk]; subst; try discriminate.
  rewrite !merge_deep_objects. constructor; [by apply NoDup_merge_props..| |].
  - apply NoDup_Permutation; [by apply NoDup_merge_props..|]. intros x.
    by rewrite !keys_merge_props, Hp, Htp.
  - intros k. rewrite !get_merge_props by done.
    destruct (decide (k ∈ keys sps)) as [Hk|Hk].
    + rewrite !find_prop_key by (by rewrite <- ?Hp). apply merge_value_equiv; auto.
    + rewrite !find_prop_not_key by (by rewrite <- ?Hp). auto.
Qed.

Lemma merge_deep_all_equiv t t' srcs srcs' :
  t ≃ t' -> Forall2 jsv_equiv srcs srcs' -> merge_deep_all t srcs ≃ merge_deep_all t' srcs'.
Proof.
  intros Ht Hs. revert t t' Ht.
  induction Hs as [|s s' srcs srcs' Hs _ IH]; intros t t' Ht; simpl; [done|].
  rewrite (is_object_equiv _ _ Ht), (is_object_equiv _ _ Hs).
  destruct (is_object t && is_object s); [by apply IH, merge_deep_equiv|done].
Qed.

#[export] Instance merge_deep_proper : Proper (jsv_equiv ==> jsv_equiv ==> jsv_equiv) merge_deep.
Proof. intros t t' Ht s s' Hs. by apply merge_deep_equiv. Qed.

#[export] Instance merge_deep_all_proper :
  Proper (jsv_equiv ==> Forall2 jsv_equiv ==> jsv_equiv) merge_deep_all.
Proof. intros t t' Ht s s' Hs. by apply merge_deep_all_equiv. Qed.

(** ** The library reads equivalent options alike *)

Lemma props_of_js_bind_equiv {A} v w (g h : list (string * jsv) -> option A) :
  v ≃ w -> (forall ps qs, JObject ps ≃ JObject qs -> g ps = h qs) ->
  (props_of_js v ≫= g) = (props_of_js w ≫= h).
Proof. intros Hvw Hgh. destruct Hvw; simpl; try done. apply Hgh. by constructor. Qed.

Lemma reader_bind_equiv {A B} (f : jsv -> option A) v w (g h : A -> option B) :
  (forall v w, v ≃ w -> f w = f v) -> v ≃ w -> (forall a, g a = h a) ->
  (f v ≫= g) = (f w ≫= h).
Proof. intros Hf Hvw Hgh. rewrite (Hf v w Hvw). destruct (f v); simpl; auto. Qed.

Lemma options_of_object_equiv v w : v ≃ w -> options_of_object v = options_of_object w.
Proof.
  intros Hvw. unfold options_of_object.
  apply props_of_js_bind_equiv; [done|]. intros ps qs Hpq.
  repeat first
    [ reflexivity
    | apply props_of_js_bind_equiv; [by apply get_prop_equiv|]; intros ?ps ?qs ?Hpq
    | apply reader_bind_equiv;
        [ first [exact nat_of_js_equiv | exact string_of_js_equiv
                | exact draw_type_of_js_equiv | exact image_of_js_equiv]
        | by apply get_prop_equiv | intros ? ] ].
Qed.

#[export] Instance options_of_object_proper : Proper (jsv_equiv ==> eq) options_of_object.
Proof. intros v w Hvw. by apply options_of_object_equiv. Qed.

(** ** Well-formed values and the boolean test *)

Lemma nth_cases vs i : nth i vs JUndefined = JUndefined \/ nth i vs JUndefined ∈ vs.
Proof.
  destruct (decide (i < length vs)%nat).
  - right. by apply list_elem_of_In, nth_In.
  - left. apply nth_overflow. lia.
Qed.

Lemma elem_of_keys ps k : k ∈ keys ps -> exists v, (k, v) ∈ ps.
Proof.
  induction ps as [|[k' v] ps IH]; simpl; intros Hk; [by apply not_elem_of_nil in Hk|].
  apply elem_of_cons in Hk as [->|Hk]; [exists v; by left|].
  destruct (IH Hk) as [v' Hv']. exists v'. by right.
Qed.

(** A value whose objects have distinct keys is related to itself. *)
Lemma wf_jsv_refl v : wf_jsv v = true -> v ≃ v.
Proof.
  induction v as [| | | | |vs IH|ps IH] using jsv_ind; simpl; intros Hw;
    [by constructor.. | |].
  - rewrite list.Forall_forall in IH. constructor; [done|]. intros i.
    destruct (nth_cases vs i) as [->|Hin]; [constructor|].
    apply IH, (proj1 (forallb_forall _ _) Hw); [done | by apply list_elem_of_In].
  - apply andb_true_iff in Hw as [Hnd Hall]. apply bool_decide_eq_true_1 in Hnd.
    rewrite list.Forall_forall in IH. constructor; [done..|].
    intros k. destruct (get_prop_cases ps k) as [->|Hin]; [constructor|].
    apply (IH _ Hin), (proj1 (forallb_forall _ _) Hall). by apply list_elem_of_In.
Qed.

(** [jsv_equivb] decides the relation. *)
Lemma jsv_equivb_sound v w : jsv_equivb v w = true -> v ≃ w.
Proof.
  revert w. induction v as [| |b|q|s|vs IH|ps IH] using jsv_ind;
    intros [| |b'|q'|s'|ws|qs] Hb; simpl in Hb; try discriminate.
  - constructor.
  - constructor.
  - apply Bool.eqb_prop in Hb as ->. constructor.
  - apply andb_true_iff in Hb as [Hn Hd]. apply Z.eqb_eq in Hn. apply Pos.eqb_eq in Hd.
    destruct q, q'; simpl in *; subst. constructor.
  - apply String.eqb_eq in Hb as ->. constructor.
  - revert ws Hb. induction IH as [|v vs Hv _ IHvs]; intros [|w ws] Hb; try discriminate.
    + constructor; [done | by intros []; constructor].
    + apply andb_true_iff in Hb as [Hvw Hb]. specialize (IHvs ws Hb). inversion IHvs; subst.
      constructor; [simpl; lia|]. intros [|i]; simpl; auto.
  - apply andb_true_iff in Hb as [[[Hp Hq]%andb_true_iff Hpq]%andb_true_iff Hall].
    apply bool_decide_eq_true_1 in Hp, Hq, Hpq. rewrite list.Forall_forall in IH.
    constructor; [done..|]. intros k. destruct (decide (k ∈ keys ps)) as [Hk|Hk].
    + destruct (elem_of_keys ps k Hk) as [v Hin]. rewrite (get_prop_elem ps k v) by done.
      apply (IH (k, v) Hin), (proj1 (forallb_forall _ _) Hall (k, v)). by apply list_elem_of_In.
    + rewrite !get_prop_not_key by (by rewrite <- ?Hpq). constructor.
Qed.

Lemma jsv_equivb_complete v w : v ≃ w -> jsv_equivb v w = true.
Proof.
  induction 1 as [| |b|q|s|vs ws Hl _ IH|ps qs Hp Hq Hpq _ IH]; simpl.
  - done.
  - done.
  - apply Bool.eqb_reflx.
  - by rewrite Z.eqb_refl, Pos.eqb_refl.
  - apply String.eqb_refl.
  - revert ws Hl IH. induction vs as [|v vs IHvs]; intros [|w ws] Hl IH; try done.
    simpl in IH |- *. rewrite (IH 0%nat). apply (IHvs ws); [simpl in Hl; lia | intros i; apply (IH (S i))].
  - rewrite !bool_decide_eq_true_2 by done. simpl. apply forallb_forall. intros [k v] Hin.
    apply list_elem_of_In in Hin. rewrite <- (get_prop_elem ps k v Hp Hin). apply IH.
Qed.

#[export] Instance jsv_equiv_dec : RelDecision jsv_equiv.
Proof.
  intros v w. destruct (jsv_equivb v w) eqn:E; [left; by apply jsv_equivb_sound|].
  right. intros H. apply jsv_equivb_complete in H. congruence.
Defined.

Lemma default_options_wf : default_options ≃ default_options.
Proof. apply wf_jsv_refl. by vm_compute. Qed.

(** ** The order of the component's keys does not matter *)

(** the options qr-code-styling draws with after
    [new QRCodeStyling({...})] and [qr.update({...})] do not depend on the
    order in which the component writes the keys of its two object
    literals (lines 26-45 and 57-73), at any level: any literal with the
    same keys and the same values, in any order, gives the constructor's
    options with the payload merged in ([merge_payload]). *)
Theorem options_key_order_independent o p c u :
  c ≃ ctor_object o -> u ≃ payload_object p ->
  options_of_object (merge_deep (merge_deep_all default_options [c]) u) = Some (merge_payload p o).
Proof.
  intros Hc Hu.
  rewrite (options_of_object_equiv _ (merge_deep (merge_deep_all default_options [ctor_object o]) (payload_object p))).
  - apply merge_deep_payload, ctor_options.
  - apply merge_deep_equiv; [done|]. apply merge_deep_all_equiv; [apply default_options_wf | by constructor].
Qed.
