(* ===== verification/QRLib.v ===== *)
(** * A model of the qr-code-styling object and the DOM it draws into

    What [QRCodeStyling] (qr-code-styling 1.x, [src/core/QRCodeStyling.ts])
    does with the calls the component makes, at the level the component
    can observe: its options object, the container it is attached to, the
    QR code it holds ([this._qr], by the data it encodes), the drawn SVG
    element ([this._svg]), the DOM children of the container, and the
    files its [download] saves or the rejections it raises.

      constructor(options):
        this._options = options ? sanitizeOptions(mergeDeep(defaultOptions, options))
                                : defaultOptions;
        this.update();
      update(options):
        QRCodeStyling._clearContainer(this._container);   // innerHTML = ""
        this._options = options ? sanitizeOptions(mergeDeep(this._options, options))
                                : this._options;
        if (!this._options.data) return;
        this._qr = qrcode(...); this._qr.addData(this._options.data); ...
        this._setupSvg();                                  // a new this._svg
        this.append(this._container);
      append(container):
        if (!container) return;
        if (this._svg) container.appendChild(this._svg);
        this._container = container;
      download({name, extension}):
        if (!this._qr) throw "QR code is empty";
        ... downloadURI(<the drawing of this._qr>, `${name || "qr"}.${extension}`);

    [sanitizeOptions] only converts numeric fields and gradients, which
    leaves the fields read here unchanged.  The canvas of raster exports is
    drawn from [this._qr]; a saved file is recorded as its name and the
    data of the QR code it draws.

    The DOM is the children of each element; only the object writes into
    it ([innerHTML = ""] and [appendChild]).  The component renders the
    preview [div] empty, so an object starts from the empty DOM; the
    objects the component constructs and drops on later renders never have
    a container and never touch it.

    [LibT] is the type of objects whose options object the library can
    read (every object the component builds), and the instance
    [QRLib_laws] proves that this model meets the contract
    [QRStylingLaws] the component's theorems are proved against. *)

From Stdlib Require Import QArith_base.
From stdpp Require Import base list strings option.
From S2P Require Import Prelude QRStyling JsObject.

(** A drawn [<svg>] element and the data of the QR code it shows. *)
Record Node := mkNode {
  node_id : nat;
  node_data : string
}.

#[export] Instance Node_eq_dec : EqDecision Node.
Proof. solve_decision. Defined.

(** The DOM: the children of each element, in order. *)
Definition Dom := Element -> list Node.

Definition empty_dom : Dom := fun _ => [].

(** [container.innerHTML = ""]. *)
Definition dom_clear (el : Element) (dom : Dom) : Dom :=
  fun e => if decide (e = el) then [] else dom e.

(** [el.appendChild(n)]: [n] leaves its parent and becomes the last
    child of [el]. *)
Definition dom_append (el : Element) (n : Node) (dom : Dom) : Dom :=
  fun e =>
    let l := filter (fun m => m <> n) (dom e) in
    if decide (e = el) then l ++ [n] else l.

Record QRLib := mkQRLib {
  lib_options : jsv;
  lib_container : option Element;
  lib_qr : option string;
  lib_svg : option Node;
  lib_next : nat;
  lib_dom : Dom;
  lib_saved : list (string * string);
  lib_rejected : list string
}.

(** JavaScript truthiness. *)
Definition js_truthy (v : jsv) : bool :=
  match v with
  | JUndefined | JNull => false
  | JBool b => b
  | JNumber q => negb (Qeq_bool q 0)
  | JString s => negb (String.eqb s "")
  | JArray _ | JObject _ => true
  end.

(** [this._options.data]. *)
Definition options_data (v : jsv) : jsv :=
  match v with JObject ps => get_prop ps "data" | _ => JUndefined end.

(** [append(container)]. *)
Definition lib_append (c : option Element) (q : QRLib) : QRLib :=
  match c with
  | None => q
  | Some el =>
      mkQRLib (lib_options q) (Some el) (lib_qr q) (lib_svg q) (lib_next q)
        (match lib_svg q with Some n => dom_append el n (lib_dom q) | None => lib_dom q end)
        (lib_saved q) (lib_rejected q)
  end.

(** [update(options)]. *)
Definition lib_update (options : option jsv) (q : QRLib) : QRLib :=
  let dom := match lib_container q with Some el => dom_clear el (lib_dom q) | None => lib_dom q end in
  let opts := match options with Some o => merge_deep_all (lib_options q) [o] | None => lib_options q end in
  let data := options_data opts in
  if js_truthy data then
    let d := match data with JString s => s | _ => "" end in
    lib_append (lib_container q)
      (mkQRLib opts (lib_container q) (Some d) (Some (mkNode (lib_next q) d)) (S (lib_next q))
               dom (lib_saved q) (lib_rejected q))
  else mkQRLib opts (lib_container q) (lib_qr q) (lib_svg q) (lib_next q) dom (lib_saved q) (lib_rejected q).

(** [new QRCodeStyling(options)]. *)
Definition lib_new (options : jsv) : QRLib :=
  lib_update None (mkQRLib (merge_deep_all default_options [options]) None None None 0 empty_dom [] []).

Definition string_of_extension (e : FileExtension) : string :=
  match e with ExtSvg => "svg" | ExtPng => "png" | ExtJpeg => "jpeg" | ExtWebp => "webp" end.

(** The name of the saved file: [name || "qr"], a dot, the extension. *)
Definition file_name (d : DownloadOptions) : string :=
  (if String.eqb (dl_name d) "" then "qr" else dl_name d) +:+ "." +:+ string_of_extension (dl_extension d).

(** [download({name, extension})]. *)
Definition lib_download (d : DownloadOptions) (q : QRLib) : QRLib :=
  match lib_qr q with
  | None =>
      mkQRLib (lib_options q) (lib_container q) (lib_qr q) (lib_svg q) (lib_next q) (lib_dom q)
        (lib_saved q) (lib_rejected q +: "QR code is empty")
  | Some data =>
      mkQRLib (lib_options q) (lib_container q) (lib_qr q) (lib_svg q) (lib_next q) (lib_dom q)
        (lib_saved q +: (file_name d, data)) (lib_rejected q)
  end.

(** The component's calls, with the payload and the constructor's
    options as the object literals of the source. *)
Definition lib_call (c : QRCall) (q : QRLib) : QRLib :=
  match c with
  | CallAppend el => lib_append (Some el) q
  | CallUpdate p => lib_update (Some (payload_object p)) q
  | CallDownload d => lib_download d q
  end.

(** What the drawing in an element shows. *)
Definition shown (q : QRLib) (el : Element) : list string := map node_data (lib_dom q el).

(** The objects whose options the library can read. *)
Definition lib_ok (q : QRLib) : Prop := is_Some (options_of_object (lib_options q)).

Definition LibT := { q : QRLib | lib_ok q }.

(** ** Options and container through the calls *)

Lemma lib_append_options c q : lib_options (lib_append c q) = lib_options q.
Proof. by destruct c. Qed.

Lemma lib_append_container c q :
  lib_container (lib_append c q) = match c with Some el => Some el | None => lib_container q end.
Proof. by destruct c. Qed.

Lemma lib_update_options o q :
  lib_options (lib_update o q) =
  match o with Some s => merge_deep_all (lib_options q) [s] | None => lib_options q end.
Proof. unfold lib_update, lib_append. cbv beta iota zeta. by repeat case_match. Qed.

Lemma lib_update_container o q : lib_container (lib_update o q) = lib_container q.
Proof. unfold lib_update, lib_append. cbv beta iota zeta. repeat case_match; simpl; congruence. Qed.

Lemma lib_download_options d q : lib_options (lib_download d q) = lib_options q.
Proof. unfold lib_download. by case_match. Qed.

Lemma lib_download_container d q : lib_container (lib_download d q) = lib_container q.
Proof. unfold lib_download. by case_match. Qed.

Lemma lib_download_qr d q : lib_qr (lib_download d q) = lib_qr q.
Proof. unfold lib_download. by case_match. Qed.

Lemma lib_download_dom d q : lib_dom (lib_download d q) = lib_dom q.
Proof. unfold lib_download. by case_match. Qed.

Lemma options_of_object_is_object v o : options_of_object v = Some o -> is_object v = true.
Proof. by destruct v. Qed.

Lemma merge_deep_all_one t s :
  is_object t = true -> is_object s = true -> merge_deep_all t [s] = merge_deep t s.
Proof. intros Ht Hs. simpl. by rewrite Ht, Hs. Qed.

(** The options after an [update] with the component's payload. *)
Lemma lib_update_payload_options q o p :
  options_of_object (lib_options q) = Some o ->
  options_of_object (lib_options (lib_call (CallUpdate p) q)) = Some (merge_payload p o).
Proof.
  intros Ho. simpl. rewrite lib_update_options, merge_deep_all_one.
  - by apply merge_deep_payload.
  - by eapply options_of_object_is_object.
  - done.
Qed.

Lemma lib_new_options o : options_of_object (lib_options (lib_new (ctor_object o))) = Some o.
Proof. unfold lib_new. rewrite lib_update_options. apply ctor_options. Qed.

Lemma lib_call_ok c q : lib_ok q -> lib_ok (lib_call c q).
Proof.
  intros [o Ho]. unfold lib_ok. destruct c as [el|p|d].
  - simpl. by eexists.
  - rewrite (lib_update_payload_options q o p Ho). by eexists.
  - simpl. rewrite lib_download_options. by eexists.
Qed.

Lemma lib_new_ok o : lib_ok (lib_new (ctor_object o)).
Proof. unfold lib_ok. rewrite lib_new_options. by eexists. Qed.

#[export] Instance QRLib_api : QRStylingApi LibT := {
  qr_new o := exist _ (lib_new (ctor_object o)) (lib_new_ok o);
  qr_call c q := exist _ (lib_call c (proj1_sig q)) (lib_call_ok c _ (proj2_sig q));
  qr_options q := is_Some_proj (proj2_sig q);
  qr_container q := lib_container (proj1_sig q)
}.

Lemma lib_options_spec (q : LibT) :
  options_of_object (lib_options (proj1_sig q)) = Some (qr_options q).
Proof.
  destruct q as [q Hq]. simpl. unfold lib_ok in Hq. revert Hq.
  generalize (options_of_object (lib_options q)). intros [o|] Hq; [done|]. by destruct Hq.
Qed.

Lemma lib_options_of (q : LibT) o :
  options_of_object (lib_options (proj1_sig q)) = Some o -> qr_options q = o.
Proof. rewrite lib_options_spec. congruence. Qed.

#[export] Instance QRLib_laws : QRStylingLaws LibT.
Proof.
  split.
  - intros o. apply lib_options_of, lib_new_options.
  - intros o. exact (lib_update_container None _).
  - intros p q. apply lib_options_of, lib_update_payload_options, lib_options_spec.
  - intros p q. simpl. apply lib_update_container.
  - intros el q. apply lib_options_of. exact (lib_options_spec q).
  - intros el q. done.
  - intros d q. apply lib_options_of. simpl. rewrite lib_download_options. apply lib_options_spec.
  - intros d q. simpl. apply lib_download_container.
Qed.

(** ** What [update] draws *)

(** The data of an [update] that draws: a non-empty text. *)
Definition drawn_data (c : QRCall) : option string :=
  match c with
  | CallUpdate p => if String.eqb (up_data p) "" then None else Some (up_data p)
  | _ => None
  end.

Lemma string_of_js_Some v d : string_of_js v = Some d -> v = JString d.
Proof. destruct v; simpl; congruence. Qed.

Lemma options_data_spec v o : options_of_object v = Some o -> options_data v = JString (opt_data o).
Proof.
  intros Hv. destruct v as [| | | | | |ps]; try done. unfold options_of_object in Hv.
  simplify_option_eq. simpl. by apply string_of_js_Some.
Qed.

Lemma lib_update_data q o p :
  options_of_object (lib_options q) = Some o ->
  options_data (merge_deep_all (lib_options q) [payload_object p]) = JString (up_data p).
Proof.
  intros Ho. pose proof (lib_update_payload_options q o p Ho) as H.
  unfold lib_call in H. rewrite lib_update_options in H. by rewrite (options_data_spec _ _ H).
Qed.

(** [update] with the component's payload on a readable object: the
    branch on [!this._options.data]. *)
Lemma lib_update_cases q o p :
  options_of_object (lib_options q) = Some o ->
  lib_call (CallUpdate p) q =
  let opts := merge_deep_all (lib_options q) [payload_object p] in
  let dom := match lib_container q with Some el => dom_clear el (lib_dom q) | None => lib_dom q end in
  if String.eqb (up_data p) "" then
    mkQRLib opts (lib_container q) (lib_qr q) (lib_svg q) (lib_next q) dom (lib_saved q) (lib_rejected q)
  else
    lib_append (lib_container q)
      (mkQRLib opts (lib_container q) (Some (up_data p)) (Some (mkNode (lib_next q) (up_data p)))
               (S (lib_next q)) dom (lib_saved q) (lib_rejected q)).
Proof.
  intros Ho. unfold lib_call, lib_update. cbv beta iota zeta.
  rewrite (lib_update_data q o p Ho). cbn [js_truthy negb].
  by destruct (String.eqb (up_data p) "").
Qed.

Lemma lib_update_qr q o p :
  options_of_object (lib_options q) = Some o ->
  lib_qr (lib_call (CallUpdate p) q) = match drawn_data (CallUpdate p) with Some d => Some d | None => lib_qr q end.
Proof.
  intros Ho. rewrite (lib_update_cases q o p Ho). simpl.
  destruct (String.eqb (up_data p) ""); [done|]. by destruct (lib_container q).
Qed.

Lemma lib_update_shown q o p el :
  options_of_object (lib_options q) = Some o -> lib_container q = Some el ->
  shown (lib_call (CallUpdate p) q) el = if String.eqb (up_data p) "" then [] else [up_data p].
Proof.
  intros Ho Hc. rewrite (lib_update_cases q o p Ho). cbn zeta. rewrite Hc.
  destruct (String.eqb (up_data p) ""); unfold shown; cbn [lib_append lib_dom lib_svg].
  - unfold dom_clear. by rewrite decide_True.
  - unfold dom_append, dom_clear. by rewrite !decide_True.
Qed.

Lemma lib_update_saved q o p :
  options_of_object (lib_options q) = Some o ->
  lib_saved (lib_call (CallUpdate p) q) = lib_saved q /\
  lib_rejected (lib_call (CallUpdate p) q) = lib_rejected q.
Proof.
  intros Ho. rewrite (lib_update_cases q o p Ho). cbn zeta.
  destruct (String.eqb (up_data p) ""); [done|]. by destruct (lib_container q).
Qed.

Lemma lib_new_qr o :
  lib_qr (lib_new (ctor_object o)) = if String.eqb (opt_data o) "" then None else Some (opt_data o).
Proof.
  unfold lib_new, lib_update. cbv beta iota zeta. cbn [lib_options lib_qr].
  rewrite (options_data_spec _ _ (ctor_options o)). cbn [js_truthy negb].
  by destruct (String.eqb (opt_data o) "").
Qed.

(** C11: [update] with the component's payload, on an object whose
    options the library can read and that is attached to [el]: the
    options become those [merge_payload] gives; with empty data the
    container is emptied and the QR code kept (the early return of
    [if (!this._options.data) return]), otherwise the QR code is the new
    data and the container shows exactly one drawing, of it; the object
    stays attached and saves nothing. *)
Theorem update_spec q o p el :
  options_of_object (lib_options q) = Some o -> lib_container q = Some el ->
  options_of_object (lib_options (lib_call (CallUpdate p) q)) = Some (merge_payload p o) /\
  lib_qr (lib_call (CallUpdate p) q) = (if String.eqb (up_data p) "" then lib_qr q else Some (up_data p)) /\
  shown (lib_call (CallUpdate p) q) el = (if String.eqb (up_data p) "" then [] else [up_data p]) /\
  lib_container (lib_call (CallUpdate p) q) = Some el /\
  lib_saved (lib_call (CallUpdate p) q) = lib_saved q.
Proof.
  intros Ho Hc. split_and!.
  - by apply lib_update_payload_options.
  - rewrite (lib_update_qr q o p Ho). simpl. by destruct (String.eqb (up_data p) "").
  - by apply (lib_update_shown q o).
  - simpl. by rewrite lib_update_container.
  - apply (lib_update_saved q o p Ho).
Qed.

(** C12: the constructor holds exactly the options of the literal it is
    given, is attached nowhere, has saved and rejected nothing, and holds
    a QR code only when the literal's data is non-empty (the component's
    is [""]: none). *)
Theorem new_spec o :
  options_of_object (lib_options (lib_new (ctor_object o))) = Some o /\
  lib_container (lib_new (ctor_object o)) = None /\
  lib_qr (lib_new (ctor_object o)) = (if String.eqb (opt_data o) "" then None else Some (opt_data o)) /\
  lib_saved (lib_new (ctor_object o)) = [] /\ lib_rejected (lib_new (ctor_object o)) = [].
Proof.
  split_and!; [apply lib_new_options | apply (lib_update_container None) | apply lib_new_qr | ..];
    unfold lib_new, lib_update; cbv beta iota zeta; by case_match.
Qed.

(** ** The theorems on concrete objects *)

Lemma update_spec_witness :
  options_of_object (lib_options (lib_append (Some 0) (lib_new (ctor_object demo_options)))) =
    Some demo_options /\
  lib_container (lib_append (Some 0) (lib_new (ctor_object demo_options))) = Some 0 /\
  shown (lib_call (CallUpdate demo_payload) (lib_append (Some 0) (lib_new (ctor_object demo_options)))) 0 =
    ["hello"].
Proof.
  split_and!; [vm_compute; reflexivity | reflexivity |].
  apply (update_spec _ demo_options demo_payload 0); vm_compute; reflexivity.
Defined.

