(* ===== verification/QRGeneratorPro.v ===== *)
(** * The [QRGeneratorPro] component

    The state of one mounted [QRGeneratorPro] ([src/src/components/
    QRGeneratorPro.tsx]): the seven [useState] cells, the [qrRef] ref, what
    React remembers of the two effects (their last dependency lists), the
    number of times the expression [new QRCodeStyling({...})] was
    evaluated, the calls made on the one instance [useRef] keeps, and the
    [FileReader]s whose reads are in flight.  Each handler of the source is
    one definition; [dispatch] runs one UI event the way React runs it:
    the handler, then, if a setter scheduled it, a render and a commit that
    attaches the ref and runs each effect whose dependencies changed, in
    the order the effects are declared.  [reachable] closes the mount under
    the events the DOM can deliver ([event_ok]). *)

From stdpp Require Import base list strings.
From S2P Require Import Prelude JsValues ReactHooks StyleTypes QRStyling DataUrl.

(** ** State *)

(** The seven [useState] cells (lines 9-22). *)
Record Cells := mkCells {
  text : string;
  dotStyle : string;
  cornerDotStyle : string;
  cornerSquareStyle : string;
  fgColor : string;
  bgColor : string;
  logo : option string
}.

#[export] Instance Cells_eq_dec : EqDecision Cells.
Proof. solve_decision. Defined.

Definition init_cells : Cells :=
  mkCells "" "square" "square" "square" "#000000" "#ffffff" None.

(** The component instance as React holds it. *)
Record St := mkSt {
  cells : Cells;
  qrRef : option Element;                 (** [qrRef.current] *)
  appendDeps : option (list jsval);       (** deps of the effect at line 49 *)
  syncDeps : option (list jsval);         (** deps of the effect at line 56 *)
  constructed : nat;                      (** evaluations of [new QRCodeStyling] *)
  calls : list QRCall;                    (** calls on the kept instance *)
  readers : list (nat * File);            (** [FileReader]s in flight *)
  nextReader : nat
}.

Definition with_cells (c : Cells) (s : St) : St :=
  mkSt c (qrRef s) (appendDeps s) (syncDeps s) (constructed s) (calls s) (readers s) (nextReader s).

Definition add_call (c : QRCall) (s : St) : St :=
  mkSt (cells s) (qrRef s) (appendDeps s) (syncDeps s) (constructed s) (calls s +: c) (readers s) (nextReader s).

Definition with_readers (rs : list (nat * File)) (next : nat) (s : St) : St :=
  mkSt (cells s) (qrRef s) (appendDeps s) (syncDeps s) (constructed s) (calls s) rs next.

(** The options of [new QRCodeStyling({...})] (lines 26-45). *)
Definition init_options : Options :=
  mkOptions 300 300 DrawSvg "" None "#000000" "square" "square" "square" "#ffffff".

(** The preview [<div ref={qrRef}>] (lines 190-193). *)
Definition preview_div : Element := 0.

(** The instance [useRef] keeps: the first one constructed, after the
    calls made on it. *)
Definition instance `{QRStylingApi T} (s : St) : T :=
  replay (calls s) (qr_new init_options).

(** ** Render and commit *)

(** A render evaluates the body: [useRef(new QRCodeStyling({...}))]
    constructs an instance each time; [useRef] returns the first. *)
Definition render (s : St) : St :=
  mkSt (cells s) (qrRef s) (appendDeps s) (syncDeps s) (S (constructed s)) (calls s) (readers s) (nextReader s).

(** React attaches [qrRef] to the preview [div] before the effects run. *)
Definition attach_ref (s : St) : St :=
  mkSt (cells s) (Some preview_div) (appendDeps s) (syncDeps s) (constructed s) (calls s) (readers s) (nextReader s).

(** Lines 49-53: [if (qrRef.current) qr.append(qrRef.current)]. *)
Definition append_effect (s : St) : St :=
  match qrRef s with
  | Some el => add_call (CallAppend el) s
  | None => s
  end.

(** The object literal of lines 57-73. *)
Definition payload (c : Cells) : UpdatePayload :=
  {| up_data := text c;
     up_image := or_undefined (logo c);
     up_dots_color := fgColor c;
     up_dots_type := dotStyle c;
     up_corners_dot_type := cornerDotStyle c;
     up_corners_square_type := cornerSquareStyle c;
     up_background_color := bgColor c |}.

(** The dependency list of lines 74-82. *)
Definition sync_deps (c : Cells) : list jsval :=
  [JsString (text c); of_nullable (logo c); JsString (dotStyle c);
   JsString (cornerDotStyle c); JsString (cornerSquareStyle c);
   JsString (fgColor c); JsString (bgColor c)].

(** Lines 56-73: [qr.update({...})]. *)
Definition sync_effect (s : St) : St := add_call (CallUpdate (payload (cells s))) s.

Definition set_append_deps (d : list jsval) (s : St) : St :=
  mkSt (cells s) (qrRef s) (Some d) (syncDeps s) (constructed s) (calls s) (readers s) (nextReader s).

Definition set_sync_deps (d : list jsval) (s : St) : St :=
  mkSt (cells s) (qrRef s) (appendDeps s) (Some d) (constructed s) (calls s) (readers s) (nextReader s).

(** [useEffect(..., [])] of line 49. *)
Definition run_append_effect (s : St) : St :=
  if effect_should_run (appendDeps s) [] then set_append_deps [] (append_effect s) else s.

(** [useEffect(..., [text, logo, ...])] of line 56. *)
Definition run_sync_effect (s : St) : St :=
  let deps := sync_deps (cells s) in
  if effect_should_run (syncDeps s) deps then set_sync_deps deps (sync_effect s) else s.

(** The commit: the ref, then the effects in declaration order. *)
Definition commit (s : St) : St := run_sync_effect (run_append_effect (attach_ref s)).

(** The component before its first render. *)
Definition unmounted : St := mkSt init_cells None None None 0 [] [] 0.

(** The first render and commit. *)
Definition mount : St := commit (render unmounted).

(** ** The setters

    A setter bails out when the new value is [Object.is] the current one;
    otherwise the component renders and commits with the new cell. *)

Definition set_cell (cur v : jsval) (c' : Cells) (s : St) : St :=
  if (set_state cur v).2 then commit (render (with_cells c' s)) else s.

Definition setText (v : string) (s : St) : St :=
  let c := cells s in
  set_cell (JsString (text c)) (JsString v)
    (mkCells v (dotStyle c) (cornerDotStyle c) (cornerSquareStyle c) (fgColor c) (bgColor c) (logo c)) s.

Definition setDotStyle (v : string) (s : St) : St :=
  let c := cells s in
  set_cell (JsString (dotStyle c)) (JsString v)
    (mkCells (text c) v (cornerDotStyle c) (cornerSquareStyle c) (fgColor c) (bgColor c) (logo c)) s.

Definition setCornerDotStyle (v : string) (s : St) : St :=
  let c := cells s in
  set_cell (JsString (cornerDotStyle c)) (JsString v)
    (mkCells (text c) (dotStyle c) v (cornerSquareStyle c) (fgColor c) (bgColor c) (logo c)) s.

Definition setCornerSquareStyle (v : string) (s : St) : St :=
  let c := cells s in
  set_cell (JsString (cornerSquareStyle c)) (JsString v)
    (mkCells (text c) (dotStyle c) (cornerDotStyle c) v (fgColor c) (bgColor c) (logo c)) s.

Definition setFgColor (v : string) (s : St) : St :=
  let c := cells s in
  set_cell (JsString (fgColor c)) (JsString v)
    (mkCells (text c) (dotStyle c) (cornerDotStyle c) (cornerSquareStyle c) v (bgColor c) (logo c)) s.

Definition setBgColor (v : string) (s : St) : St :=
  let c := cells s in
  set_cell (JsString (bgColor c)) (JsString v)
    (mkCells (text c) (dotStyle c) (cornerDotStyle c) (cornerSquareStyle c) (fgColor c) v (logo c)) s.

Definition setLogo (v : option string) (s : St) : St :=
  let c := cells s in
  set_cell (of_nullable (logo c)) (of_nullable v)
    (mkCells (text c) (dotStyle c) (cornerDotStyle c) (cornerSquareStyle c) (fgColor c) (bgColor c) v) s.

(** ** The handlers *)

(** Lines 85-94.  [e.target.files?.[0]]: no file list or an empty one is
    [undefined] and the handler returns; otherwise a new [FileReader]
    starts reading the first file.  Nothing is set before [onload]. *)
Definition handleLogoUpload (files : option (list File)) (s : St) : St :=
  match files ≫= head with
  | None => s
  | Some file => with_readers (readers s +: (nextReader s, file)) (S (nextReader s)) s
  end.

(** The file reader [id] is reading, if it is in flight. *)
Fixpoint find_reader (id : nat) (rs : list (nat * File)) : option File :=
  match rs with
  | [] => None
  | (id', f) :: rs' => if Nat.eqb id id' then Some f else find_reader id rs'
  end.

(** The readers still in flight once reader [id] has finished. *)
Definition drop_reader (id : nat) (rs : list (nat * File)) : list (nat * File) :=
  filter (fun r => r.1 ≠ id) rs.

(** Lines 90-92: [reader.onload = () => setLogo(reader.result as string)],
    run when the read of reader [id] completes. *)
Definition reader_onload (id : nat) (s : St) : St :=
  match find_reader id (readers s) with
  | Some file =>
      setLogo (Some (read_as_data_url file))
        (with_readers (drop_reader id (readers s)) (nextReader s) s)
  | None => s
  end.

(** A read that fails fires [error], not [load]: the component sets no
    [onerror], so the reader finishes and nothing else happens. *)
Definition reader_onerror (id : nat) (s : St) : St :=
  with_readers (drop_reader id (readers s)) (nextReader s) s.

(** The [format] parameter of [download] (line 97). *)
Inductive Format := FormatPng | FormatJpeg | FormatSvg.

Definition extension_of_format (f : Format) : FileExtension :=
  match f with
  | FormatPng => ExtPng
  | FormatJpeg => ExtJpeg
  | FormatSvg => ExtSvg
  end.

(** Lines 97-99: [qr.download({ name: "qrcode", extension: format })]. *)
Definition download (format : Format) (s : St) : St :=
  add_call (CallDownload (mkDownload "qrcode" (extension_of_format format))) s.

(** The three buttons of lines 197-199 and the format each passes. *)
Inductive Button := DownloadPNG | DownloadJPG | DownloadSVG.

Definition button_format (b : Button) : Format :=
  match b with
  | DownloadPNG => FormatPng
  | DownloadJPG => FormatJpeg
  | DownloadSVG => FormatSvg
  end.

(** ** Events *)

(** What the DOM and the [FileReader]s deliver to a mounted component. *)
Inductive Event :=
| EvText (v : string)                 (** line 110 *)
| EvDotStyle (v : string)             (** line 120 *)
| EvCornerDotStyle (v : string)       (** line 136 *)
| EvCornerSquareStyle (v : string)    (** lines 148-150 *)
| EvFgColor (v : string)              (** line 167 *)
| EvBgColor (v : string)              (** line 176 *)
| EvLogoFiles (files : option (list File))  (** line 184 *)
| EvReaderLoad (id : nat)             (** [reader.onload] *)
| EvReaderError (id : nat)            (** the read of [id] fails *)
| EvClick (b : Button).               (** lines 197-199 *)

(** The handler each event runs (the [onChange] and [onClick] props of
    the JSX, lines 106-199), with React's render and commit inside the
    setters. *)
Definition dispatch (e : Event) (s : St) : St :=
  match e with
  | EvText v => setText v s
  | EvDotStyle v => setDotStyle v s
  | EvCornerDotStyle v => setCornerDotStyle v s
  | EvCornerSquareStyle v => setCornerSquareStyle v s
  | EvFgColor v => setFgColor v s
  | EvBgColor v => setBgColor v s
  | EvLogoFiles files => handleLogoUpload files s
  | EvReaderLoad id => reader_onload id s
  | EvReaderError id => reader_onerror id s
  | EvClick b => download (button_format b) s
  end.

(** The events the browser can deliver: a [<select>] reports one of its
    option values, a colour input a simple colour, and only a reader in
    flight completes. *)
Definition event_ok (s : St) (e : Event) : bool :=
  match e with
  | EvDotStyle v => select_value_ok dot_style_options v
  | EvCornerDotStyle v => select_value_ok corner_dot_style_options v
  | EvCornerSquareStyle v => select_value_ok corner_square_style_options v
  | EvFgColor v | EvBgColor v => is_simple_color v
  | EvReaderLoad id | EvReaderError id => bool_decide (is_Some (find_reader id (readers s)))
  | EvText _ | EvLogoFiles _ | EvClick _ => true
  end.

(** The states of a mounted component. *)
Inductive reachable : St -> Prop :=
| reachable_mount : reachable mount
| reachable_step s e : reachable s -> event_ok s e = true -> reachable (dispatch e s).

(** A sequence of events, oldest first; [None] when one is not deliverable. *)
Fixpoint run_events (es : list Event) (s : St) : option St :=
  match es with
  | [] => Some s
  | e :: es' => if event_ok s e then run_events es' (dispatch e s) else None
  end.

(** ** The invariant of a mounted component *)

(** What every cell holds: a style string names a variant of the
    library's type, a colour is a simple colour, the logo is absent or the
    data URL of a file. *)
Definition cells_ok (c : Cells) : Prop :=
  is_Some (dot_type_of_string (dotStyle c)) /\
  is_Some (corner_dot_type_of_string (cornerDotStyle c)) /\
  is_Some (corner_square_type_of_string (cornerSquareStyle c)) /\
  is_simple_color (fgColor c) = true /\
  is_simple_color (bgColor c) = true /\
  (logo c = None \/ exists f, logo c = Some (read_as_data_url f)).

(** Readers have distinct identities below the next one. *)
Definition readers_ok (rs : list (nat * File)) (next : nat) : Prop :=
  NoDup rs.*1 /\ Forall (fun r => r.1 < next) rs.

Record Inv (s : St) : Prop := {
  inv_cells : cells_ok (cells s);
  inv_ref : qrRef s = Some preview_div;
  inv_append_deps : appendDeps s = Some [];
  inv_sync_deps : syncDeps s = Some (sync_deps (cells s));
  inv_last_update : last_match update_of (calls s) = Some (payload (cells s));
  inv_appends : countb is_append (calls s) = 1;
  inv_last_append : last_match append_of (calls s) = Some preview_div;
  inv_readers : readers_ok (readers s) (nextReader s);
  inv_constructed : 1 <= constructed s
}.

(** ** Specification of the settings events *)

(** The settings events: the [onChange] of the text input, the three
    selects and the two colour inputs. *)
Definition is_setting_event (e : Event) : bool :=
  match e with
  | EvText _ | EvDotStyle _ | EvCornerDotStyle _ | EvCornerSquareStyle _
  | EvFgColor _ | EvBgColor _ => true
  | _ => false
  end.

(** The one field of the [update] payload a settings event names. *)
Definition payload_field_set (e : Event) (p : UpdatePayload) : UpdatePayload :=
  let '(mkPayload d i dc dt cdt cst bc) := p in
  match e with
  | EvText v => mkPayload v i dc dt cdt cst bc
  | EvDotStyle v => mkPayload d i dc v cdt cst bc
  | EvCornerDotStyle v => mkPayload d i dc dt v cst bc
  | EvCornerSquareStyle v => mkPayload d i dc dt cdt v bc
  | EvFgColor v => mkPayload d i v dt cdt cst bc
  | EvBgColor v => mkPayload d i dc dt cdt cst v
  | _ => p
  end.

(** The download a click on button [b] asks for: the label's format. *)
Definition button_download (b : Button) : DownloadOptions :=
  mkDownload "qrcode"
    (match b with DownloadPNG => ExtPng | DownloadJPG => ExtJpeg | DownloadSVG => ExtSvg end).

(** The downloads a sequence of events asks for, in order. *)
Definition clicks (es : list Event) : list DownloadOptions :=
  omap (fun e => match e with EvClick b => Some (button_download b) | _ => None end) es.

(** The calls an event makes without a render: a click's [download]. *)
Definition click_calls (e : Event) : list QRCall :=
  match e with EvClick b => [CallDownload (button_download b)] | _ => [] end.

(** ** The two shapes of a step *)

(** A step either leaves the cells alone, with no render and no call
    but a click's [download], or changes them, with one render and one
    [update] carrying the new payload. *)
Definition step_shape (s : St) (e : Event) (s' : St) : Prop :=
  (cells s' = cells s /\ constructed s' = constructed s /\ calls s' = calls s ++ click_calls e) \/
  (cells s' <> cells s /\ click_calls e = [] /\ constructed s' = S (constructed s) /\
   calls s' = calls s +: CallUpdate (payload (cells s'))).

(** The cells a deliverable event leaves after the mount: a settings
    event sets its field, a completed read the logo, the others none. *)
Definition cells_after (e : Event) (s : St) : Cells :=
  let c := cells s in
  match e with
  | EvText v => mkCells v (dotStyle c) (cornerDotStyle c) (cornerSquareStyle c) (fgColor c) (bgColor c) (logo c)
  | EvDotStyle v => mkCells (text c) v (cornerDotStyle c) (cornerSquareStyle c) (fgColor c) (bgColor c) (logo c)
  | EvCornerDotStyle v =>
      mkCells (text c) (dotStyle c) v (cornerSquareStyle c) (fgColor c) (bgColor c) (logo c)
  | EvCornerSquareStyle v =>
      mkCells (text c) (dotStyle c) (cornerDotStyle c) v (fgColor c) (bgColor c) (logo c)
  | EvFgColor v => mkCells (text c) (dotStyle c) (cornerDotStyle c) (cornerSquareStyle c) v (bgColor c) (logo c)
  | EvBgColor v => mkCells (text c) (dotStyle c) (cornerDotStyle c) (cornerSquareStyle c) (fgColor c) v (logo c)
  | EvReaderLoad id =>
      match find_reader id (readers s) with
      | Some f => mkCells (text c) (dotStyle c) (cornerDotStyle c) (cornerSquareStyle c) (fgColor c) (bgColor c)
                          (Some (read_as_data_url f))
      | None => c
      end
  | EvLogoFiles _ | EvReaderError _ | EvClick _ => c
  end.

(** A file to upload and a state reached after the mount, to run the
    theorems on. *)
Definition demo_file : File := mkFile "logo.png" "image/png" [Byte.x89; Byte.x50; Byte.x4e; Byte.x47].

Definition demo_state : St := dispatch (EvText "https://example.com") mount.

Definition other_file : File := mkFile "other.png" "image/png" [Byte.x00; Byte.xff].

(** The state once [demo_file] has been picked and read. *)
Definition logo_state : St :=
  dispatch (EvReaderLoad 0) (dispatch (EvLogoFiles (Some [demo_file])) demo_state).

(** ** The commit of a mounted component *)

Lemma sync_deps_inj c c' : sync_deps c = sync_deps c' -> c = c'.
Proof.
  destruct c, c'; unfold sync_deps; simpl. intros H.
  injection H as -> Hlogo -> -> -> -> ->. apply of_nullable_inj in Hlogo as ->. done.
Qed.

Lemma sync_deps_changed c c' :
  c' <> c -> effect_should_run (Some (sync_deps c)) (sync_deps c') = true.
Proof.
  intros Hne. unfold effect_should_run. destruct (are_hook_inputs_equal (sync_deps c') (sync_deps c)) eqn:E; [|done].
  apply are_hook_inputs_equal_same_length, sync_deps_inj in E; [congruence|done].
Qed.

(** After the mount, a render and commit with changed cells issues one
    [update] with the new payload, and nothing else: the mount effect
    does not run again. *)
Lemma commit_render_changed c' s :
  qrRef s = Some preview_div -> appendDeps s = Some [] ->
  syncDeps s = Some (sync_deps (cells s)) -> c' <> cells s ->
  commit (render (with_cells c' s)) =
  mkSt c' (qrRef s) (appendDeps s) (Some (sync_deps c')) (S (constructed s))
       (calls s +: CallUpdate (payload c')) (readers s) (nextReader s).
Proof.
  destruct s as [c r ad sd k cs rs n]; cbn -[effect_should_run sync_deps]. intros -> -> -> Hne.
  unfold commit, run_sync_effect, run_append_effect; cbn -[effect_should_run sync_deps].
  change (effect_should_run (Some []) []) with false.
  cbn -[effect_should_run sync_deps]. by rewrite (sync_deps_changed c c').
Qed.

(** A setter after the mount: nothing when the value is the same,
    otherwise the render and commit above. *)
Lemma set_cell_mounted cur v c' s :
  qrRef s = Some preview_div -> appendDeps s = Some [] ->
  syncDeps s = Some (sync_deps (cells s)) -> (v = cur <-> c' = cells s) ->
  set_cell cur v c' s =
  if decide (c' = cells s) then s
  else mkSt c' (qrRef s) (appendDeps s) (Some (sync_deps c')) (S (constructed s))
            (calls s +: CallUpdate (payload c')) (readers s) (nextReader s).
Proof.
  intros Hr Ha Hs Hiff. unfold set_cell, set_state.
  destruct (object_is v cur) eqn:E; simpl.
  - apply object_is_true, Hiff in E. by rewrite decide_True.
  - assert (c' <> cells s) as Hne.
    { rewrite <- Hiff. intros ->. by rewrite object_is_refl in E. }
    rewrite decide_False by done. by apply commit_render_changed.
Qed.

(** ** The invariant holds in every reachable state *)

Lemma Inv_rerender s c' :
  Inv s -> cells_ok c' ->
  Inv (mkSt c' (qrRef s) (appendDeps s) (Some (sync_deps c')) (S (constructed s))
            (calls s +: CallUpdate (payload c')) (readers s) (nextReader s)).
Proof.
  intros [] Hc. split; simpl; try done; try lia.
  - by apply last_match_snoc_hit.
  - rewrite countb_snoc. simpl. lia.
  - by rewrite last_match_snoc_miss.
Qed.

Lemma Inv_set_cell cur v c' s :
  Inv s -> cells_ok c' -> (v = cur <-> c' = cells s) -> Inv (set_cell cur v c' s).
Proof.
  intros HI Hc Hiff. rewrite set_cell_mounted by (done || apply HI).
  case_decide; [done|]. by apply Inv_rerender.
Qed.

Lemma Inv_with_readers s rs next :
  Inv s -> readers_ok rs next -> Inv (with_readers rs next s).
Proof. intros [] Hr. by split. Qed.

Lemma Inv_add_download s d : Inv s -> Inv (add_call (CallDownload d) s).
Proof.
  intros []. split; simpl; try done.
  - by rewrite last_match_snoc_miss.
  - rewrite countb_snoc. simpl. lia.
  - by rewrite last_match_snoc_miss.
Qed.

Lemma Inv_mount : Inv mount.
Proof.
  split; try (vm_compute; reflexivity).
  - repeat split; vm_compute; eauto.
  - split; constructor.
Qed.

(** The facts about one cell that the setters and [setLogo] need. *)
Ltac cells_iff :=
  match goal with
  | |- _ <-> _ = ?c =>
      destruct c; cbn [text dotStyle cornerDotStyle cornerSquareStyle fgColor bgColor logo];
      split; intros Heq;
      [ first [injection Heq as Heq | apply of_nullable_inj in Heq]; subst; done
      | injection Heq; intros; subst; done ]
  end.

Lemma readers_ok_snoc rs n f : readers_ok rs n -> readers_ok (rs +: (n, f)) (S n).
Proof.
  intros [Hnd Hlt]. split.
  - rewrite fmap_app. apply NoDup_app. split_and!; [done| |by apply NoDup_singleton].
    intros i Hi. rewrite list_elem_of_fmap in Hi. destruct Hi as [[j g] [-> Hj]].
    rewrite Forall_forall in Hlt. apply Hlt in Hj. simpl in *.
    rewrite list_elem_of_singleton. lia.
  - apply Forall_app. split; [|by repeat constructor; simpl; lia].
    eapply Forall_impl; [done|]. simpl. lia.
Qed.

Lemma readers_ok_drop rs n id : readers_ok rs n -> readers_ok (drop_reader id rs) n.
Proof.
  intros [Hnd Hlt]. split.
  - eapply sublist_NoDup; [done|]. apply fmap_sublist, sublist_filter.
  - rewrite Forall_forall in Hlt |- *. intros r Hr.
    apply Hlt. by apply list_elem_of_filter in Hr as [_ ?].
Qed.

Lemma Inv_dispatch s e : Inv s -> event_ok s e = true -> Inv (dispatch e s).
Proof.
  intros HI Hok. pose proof (inv_cells _ HI) as (Hd & Hcd & Hcs & Hfg & Hbg & Hlogo).
  destruct e as [v|v|v|v|v|v|files|id|id|b]; simpl in Hok |- *.
  1-6: apply Inv_set_cell; [done | unfold cells_ok; simpl; split_and!; eauto with qr | cells_iff].
  - unfold handleLogoUpload. case_match; [|done].
    apply Inv_with_readers; [done|]. apply readers_ok_snoc, HI.
  - unfold reader_onload. destruct (find_reader id (readers s)) as [f|]; [|done].
    apply Inv_set_cell; [apply Inv_with_readers; [done|apply readers_ok_drop, HI] | |cells_iff].
    unfold cells_ok; simpl; split_and!; eauto.
  - unfold reader_onerror. try (apply Inv_with_readers; [|apply readers_ok_drop, HI]). done.
  - by apply Inv_add_download.
Qed.

Lemma reachable_Inv s : reachable s -> Inv s.
Proof. induction 1; eauto using Inv_mount, Inv_dispatch. Qed.

(** ** What the instance holds *)

Lemma Inv_options `{Laws : QRStylingLaws T} s :
  Inv s -> qr_options (@instance T _ s) = merge_payload (payload (cells s)) init_options.
Proof.
  intros HI. unfold instance. rewrite replay_options, qr_new_options.
  by rewrite (inv_last_update _ HI).
Qed.

Lemma Inv_logo_image s : Inv s -> or_undefined (logo (cells s)) = logo (cells s).
Proof.
  intros HI. destruct (inv_cells _ HI) as (_ & _ & _ & _ & _ & [-> | [f ->]]); [done|].
  apply or_undefined_some, read_as_data_url_nonempty.
Qed.

(** ** Properties of the component *)

(** C1: in every state of the mounted component, the options of the
    [QRCodeStyling] instance are the constructor's options with the last
    [update] merged in, and that [update] is the payload built from the
    current cells: the rendered configuration always reflects the state,
    for any implementation of the library's contract. *)
Theorem config_reflects_state `{Laws : QRStylingLaws T} s :
  reachable s ->
  qr_options (@instance T _ s) = merge_payload (payload (cells s)) init_options.
Proof. intros Hr. by apply Inv_options, reachable_Inv. Qed.

(** C2: field by field, the configuration applied to the instance has
    [data] equal to the text, [image] equal to the logo (the [||] of line
    59 never drops an uploaded logo), the dot type, corner types and
    colours of the cells, and the constructor's 300x300 SVG size and type. *)
Theorem applied_config_fields `{Laws : QRStylingLaws T} s :
  reachable s ->
  let o := qr_options (@instance T _ s) in
  opt_data o = text (cells s) /\ opt_image o = logo (cells s) /\
  opt_dots_type o = dotStyle (cells s) /\
  opt_corners_dot_type o = cornerDotStyle (cells s) /\
  opt_corners_square_type o = cornerSquareStyle (cells s) /\
  opt_dots_color o = fgColor (cells s) /\ opt_background_color o = bgColor (cells s) /\
  opt_width o = 300 /\ opt_height o = 300 /\ opt_type o = DrawSvg.
Proof.
  intros Hr. pose proof (reachable_Inv _ Hr) as HI. simpl.
  rewrite (Inv_options s HI). simpl. rewrite (Inv_logo_image s HI). done.
Qed.

Lemma Inv_container `{Laws : QRStylingLaws T} s :
  Inv s -> qr_container (@instance T _ s) = Some preview_div.
Proof.
  intros HI. unfold instance. rewrite replay_container. by rewrite (inv_last_append _ HI).
Qed.

(** C3: the instance is attached to the preview [div] exactly once, at
    mount, however many times the state changes afterwards. *)
Theorem attached_exactly_once `{Laws : QRStylingLaws T} s :
  reachable s ->
  countb is_append (calls s) = 1 /\ qr_container (@instance T _ s) = Some preview_div.
Proof.
  intros Hr. pose proof (reachable_Inv _ Hr) as HI. split; [apply HI|].
  by apply Inv_container.
Qed.

(** Cells with the same logo are equal exactly when their payloads are. *)
Lemma payload_inj c c' : logo c' = logo c -> payload c' = payload c -> c' = c.
Proof.
  destruct c, c'; simpl. intros -> Hp. unfold payload in Hp; simpl in Hp.
  injection Hp; intros; subst; reflexivity.
Qed.

Lemma decide_payload {X} c c' (a b : X) :
  logo c' = logo c ->
  (if decide (c' = c) then a else b) = (if decide (payload c' = payload c) then a else b).
Proof.
  intros Hl. repeat case_decide; try done; [congruence|].
  exfalso. eauto using payload_inj.
Qed.

(** C7: after the mount, a settings event whose value differs from the
    current one issues exactly one [update], whose payload is the previous
    one with only the field the event names changed; an event that
    repeats the current value issues nothing. *)
Theorem single_field_update s e :
  reachable s -> is_setting_event e = true ->
  let p := payload (cells s) in
  let p' := payload_field_set e p in
  calls (dispatch e s) = if decide (p' = p) then calls s else calls s +: CallUpdate p'.
Proof.
  intros Hr Hset. pose proof (reachable_Inv _ Hr) as HI. cbv zeta.
  destruct e; try discriminate; unfold dispatch, setText, setDotStyle,
    setCornerDotStyle, setCornerSquareStyle, setFgColor, setBgColor;
    (rewrite set_cell_mounted; [|apply HI..|cells_iff]);
    (rewrite decide_payload by done); destruct (cells s); simpl;
    repeat case_decide; simpl; by try contradiction.
Qed.


Lemma set_cell_shape cur v c' s e :
  Inv s -> (v = cur <-> c' = cells s) -> click_calls e = [] ->
  step_shape s e (set_cell cur v c' s).
Proof.
  intros HI Hiff He. rewrite set_cell_mounted by (done || apply HI).
  case_decide; [left; rewrite He, app_nil_r; done | right; done].
Qed.

Lemma dispatch_shape s e : Inv s -> event_ok s e = true -> step_shape s e (dispatch e s).
Proof.
  intros HI Hok. destruct e as [v|v|v|v|v|v|files|id|id|b]; simpl in Hok |- *.
  1-6: apply set_cell_shape; [done|cells_iff|done].
  - unfold handleLogoUpload. left. case_match; simpl; by rewrite app_nil_r.
  - unfold reader_onload. destruct (find_reader id (readers s)) as [f|];
      [|left; simpl; by rewrite app_nil_r].
    apply (set_cell_shape _ _ _ (with_readers _ _ s)); [|cells_iff|done].
    apply Inv_with_readers; [done|apply readers_ok_drop, HI].
  - left. simpl. by rewrite app_nil_r.
  - left. by destruct b.
Qed.

(** C8: every deliverable event makes exactly the calls its effect on
    the cells calls for.  When it changes a cell (a settings value, or
    the logo when a read completes) it issues one [update], whose payload
    is that of the new cells, and no other call; when it changes none (a
    repeated value, a file pick, a failed read, a click) it issues no
    [update], only a click's [download]. *)
Theorem update_iff_cells_changed s e :
  reachable s -> event_ok s e = true ->
  let s' := dispatch e s in
  if decide (cells s' = cells s) then calls s' = calls s ++ click_calls e
  else calls s' = calls s +: CallUpdate (payload (cells s')).
Proof.
  intros Hr Hok. cbv zeta.
  destruct (dispatch_shape s e (reachable_Inv _ Hr) Hok) as [(Hc & _ & Hcalls) | (Hc & _ & _ & Hcalls)];
    [rewrite decide_True | rewrite decide_False]; done.
Qed.

(** C10: over any sequence of deliverable events, the [download] calls
    made on the instance are exactly the clicks, in order, each with the
    name ["qrcode"] and the extension its button names ("Download JPG"
    asks for [jpeg]). *)
Theorem downloads_match_clicks s es s' :
  reachable s -> run_events es s = Some s' ->
  omap download_of (calls s') = omap download_of (calls s) ++ clicks es.
Proof.
  revert s. induction es as [|e es IH]; intros s Hr Hrun; simpl in Hrun.
  - injection Hrun as <-. by rewrite app_nil_r.
  - destruct (event_ok s e) eqn:Hok; [|done].
    rewrite (IH _ (reachable_step _ _ Hr Hok) Hrun).
    destruct (dispatch_shape s e (reachable_Inv _ Hr) Hok)
      as [(_ & _ & Hcalls) | (_ & He & _ & Hcalls)]; rewrite Hcalls, omap_app, <- app_assoc.
    + unfold clicks. simpl. by destruct e.
    + unfold clicks. simpl. by destruct e.
Qed.

(** C13: [new QRCodeStyling({...})] is an argument of [useRef], so it is
    evaluated on every render: each event that changes a cell constructs
    one more instance, which [useRef] discards, while every call still
    goes to the first one. *)
Theorem instance_constructed_per_render s e :
  reachable s -> event_ok s e = true ->
  let s' := dispatch e s in
  constructed s' = constructed s + (if decide (cells s' = cells s) then 0 else 1).
Proof.
  intros Hr Hok. simpl.
  destruct (dispatch_shape s e (reachable_Inv _ Hr) Hok)
    as [(Hc & Hk & _) | (Hc & _ & Hk & _)]; rewrite Hk; case_decide; try done; lia.
Qed.

(** ** Readers *)

Lemma find_reader_app id rs1 rs2 :
  find_reader id (rs1 ++ rs2) =
  match find_reader id rs1 with Some f => Some f | None => find_reader id rs2 end.
Proof.
  induction rs1 as [|[j g] rs1 IH]; simpl; [done|].
  by destruct (Nat.eqb id j).
Qed.

Lemma find_reader_absent id rs : Forall (fun r => r.1 < id) rs -> find_reader id rs = None.
Proof.
  induction 1 as [|[j g] rs Hj _ IH]; simpl in *; [done|].
  by rewrite (proj2 (Nat.eqb_neq id j)) by lia.
Qed.

Lemma find_reader_fresh rs n f :
  Forall (fun r => r.1 < n) rs -> find_reader n (rs +: (n, f)) = Some f.
Proof. intros H. rewrite find_reader_app, find_reader_absent by done. simpl. by rewrite Nat.eqb_refl. Qed.

Lemma find_reader_drop_ne id id' rs :
  id <> id' -> find_reader id (drop_reader id' rs) = find_reader id rs.
Proof.
  intros Hne. induction rs as [|[j g] rs IH]; [done|].
  unfold drop_reader in *. rewrite filter_cons. simpl.
  case_decide as Hj; simpl in *.
  - by rewrite IH.
  - assert (j = id') by (destruct (decide (j = id')); [done|contradiction]). subst j.
    by rewrite (proj2 (Nat.eqb_neq id id')), IH.
Qed.

Lemma commit_readers s : readers (commit s) = readers s.
Proof.
  unfold commit, run_sync_effect, run_append_effect, append_effect.
  repeat (case_match; simpl); done.
Qed.


Lemma commit_nextReader s : nextReader (commit s) = nextReader s.
Proof.
  unfold commit, run_sync_effect, run_append_effect, append_effect.
  repeat (case_match; simpl); done.
Qed.

(** A setter touches neither the readers nor the next reader's id. *)
Lemma set_cell_readers cur v c' s :
  readers (set_cell cur v c' s) = readers s /\ nextReader (set_cell cur v c' s) = nextReader s.
Proof.
  unfold set_cell. destruct (set_state _ _).2; [|done].
  by rewrite commit_readers, commit_nextReader.
Qed.

Lemma setLogo_readers v s : readers (setLogo v s) = readers s.
Proof. apply set_cell_readers. Qed.

(** After the mount a setter leaves exactly the new cells. *)
Lemma set_cell_cells cur v c' s :
  Inv s -> (v = cur <-> c' = cells s) -> cells (set_cell cur v c' s) = c'.
Proof.
  intros HI Hiff. rewrite set_cell_mounted by (done || apply HI).
  case_decide as Hc; [by rewrite Hc|done].
Qed.

(** [setLogo v] leaves [v] in the logo cell, rendering or not. *)
Lemma setLogo_logo v s :
  Inv s -> logo (cells (setLogo v s)) = v.
Proof.
  intros HI. unfold setLogo.
  rewrite set_cell_mounted; [|apply HI..|cells_iff].
  case_decide as Hc; [|done]. by rewrite <- Hc.
Qed.

(** The cells after an event, setter by setter. *)
Lemma cells_dispatch s e : Inv s -> cells (dispatch e s) = cells_after e s.
Proof.
  intros HI. destruct e as [v|v|v|v|v|v|files|id|id|b]; cbn [dispatch cells_after];
    unfold setText, setDotStyle, setCornerDotStyle, setCornerSquareStyle, setFgColor, setBgColor.
  1-6: rewrite set_cell_cells; [done | done | cells_iff].
  - unfold handleLogoUpload. by case_match.
  - unfold reader_onload. case_match; [|done]. unfold setLogo.
    rewrite set_cell_cells; [done | | cells_iff].
    apply Inv_with_readers; [done | apply readers_ok_drop, HI].
  - done.
  - done.
Qed.

(** Completing the read of reader [id] leaves the data URL of its file in
    the logo cell. *)
Lemma reader_onload_logo id f s :
  Inv s -> find_reader id (readers s) = Some f ->
  logo (cells (reader_onload id s)) = Some (read_as_data_url f).
Proof.
  intros HI Hf. unfold reader_onload. rewrite Hf.
  apply setLogo_logo, Inv_with_readers; [done|apply readers_ok_drop, HI].
Qed.

(** C9: picking a file starts a read whose completion is deliverable;
    when it completes, the logo cell holds the file's data URL and the
    [image] of the instance's configuration is that data URL. *)
Theorem upload_sets_logo `{Laws : QRStylingLaws T} s f fs :
  reachable s ->
  let s1 := dispatch (EvLogoFiles (Some (f :: fs))) s in
  let s2 := dispatch (EvReaderLoad (nextReader s)) s1 in
  event_ok s1 (EvReaderLoad (nextReader s)) = true /\
  logo (cells s2) = Some (read_as_data_url f) /\
  opt_image (qr_options (@instance T _ s2)) = Some (read_as_data_url f).
Proof.
  intros Hr s1 s2.
  assert (Hr1 : reachable s1) by (by apply reachable_step).
  assert (Hf : find_reader (nextReader s) (readers s1) = Some f)
    by (apply find_reader_fresh, (inv_readers _ (reachable_Inv _ Hr))).
  assert (Hok : event_ok s1 (EvReaderLoad (nextReader s)) = true)
    by (cbn [event_ok]; rewrite Hf; by apply bool_decide_eq_true).
  assert (Hlogo : logo (cells s2) = Some (read_as_data_url f))
    by (apply reader_onload_logo; [apply reachable_Inv|]; done).
  split_and!; [done|done|].
  pose proof (reachable_Inv _ (reachable_step _ _ Hr1 Hok)) as HI2.
  rewrite (Inv_options s2 HI2). simpl. by rewrite (Inv_logo_image s2 HI2).
Qed.

(** C20: the unchecked casts [e.target.value as DotType] (and the two
    others) are sound: in every state the three style cells hold the
    string form of a variant of the library's [DotType], [CornerDotType]
    and [CornerSquareType]. *)
Theorem style_strings_typed s :
  reachable s ->
  (exists t, dotStyle (cells s) = string_of_dot_type t) /\
  (exists t, cornerDotStyle (cells s) = string_of_corner_dot_type t) /\
  (exists t, cornerSquareStyle (cells s) = string_of_corner_square_type t).
Proof.
  intros Hr. destruct (inv_cells _ (reachable_Inv _ Hr))
    as ([t1 H1] & [t2 H2] & [t3 H3] & _).
  split_and!; eexists; symmetry.
  - by apply dot_type_of_string_inv.
  - by apply corner_dot_type_of_string_inv.
  - by apply corner_square_type_of_string_inv.
Qed.

(** C21: the two colour cells, hence the [dotsOptions.color] and
    [backgroundOptions.color] passed to the library, are always simple
    colours ["#rrggbb"]. *)
Theorem colors_simple s :
  reachable s ->
  is_simple_color (fgColor (cells s)) = true /\ is_simple_color (bgColor (cells s)) = true.
Proof.
  intros Hr. destruct (inv_cells _ (reachable_Inv _ Hr)) as (_ & _ & _ & Hfg & Hbg & _).
  done.
Qed.

(** C16: the logo is the file of the read that completed last, not of the
    file picked last: after picking [f1] and then [f2], if the read of
    [f2] completes first, the stale [f1] ends in the logo cell. *)
Theorem stale_read_wins s f1 f2 :
  reachable s ->
  let n := nextReader s in
  exists s', run_events [EvLogoFiles (Some [f1]); EvLogoFiles (Some [f2]);
                         EvReaderLoad (S n); EvReaderLoad n] s = Some s' /\
             logo (cells s') = Some (read_as_data_url f1).
Proof.
  intros Hr n. pose proof (reachable_Inv _ Hr) as HI.
  destruct (inv_readers _ HI) as [_ Hlt].
  set (s1 := dispatch (EvLogoFiles (Some [f1])) s).
  set (s2 := dispatch (EvLogoFiles (Some [f2])) s1).
  assert (Hlt1 : Forall (fun r => r.1 < S n) (readers s1)).
  { apply Forall_app; split; [|repeat constructor; simpl; lia].
    eapply Forall_impl; [done|]. simpl. lia. }
  assert (Hf2 : find_reader (S n) (readers s2) = Some f2) by (by apply find_reader_fresh).
  assert (Hok2 : event_ok s2 (EvReaderLoad (S n)) = true)
    by (cbn [event_ok]; rewrite Hf2; by apply bool_decide_eq_true).
  set (s3 := dispatch (EvReaderLoad (S n)) s2).
  assert (Hf1 : find_reader n (readers s3) = Some f1).
  { unfold s3, dispatch, reader_onload. rewrite Hf2, setLogo_readers. simpl.
    rewrite find_reader_drop_ne by lia. simpl.
    rewrite find_reader_app. by rewrite find_reader_fresh. }
  assert (Hok3 : event_ok s3 (EvReaderLoad n) = true)
    by (cbn [event_ok]; rewrite Hf1; by apply bool_decide_eq_true).
  assert (Hr3 : reachable s3) by (repeat apply reachable_step; done).
  exists (dispatch (EvReaderLoad n) s3). split.
  - cbn -[dispatch event_ok]. fold s1 s2. rewrite Hok2. fold s3. by rewrite Hok3.
  - by apply reader_onload_logo; [apply reachable_Inv|].
Qed.

(** C17: picking files is asynchronous and has no effect of its own: a
    pick changes no cell, makes no call and causes no render; a pick with
    no file ([files] null or empty) changes nothing at all, in particular
    not the logo. *)
Theorem logo_pick_no_effect s files :
  let s' := dispatch (EvLogoFiles files) s in
  cells s' = cells s /\ calls s' = calls s /\ constructed s' = constructed s /\
  (files ≫= head = None -> s' = s).
Proof.
  simpl. unfold handleLogoUpload. by destruct (files ≫= head).
Qed.

(** C18: once a logo has been loaded it stays: no event clears it (the
    component has no path back to [null]). *)
Theorem logo_never_cleared s e :
  reachable s -> event_ok s e = true -> logo (cells s) <> None ->
  logo (cells (dispatch e s)) <> None.
Proof.
  intros Hr Hok Hl. pose proof (reachable_Inv _ Hr) as HI.
  destruct e as [v|v|v|v|v|v|files|id|id|b]; cbn [dispatch];
    unfold setText, setDotStyle, setCornerDotStyle, setCornerSquareStyle, setFgColor, setBgColor.
  1-6: rewrite set_cell_mounted; [|apply HI..|cells_iff]; by case_decide.
  - unfold handleLogoUpload. by case_match.
  - destruct (find_reader id (readers s)) as [f|] eqn:Hf; [|by unfold reader_onload; rewrite Hf].
    by rewrite (reader_onload_logo id f).
  - done.
  - done.
Qed.

(** C22: React's scheduling of the two effects: the sync effect of line
    56 re-runs after a commit exactly when some cell differs from the
    cells of its last run, and the mount effect of line 49, with its empty
    dependency list, never re-runs after the mount. *)
Theorem effects_rerun_iff c c' :
  effect_should_run (Some (sync_deps c)) (sync_deps c') = bool_decide (c' <> c) /\
  effect_should_run (Some []) [] = false.
Proof.
  split; [|done]. case_bool_decide as Hne; [by apply sync_deps_changed|].
  rewrite Hne. apply effect_should_run_same.
Qed.

(** ** The properties at concrete states *)

Lemma demo_state_reachable : reachable demo_state.
Proof. apply (reachable_step mount); [constructor | reflexivity]. Qed.

Lemma config_reflects_state_witness :
  reachable demo_state /\
  qr_options (@instance QRModel _ demo_state) =
  merge_payload (payload (cells demo_state)) init_options.
Proof.
  pose proof demo_state_reachable as H.
  split; [exact H | exact (config_reflects_state demo_state H)].
Defined.

Lemma applied_config_fields_witness :
  reachable demo_state /\
  opt_data (qr_options (@instance QRModel _ demo_state)) = "https://example.com".
Proof.
  pose proof demo_state_reachable as H.
  split; [exact H|]. exact (proj1 (applied_config_fields demo_state H)).
Defined.

Lemma attached_exactly_once_witness :
  reachable demo_state /\ countb is_append (calls demo_state) = 1 /\
  qr_container (@instance QRModel _ demo_state) = Some preview_div.
Proof.
  pose proof demo_state_reachable as H.
  split; [exact H | exact (attached_exactly_once demo_state H)].
Defined.

Lemma single_field_update_witness :
  reachable demo_state /\ is_setting_event (EvDotStyle "dots") = true /\
  calls (dispatch (EvDotStyle "dots") demo_state) =
  calls demo_state +: CallUpdate (payload_field_set (EvDotStyle "dots") (payload (cells demo_state))).
Proof.
  pose proof demo_state_reachable as H.
  split_and!; [exact H | reflexivity |].
  rewrite (single_field_update demo_state (EvDotStyle "dots") H eq_refl).
  vm_compute. reflexivity.
Defined.

Lemma update_iff_cells_changed_witness :
  let s0 := dispatch (EvLogoFiles (Some [demo_file])) demo_state in
  reachable s0 /\ event_ok s0 (EvReaderLoad 0) = true /\
  calls logo_state = calls s0 +: CallUpdate (payload (cells logo_state)).
Proof.
  cbv zeta.
  assert (Hr : reachable (dispatch (EvLogoFiles (Some [demo_file])) demo_state))
    by (apply reachable_step; [apply demo_state_reachable | reflexivity]).
  split_and!; [exact Hr | reflexivity |].
  pose proof (update_iff_cells_changed _ (EvReaderLoad 0) Hr eq_refl) as H. cbv zeta in H.
  rewrite decide_False in H; [exact H | vm_compute; discriminate].
Defined.

Lemma upload_sets_logo_witness :
  reachable demo_state /\
  logo (cells (dispatch (EvReaderLoad (nextReader demo_state))
                 (dispatch (EvLogoFiles (Some [demo_file])) demo_state))) =
  Some (read_as_data_url demo_file).
Proof.
  pose proof demo_state_reachable as H.
  split; [exact H|]. exact (proj1 (proj2 (upload_sets_logo (T:=QRModel) demo_state demo_file [] H))).
Defined.

Lemma downloads_match_clicks_witness :
  reachable demo_state /\
  exists s', run_events [EvClick DownloadJPG; EvText "x"; EvClick DownloadSVG] demo_state = Some s' /\
  omap download_of (calls s') =
  omap download_of (calls demo_state) ++ [mkDownload "qrcode" ExtJpeg; mkDownload "qrcode" ExtSvg].
Proof.
  pose proof demo_state_reachable as H.
  split; [exact H|]. eexists. split; [reflexivity|].
  exact (downloads_match_clicks demo_state [EvClick DownloadJPG; EvText "x"; EvClick DownloadSVG] _ H eq_refl).
Defined.

Lemma instance_constructed_per_render_witness :
  reachable demo_state /\ event_ok demo_state (EvText "x") = true /\
  constructed (dispatch (EvText "x") demo_state) = S (constructed demo_state).
Proof.
  pose proof demo_state_reachable as H.
  split_and!; [exact H | reflexivity |].
  rewrite (instance_constructed_per_render demo_state (EvText "x") H eq_refl).
  vm_compute. reflexivity.
Defined.

Lemma style_strings_typed_witness :
  reachable demo_state /\ exists t, dotStyle (cells demo_state) = string_of_dot_type t.
Proof.
  pose proof demo_state_reachable as H.
  split; [exact H | exact (proj1 (style_strings_typed demo_state H))].
Defined.

Lemma stale_read_wins_witness :
  reachable demo_state /\
  exists s', run_events [EvLogoFiles (Some [demo_file]); EvLogoFiles (Some [other_file]);
                         EvReaderLoad 1; EvReaderLoad 0] demo_state = Some s' /\
             logo (cells s') = Some (read_as_data_url demo_file).
Proof.
  pose proof demo_state_reachable as H.
  split; [exact H | exact (stale_read_wins demo_state demo_file other_file H)].
Defined.

Lemma logo_pick_no_effect_witness :
  (Some [] ≫= head : option File) = None /\
  dispatch (EvLogoFiles (Some [])) demo_state = demo_state.
Proof.
  split; [reflexivity|].
  exact (proj2 (proj2 (proj2 (logo_pick_no_effect demo_state (Some [])))) eq_refl).
Defined.

Lemma logo_never_cleared_witness :
  reachable logo_state /\ event_ok logo_state (EvText "y") = true /\
  logo (cells logo_state) <> None /\ logo (cells (dispatch (EvText "y") logo_state)) <> None.
Proof.
  assert (H : reachable logo_state).
  { apply reachable_step; [apply reachable_step|]; [| reflexivity | vm_compute; reflexivity].
    exact demo_state_reachable. }
  assert (Hl : logo (cells logo_state) <> None) by (vm_compute; congruence).
  split_and!; [exact H | reflexivity | exact Hl |].
  exact (logo_never_cleared logo_state (EvText "y") H eq_refl Hl).
Defined.

Lemma colors_simple_witness :
  reachable demo_state /\ is_simple_color (fgColor (cells demo_state)) = true.
Proof.
  pose proof demo_state_reachable as H.
  split; [exact H | exact (proj1 (colors_simple demo_state H))].
Defined.

Lemma click_calls_length e : length (click_calls e) <= 1.
Proof. destruct e; simpl; lia. Qed.

(** C19: the component's work per event is bounded: over any sequence of
    deliverable events, each event makes at most one call on the instance
    and at most one render (one more evaluation of the constructor). *)
Theorem work_per_event_bounded s es s' :
  reachable s -> run_events es s = Some s' ->
  length (calls s') <= length (calls s) + length es /\
  constructed s' <= constructed s + length es.
Proof.
  revert s. induction es as [|e es IH]; intros s Hr Hrun; simpl in Hrun.
  - injection Hrun as <-. lia.
  - destruct (event_ok s e) eqn:Hok; [|done].
    destruct (IH _ (reachable_step _ _ Hr Hok) Hrun) as [IH1 IH2].
    pose proof (click_calls_length e).
    destruct (dispatch_shape s e (reachable_Inv _ Hr) Hok)
      as [(_ & Hk & Hc) | (_ & _ & Hk & Hc)]; rewrite Hc, length_app in IH1;
      rewrite Hk in IH2; simpl in *; lia.
Qed.

Lemma work_per_event_bounded_witness :
  reachable demo_state /\
  exists s', run_events [EvText "a"; EvText "a"; EvClick DownloadSVG] demo_state = Some s' /\
  length (calls s') <= length (calls demo_state) + 3 /\ constructed s' <= constructed demo_state + 3.
Proof.
  pose proof demo_state_reachable as H.
  split; [exact H|]. eexists. split; [reflexivity|].
  exact (work_per_event_bounded demo_state [EvText "a"; EvText "a"; EvClick DownloadSVG] _ H eq_refl).
Defined.
