(* ===== verification/Refinement.v ===== *)
(** * An abstract specification of the panel, and the refinement

    What the component promises, stated without React, refs or call
    traces: a panel holds typed settings (a text, a [DotType], a
    [CornerDotType], a [CornerSquareType], two colours, an optional logo),
    the files whose reads are pending, the exports asked for so far, and a
    displayed configuration that is a function of the settings alone
    ([spec_config]); it stays attached to the preview.  [panel_step] says
    what each UI event does to it.  The refinement theorem states that the
    abstraction [abs] of a reachable state of [QRGeneratorPro] commutes
    with every deliverable event: the component implements the panel,
    for any implementation of the library's contract. *)

From stdpp Require Import base list strings.
From S2P Require Import Prelude JsValues ReactHooks StyleTypes QRStyling DataUrl QRGeneratorPro.

(** ** The specification *)

Record Settings := mkSettings {
  set_text : string;
  set_dot : DotType;
  set_corner_dot : CornerDotType;
  set_corner_square : CornerSquareType;
  set_fg : string;
  set_bg : string;
  set_logo : option string
}.

Record Panel := mkPanel {
  p_settings : Settings;
  p_pending : list (nat * File);
  p_next : nat;
  p_exports : list DownloadOptions;
  p_config : Options;
  p_attached : option Element
}.

(** The configuration the panel displays for its settings. *)
Definition spec_config (st : Settings) : Options :=
  mkOptions 300 300 DrawSvg (set_text st) (set_logo st) (set_fg st)
    (string_of_dot_type (set_dot st)) (string_of_corner_dot_type (set_corner_dot st))
    (string_of_corner_square_type (set_corner_square st)) (set_bg st).

Definition init_settings : Settings :=
  mkSettings "" DotSquare CornerDotSquare CornerSquareSquare "#000000" "#ffffff" None.

Definition panel_init : Panel :=
  mkPanel init_settings [] 0 [] (spec_config init_settings) (Some preview_div).

(** The settings after a settings event or a completed read; a style
    event names its variant by its string form. *)
Definition settings_update (e : Event) (st : Settings) : Settings :=
  let '(mkSettings t d cd cs fg bg l) := st in
  match e with
  | EvText v => mkSettings v d cd cs fg bg l
  | EvDotStyle v => mkSettings t (default DotSquare (dot_type_of_string v)) cd cs fg bg l
  | EvCornerDotStyle v =>
      mkSettings t d (default CornerDotSquare (corner_dot_type_of_string v)) cs fg bg l
  | EvCornerSquareStyle v =>
      mkSettings t d cd (default CornerSquareSquare (corner_square_type_of_string v)) fg bg l
  | EvFgColor v => mkSettings t d cd cs v bg l
  | EvBgColor v => mkSettings t d cd cs fg v l
  | _ => st
  end.

Definition with_settings (st : Settings) (p : Panel) : Panel :=
  mkPanel st (p_pending p) (p_next p) (p_exports p) (spec_config st) (p_attached p).

Definition with_logo (u : string) (st : Settings) : Settings :=
  let '(mkSettings t d cd cs fg bg _) := st in mkSettings t d cd cs fg bg (Some u).

Definition with_pending (rs : list (nat * File)) (next : nat) (p : Panel) : Panel :=
  mkPanel (p_settings p) rs next (p_exports p) (p_config p) (p_attached p).

(** What each event does to the panel. *)
Definition panel_step (e : Event) (p : Panel) : Panel :=
  match e with
  | EvText _ | EvDotStyle _ | EvCornerDotStyle _ | EvCornerSquareStyle _
  | EvFgColor _ | EvBgColor _ => with_settings (settings_update e (p_settings p)) p
  | EvLogoFiles files =>
      match files ≫= head with
      | None => p
      | Some f => with_pending (p_pending p +: (p_next p, f)) (S (p_next p)) p
      end
  | EvReaderLoad id =>
      match find_reader id (p_pending p) with
      | Some f =>
          with_settings (with_logo (read_as_data_url f) (p_settings p))
            (with_pending (drop_reader id (p_pending p)) (p_next p) p)
      | None => p
      end
  | EvReaderError id => with_pending (drop_reader id (p_pending p)) (p_next p) p
  | EvClick b =>
      mkPanel (p_settings p) (p_pending p) (p_next p) (p_exports p +: button_download b)
              (p_config p) (p_attached p)
  end.

(** ** The abstraction *)

Definition settings_of (c : Cells) : Settings :=
  mkSettings (text c) (default DotSquare (dot_type_of_string (dotStyle c)))
    (default CornerDotSquare (corner_dot_type_of_string (cornerDotStyle c)))
    (default CornerSquareSquare (corner_square_type_of_string (cornerSquareStyle c)))
    (fgColor c) (bgColor c) (logo c).

Definition abs `{QRStylingApi T} (s : St) : Panel :=
  mkPanel (settings_of (cells s)) (readers s) (nextReader s) (omap download_of (calls s))
          (qr_options (@instance T _ s)) (qr_container (@instance T _ s)).

(** ** The panel's own laws *)

Lemma panel_eta p :
  p = mkPanel (p_settings p) (p_pending p) (p_next p) (p_exports p) (p_config p) (p_attached p).
Proof. by destruct p. Qed.

Lemma panel_step_exports e p :
  p_exports (panel_step e p) = p_exports p ++ omap download_of (click_calls e).
Proof.
  destruct e; simpl; try case_match; simpl; rewrite ?app_nil_r; done.
Qed.

Lemma panel_step_attached e p : p_attached (panel_step e p) = p_attached p.
Proof. destruct e; simpl; try case_match; done. Qed.

(** The displayed configuration stays a function of the settings. *)
Lemma panel_step_config e p :
  p_config p = spec_config (p_settings p) ->
  p_config (panel_step e p) = spec_config (p_settings (panel_step e p)).
Proof. intros Hc. destruct e; simpl; try case_match; done. Qed.

(** ** The abstraction of the component's steps *)

Lemma default_dot_type s :
  is_Some (dot_type_of_string s) -> string_of_dot_type (default DotSquare (dot_type_of_string s)) = s.
Proof. intros [t Ht]. rewrite Ht. by apply dot_type_of_string_inv. Qed.

Lemma default_corner_dot_type s :
  is_Some (corner_dot_type_of_string s) ->
  string_of_corner_dot_type (default CornerDotSquare (corner_dot_type_of_string s)) = s.
Proof. intros [t Ht]. rewrite Ht. by apply corner_dot_type_of_string_inv. Qed.

Lemma default_corner_square_type s :
  is_Some (corner_square_type_of_string s) ->
  string_of_corner_square_type (default CornerSquareSquare (corner_square_type_of_string s)) = s.
Proof. intros [t Ht]. rewrite Ht. by apply corner_square_type_of_string_inv. Qed.

(** The instance displays [spec_config] of the abstract settings. *)
Lemma Inv_spec_config `{Laws : QRStylingLaws T} s :
  Inv s -> qr_options (@instance T _ s) = spec_config (settings_of (cells s)).
Proof.
  intros HI. rewrite (Inv_options s HI).
  pose proof (Inv_logo_image s HI) as Hl.
  destruct (inv_cells _ HI) as (Hd & Hcd & Hcs & _).
  unfold spec_config, settings_of, merge_payload, payload; simpl.
  by rewrite Hl, default_dot_type, default_corner_dot_type, default_corner_square_type.
Qed.

Lemma settings_dispatch `{QRStylingApi T} s e :
  Inv s -> event_ok s e = true ->
  settings_of (cells (dispatch e s)) = p_settings (panel_step e (abs (T:=T) s)).
Proof.
  intros HI Hok. unfold abs.
  destruct e as [v|v|v|v|v|v|files|id|id|b]; cbn [dispatch panel_step].
  1-6: unfold setText, setDotStyle, setCornerDotStyle, setCornerSquareStyle, setFgColor, setBgColor;
       rewrite set_cell_cells; [by destruct (cells s) | done | cells_iff].
  - unfold handleLogoUpload. by case_match.
  - unfold reader_onload. simpl. destruct (find_reader id (readers s)) as [f|]; [|done].
    unfold setLogo. rewrite set_cell_cells; [simpl; by destruct (cells s) | | cells_iff].
    apply Inv_with_readers; [done|apply readers_ok_drop, HI].
  - done.
  - done.
Qed.

Lemma pending_dispatch `{QRStylingApi T} s e :
  readers (dispatch e s) = p_pending (panel_step e (abs (T:=T) s)) /\
  nextReader (dispatch e s) = p_next (panel_step e (abs (T:=T) s)).
Proof.
  destruct e as [v|v|v|v|v|v|files|id|id|b]; cbn [dispatch panel_step];
    try apply set_cell_readers.
  - unfold handleLogoUpload. by case_match.
  - unfold reader_onload. simpl. destruct (find_reader id (readers s)); [|done].
    apply set_cell_readers.
  - done.
  - done.
Qed.

Lemma exports_dispatch `{QRStylingApi T} s e :
  Inv s -> event_ok s e = true ->
  omap download_of (calls (dispatch e s)) = p_exports (panel_step e (abs (T:=T) s)).
Proof.
  intros HI Hok. rewrite panel_step_exports.
  destruct (dispatch_shape s e HI Hok) as [(_ & _ & ->) | (_ & He & _ & ->)];
    rewrite omap_app; [done|]. by rewrite He.
Qed.

(** One step of the component is one step of the panel. *)
Lemma abs_dispatch `{Laws : QRStylingLaws T} s e :
  Inv s -> event_ok s e = true -> abs (T:=T) (dispatch e s) = panel_step e (abs s).
Proof.
  intros HI Hok. pose proof (Inv_dispatch s e HI Hok) as HI'.
  rewrite (panel_eta (panel_step e (abs s))).
  destruct (pending_dispatch (T:=T) s e) as [Hp Hn].
  unfold abs at 1. f_equal.
  - by apply settings_dispatch.
  - done.
  - done.
  - by apply exports_dispatch.
  - rewrite (Inv_spec_config _ HI'), panel_step_config.
    + f_equal. by apply settings_dispatch.
    + apply Inv_spec_config, HI.
  - rewrite panel_step_attached. simpl. by rewrite !Inv_container.
Qed.

Lemma abs_mount `{Laws : QRStylingLaws T} : abs (T:=T) mount = panel_init.
Proof.
  unfold abs. rewrite (Inv_spec_config _ Inv_mount), (Inv_container _ Inv_mount).
  reflexivity.
Qed.

(** C4: the component implements the panel: from the mount, after any
    sequence of deliverable events, the abstraction of the component's
    state (typed settings, pending reads, exports, displayed configuration
    and attachment) is the state the panel specification reaches by the
    same events from its initial state. *)
Theorem implements_panel `{Laws : QRStylingLaws T} es s' :
  run_events es mount = Some s' ->
  abs (T:=T) s' = fold_left (fun p e => panel_step e p) es panel_init.
Proof.
  rewrite <- abs_mount. generalize mount, (Inv_mount). intros s HI.
  revert s HI. induction es as [|e es IH]; intros s HI Hrun; simpl in Hrun.
  - by injection Hrun as <-.
  - destruct (event_ok s e) eqn:Hok; [|done]. simpl.
    rewrite <- abs_dispatch by done. apply IH; [by apply Inv_dispatch | done].
Qed.

(** ** The refinement at a concrete sequence of events *)

Lemma implements_panel_witness :
  exists s', run_events [EvText "hello"; EvDotStyle "dots"; EvLogoFiles (Some [demo_file]);
                         EvReaderLoad 0; EvClick DownloadPNG] mount = Some s' /\
  abs (T:=QRModel) s' =
  fold_left (fun p e => panel_step e p)
    [EvText "hello"; EvDotStyle "dots"; EvLogoFiles (Some [demo_file]);
     EvReaderLoad 0; EvClick DownloadPNG] panel_init.
Proof.
  eexists. split; [reflexivity|]. apply implements_panel. reflexivity.
Defined.
