(* ===== verification/Preview.v ===== *)
(** * The component over the library model: the preview and the exports

    [QRGeneratorPro]'s theorems hold for any object that meets
    [QRStylingLaws]; here the object is the model [QRLib] of
    qr-code-styling, which also says what the object draws into the
    preview [div] and what its [download] saves.  [lib_replay] runs the
    component's trace of calls on a plain [QRLib]; the kept instance of a
    state is the replay of its calls on the constructed object.  The
    theorems: what the preview shows in every reachable state, what a
    click on a download button saves or rejects, and a run of the
    component where the two disagree. *)

From stdpp Require Import base list strings option.
From S2P Require Import Prelude QRStyling JsObject QRLib QRGeneratorPro.

(** The library object after a trace of calls, oldest first. *)
Definition lib_replay (cs : list QRCall) (q : QRLib) : QRLib :=
  fold_left (fun q c => lib_call c q) cs q.

(** The kept instance of a state, as a library object. *)
Definition kept (s : St) : QRLib := proj1_sig (@instance LibT _ s).

(** The file a download button saves: ["qrcode."] and its extension. *)
Definition button_file (b : Button) : string :=
  file_name (button_download b).

(** ** The exports as an abstract machine

    What the three buttons do, over a whole run, stated without React,
    calls or the library object: the machine remembers the last
    non-empty text typed, the files saved and the rejections.  A click
    saves ["qrcode." ++ extension] with the remembered text, or is
    rejected when no text was ever typed. *)
Record Exports := mkExports {
  ex_last : option string;
  ex_saved : list (string * string);
  ex_rejected : list string
}.

Definition exports_init : Exports := mkExports None [] [].

Definition ex_set_last (d : string) (x : Exports) : Exports :=
  mkExports (Some d) (ex_saved x) (ex_rejected x).

Definition exports_step (e : Event) (x : Exports) : Exports :=
  match e with
  | EvText v => if String.eqb v "" then x else ex_set_last v x
  | EvClick b =>
      match ex_last x with
      | Some d => mkExports (Some d) (ex_saved x +: (button_file b, d)) (ex_rejected x)
      | None => mkExports None (ex_saved x) (ex_rejected x +: "QR code is empty")
      end
  | _ => x
  end.

(** The simulation relation: the kept instance holds the remembered text
    as its QR code, has saved and rejected what the machine has, and a
    non-empty current text is the remembered one. *)
Definition exports_rel (s : St) (x : Exports) : Prop :=
  lib_qr (kept s) = ex_last x /\ lib_saved (kept s) = ex_saved x /\
  lib_rejected (kept s) = ex_rejected x /\
  (text (cells s) <> "" -> ex_last x = Some (text (cells s))).

(** ** Replaying calls on the library *)

Lemma replay_lib (cs : list QRCall) (q : LibT) :
  proj1_sig (replay cs q) = lib_replay cs (proj1_sig q).
Proof. revert q. induction cs as [|c cs IH]; intros q; [done|]. apply IH. Qed.

Lemma lib_replay_snoc cs c q : lib_replay (cs +: c) q = lib_call c (lib_replay cs q).
Proof. unfold lib_replay. by rewrite fold_left_app. Qed.

Lemma lib_replay_ok cs q : lib_ok q -> lib_ok (lib_replay cs q).
Proof.
  revert q. induction cs as [|c cs IH]; intros q Hq; [done|]. apply IH. by apply lib_call_ok.
Qed.

(** The QR code the object holds is the data of the last [update] with
    non-empty data. *)
Lemma lib_replay_qr cs q :
  lib_ok q ->
  lib_qr (lib_replay cs q) = match last_match drawn_data cs with Some d => Some d | None => lib_qr q end.
Proof.
  intros Hq. induction cs as [|c cs IH] using rev_ind; [done|].
  rewrite lib_replay_snoc, last_match_app. destruct (lib_replay_ok cs q Hq) as [o Ho].
  destruct c as [el|p|d]; cbn [last_match].
  - simpl. by rewrite IH.
  - rewrite (lib_update_qr _ o p Ho), IH. simpl. by destruct (String.eqb (up_data p) "").
  - simpl. by rewrite lib_download_qr, IH.
Qed.

(** Without [append], the container keeps its element, and what it
    shows is decided by the last [update]. *)
Lemma lib_replay_shown el cs q :
  lib_ok q -> lib_container q = Some el -> countb is_append cs = 0 ->
  lib_container (lib_replay cs q) = Some el /\
  shown (lib_replay cs q) el =
  match last_match update_of cs with
  | Some p => if String.eqb (up_data p) "" then [] else [up_data p]
  | None => shown q el
  end.
Proof.
  intros Hq Hc. induction cs as [|c cs IH] using rev_ind; intros Hn; [done|].
  rewrite countb_app in Hn. rewrite lib_replay_snoc, last_match_app.
  destruct IH as [IHc IHs]; [lia|]. destruct (lib_replay_ok cs q Hq) as [o Ho].
  destruct c as [el'|p|d]; cbn [countb is_append last_match update_of] in Hn |- *; [lia| |].
  - split; [simpl; by rewrite lib_update_container|]. by apply (lib_update_shown _ o).
  - simpl. split; [by rewrite lib_download_container|].
    unfold shown in *. by rewrite lib_download_dom.
Qed.

(** ** The calls of a mounted component *)

(** The first call is the mount's [append] of the preview, and no other
    call is an [append]. *)
Lemma reachable_calls s :
  reachable s -> exists rest, calls s = CallAppend preview_div :: rest /\ countb is_append rest = 0.
Proof.
  induction 1 as [|s e Hr IH Hok].
  - eexists. split; reflexivity.
  - destruct IH as (rest & Hc & Hn).
    destruct (dispatch_shape s e (reachable_Inv _ Hr) Hok) as [(_ & _ & ->) | (_ & _ & _ & ->)];
      rewrite Hc.
    + exists (rest ++ click_calls e). split; [done|]. rewrite countb_app, Hn. by destruct e.
    + exists (rest +: CallUpdate (payload (cells (dispatch e s)))). split; [done|].
      by rewrite countb_snoc, Hn.
Qed.

Lemma kept_replay s :
  kept s = lib_replay (calls s) (lib_new (ctor_object init_options)).
Proof. unfold kept, instance. by rewrite replay_lib. Qed.

Lemma lib_replay_app cs1 cs2 q : lib_replay (cs1 ++ cs2) q = lib_replay cs2 (lib_replay cs1 q).
Proof. unfold lib_replay. apply fold_left_app. Qed.

Lemma init_ok : lib_ok (lib_new (ctor_object init_options)).
Proof. apply lib_new_ok. Qed.

(** The kept instance after a state's calls grow by one call. *)
Lemma kept_snoc s s' c : calls s' = calls s +: c -> kept s' = lib_call c (kept s).
Proof. intros Hc. by rewrite !kept_replay, Hc, lib_replay_snoc. Qed.

(** The QR code the kept instance holds is the last non-empty text it
    was given. *)
Lemma kept_qr s : lib_qr (kept s) = last_match drawn_data (calls s).
Proof.
  rewrite kept_replay, (lib_replay_qr _ _ init_ok), lib_new_qr. simpl.
  by destruct (last_match drawn_data (calls s)).
Qed.

Lemma kept_ok s : lib_ok (kept s).
Proof. rewrite kept_replay. apply lib_replay_ok, init_ok. Qed.

Lemma kept_click s b : kept (dispatch (EvClick b) s) = lib_download (button_download b) (kept s).
Proof. apply (kept_snoc s _ (CallDownload (button_download b))). by destruct b. Qed.

(** With a non-empty text, the kept instance holds its QR code: the
    last [update] carries the current cells. *)
Lemma kept_qr_text s : Inv s -> text (cells s) <> "" -> lib_qr (kept s) = Some (text (cells s)).
Proof.
  intros HI Ht. rewrite kept_qr.
  apply (last_match_through update_of drawn_data (fun p => drawn_data (CallUpdate p)) _ (payload (cells s)));
    [by intros [] | by intros [] ? [= ->] | apply (inv_last_update _ HI) |].
  cbn [drawn_data]. unfold payload. cbn [up_data].
  by destruct (String.eqb_spec (text (cells s)) "").
Qed.

(** ** The preview *)

(** What the preview shows after the calls of a mounted component,
    whatever object they are replayed on: the mount's [append] attaches
    it to the preview, and the last [update] decides the drawing. *)
Lemma replay_shows_text s q :
  reachable s -> lib_ok q ->
  shown (lib_replay (calls s) q) preview_div =
  if String.eqb (text (cells s)) "" then [] else [text (cells s)].
Proof.
  intros Hr Hq. destruct (reachable_calls s Hr) as (rest & Hc & Hn).
  pose proof (inv_last_update _ (reachable_Inv _ Hr)) as Hu. rewrite Hc in Hu.
  cbn [last_match update_of] in Hu.
  destruct (last_match update_of rest) as [p|] eqn:E; [injection Hu as ->|done].
  pose proof (lib_replay_shown preview_div rest _ (lib_call_ok (CallAppend preview_div) _ Hq)
                eq_refl Hn) as [_ Hs].
  rewrite Hc. cbn [lib_replay fold_left]. unfold lib_replay in Hs. by rewrite Hs, E.
Qed.

(** C5: in every state of the mounted component, the preview [div]
    shows exactly one drawing, of the current text, when the text is not
    empty, and nothing when it is: the full re-application of the options
    on every change never piles up drawings, and clearing the text clears
    the preview. *)
Theorem preview_shows_text s :
  reachable s ->
  shown (kept s) preview_div = if String.eqb (text (cells s)) "" then [] else [text (cells s)].
Proof. intros Hr. rewrite kept_replay. apply replay_shows_text; [done | apply init_ok]. Qed.

(** ** The exports *)

(** C6: a click on a download button makes the kept instance save the
    file ["qrcode." ++ extension] with the QR code of the last non-empty
    text the component applied, which is no longer the current text once
    the text has been cleared; before any text was applied it rejects
    with ["QR code is empty"] and saves nothing. *)
Theorem click_saves_last_drawn s b :
  match last_match drawn_data (calls s) with
  | Some d =>
      lib_saved (kept (dispatch (EvClick b) s)) = lib_saved (kept s) +: (button_file b, d) /\
      lib_rejected (kept (dispatch (EvClick b) s)) = lib_rejected (kept s)
  | None =>
      lib_saved (kept (dispatch (EvClick b) s)) = lib_saved (kept s) /\
      lib_rejected (kept (dispatch (EvClick b) s)) = lib_rejected (kept s) +: "QR code is empty"
  end.
Proof.
  rewrite kept_click. unfold lib_download. rewrite kept_qr.
  by destruct (last_match drawn_data (calls s)).
Qed.

(** C14: the preview and the exports disagree after the text is
    cleared: from any state of the mounted component with a non-empty
    text, clearing the text and then clicking any download button leaves
    the preview empty, yet the click saves the QR code of the text just
    cleared, under the button's file name, and raises no rejection. *)
Theorem stale_export_after_clear s b :
  reachable s -> text (cells s) <> "" ->
  let s' := dispatch (EvClick b) (dispatch (EvText "") s) in
  text (cells s') = "" /\ shown (kept s') preview_div = [] /\
  lib_saved (kept s') = lib_saved (kept s) +: (button_file b, text (cells s)) /\
  lib_rejected (kept s') = lib_rejected (kept s).
Proof.
  intros Hr Ht. cbv zeta. pose proof (reachable_Inv _ Hr) as HI.
  assert (Hr1 : reachable (dispatch (EvText "") s)) by (by apply reachable_step).
  assert (Hr2 : reachable (dispatch (EvClick b) (dispatch (EvText "") s))) by (by apply reachable_step).
  assert (Htx : text (cells (dispatch (EvClick b) (dispatch (EvText "") s))) = "").
  { rewrite (cells_dispatch _ (EvClick b)), (cells_dispatch _ (EvText "")) by (by apply reachable_Inv). done. }
  split_and!; [done | by rewrite kept_replay, (replay_shows_text _ _ Hr2 init_ok), Htx |..];
    rewrite kept_click; unfold lib_download.
  all: destruct (dispatch_shape s (EvText "") HI eq_refl) as [(Hc & _) | (_ & _ & _ & Hc)];
    [exfalso; apply Ht; rewrite <- Hc, (cells_dispatch _ (EvText "")) by done; done|].
  all: destruct (kept_ok s) as [o Ho]; pose proof (kept_snoc _ _ _ Hc) as Hk.
  all: pose proof (lib_update_qr _ o (payload (cells (dispatch (EvText "") s))) Ho) as Hq;
    destruct (lib_update_saved _ o (payload (cells (dispatch (EvText "") s))) Ho) as [Hs Hj];
    rewrite <- Hk in Hq, Hs, Hj.
  all: rewrite (cells_dispatch _ (EvText "")) in Hq by done; cbn [drawn_data] in Hq; unfold payload in Hq;
    cbn [up_data cells_after text] in Hq; rewrite (kept_qr_text s HI Ht) in Hq; rewrite Hq.
  - by rewrite Hs.
  - done.
Qed.

(** ** The exports refine the abstract machine *)

(** The kept instance depends on the calls only. *)
Lemma kept_same s s' : calls s' = calls s -> kept s' = kept s.
Proof. intros Hc. by rewrite !kept_replay, Hc. Qed.

(** The relation reads the machine only through its fields. *)
Lemma exports_rel_fields s x y :
  ex_last x = ex_last y -> ex_saved x = ex_saved y -> ex_rejected x = ex_rejected y ->
  exports_rel s x -> exports_rel s y.
Proof.
  intros Hl Hs Hr (H1 & H2 & H3 & H4). unfold exports_rel.
  rewrite <- Hl, <- Hs, <- Hr. by split_and!.
Qed.

(** A step that makes no call and keeps the text keeps the relation. *)
Lemma exports_rel_same s s' x :
  calls s' = calls s -> text (cells s') = text (cells s) -> exports_rel s x -> exports_rel s' x.
Proof.
  intros Hc Ht (H1 & H2 & H3 & H4). unfold exports_rel.
  rewrite (kept_same s s' Hc), Ht. by split_and!.
Qed.

(** A step that issues an [update] with the new cells: the machine
    remembers the new text when it is not empty. *)
Lemma exports_rel_update s s' x :
  calls s' = calls s +: CallUpdate (payload (cells s')) -> exports_rel s x ->
  exports_rel s' (if String.eqb (text (cells s')) "" then x else ex_set_last (text (cells s')) x).
Proof.
  intros Hc (H1 & H2 & H3 & H4). destruct (kept_ok s) as [o Ho].
  pose proof (kept_snoc s s' _ Hc) as Hk.
  destruct (lib_update_saved _ o (payload (cells s')) Ho) as [Hs Hr].
  pose proof (lib_update_qr _ o (payload (cells s')) Ho) as Hq. rewrite <- Hk in Hs, Hr, Hq.
  cbn [drawn_data payload up_data] in Hq. unfold exports_rel. rewrite Hs, Hr, Hq.
  by destruct (String.eqb_spec (text (cells s')) "") as [E|E]; simpl; split_and!.
Qed.

(** When the text is kept, remembering it again changes nothing. *)
Lemma exports_rel_keep s s' x :
  exports_rel s x -> text (cells s') = text (cells s) ->
  exports_rel s' (if String.eqb (text (cells s)) "" then x else ex_set_last (text (cells s)) x) ->
  exports_rel s' x.
Proof.
  intros (_ & _ & _ & H4) Ht Hu. destruct (String.eqb_spec (text (cells s)) "") as [E|E]; [done|].
  apply (exports_rel_fields _ (ex_set_last (text (cells s)) x)); [|done..].
  simpl. symmetry. by apply H4.
Qed.

Lemma exports_rel_click s x b :
  exports_rel s x -> exports_rel (dispatch (EvClick b) s) (exports_step (EvClick b) x).
Proof.
  intros (H1 & H2 & H3 & H4). unfold exports_rel. rewrite kept_click. unfold lib_download.
  rewrite H1. cbn [exports_step dispatch download with_cells cells add_call].
  destruct (ex_last x) as [d|] eqn:E; simpl; split_and!; try done.
  - by rewrite H2.
  - by rewrite H3.
Qed.

Lemma exports_rel_step s e x :
  reachable s -> event_ok s e = true -> exports_rel s x ->
  exports_rel (dispatch e s) (exports_step e x).
Proof.
  intros Hr Hok Hx. pose proof (reachable_Inv _ Hr) as HI.
  pose proof (cells_dispatch s e HI) as Hc.
  destruct e as [v|v|v|v|v|v|files|id|id|b]; [| | | | | | | | | by apply exports_rel_click].
  all: destruct (dispatch_shape s _ HI Hok) as [(Hc' & _ & Hcalls) | (_ & _ & _ & Hcalls)];
    cbn [click_calls] in Hcalls; rewrite ?app_nil_r in Hcalls.
  all: try (match goal with |- exports_rel (dispatch ?e ?s0) _ =>
              assert (Ht : text (cells (dispatch e s0)) = text (cells s0))
                by (rewrite Hc; unfold cells_after; by try case_match) end;
            cbn [exports_step];
            first [ by apply (exports_rel_same s)
                  | apply (exports_rel_keep s _ x Hx Ht); rewrite <- Ht;
                    by apply (exports_rel_update s) ]).
  - (* a text that is already the current one *)
    assert (Hv : text (cells s) = v) by (by rewrite <- Hc', Hc).
    cbn [exports_step]. destruct (String.eqb_spec v "") as [->|Hne].
    + apply (exports_rel_same s); [done | by rewrite Hc' | done].
    + apply (exports_rel_fields _ x); [| done | done | apply (exports_rel_same s); [done | by rewrite Hc' | done]].
      destruct Hx as (_ & _ & _ & H4). simpl. rewrite <- Hv. apply H4. by rewrite Hv.
  - (* a new text *)
    cbn [exports_step]. pose proof (exports_rel_update s _ x Hcalls Hx) as Hu.
    by rewrite Hc in Hu.
Qed.

Lemma exports_rel_mount : exports_rel mount exports_init.
Proof. unfold exports_rel. split_and!; [reflexivity.. | by intros []]. Qed.

(** The relation holds along any sequence of deliverable events. *)
Lemma exports_rel_run es s0 s x :
  reachable s0 -> exports_rel s0 x -> run_events es s0 = Some s ->
  exports_rel s (fold_left (fun x e => exports_step e x) es x).
Proof.
  revert s0 x. induction es as [|e es IH]; intros s0 x Hr Hx Hrun; simpl in Hrun.
  - by injection Hrun as <-.
  - destruct (event_ok s0 e) eqn:Hok; [|done].
    apply (IH (dispatch e s0)); [by apply reachable_step | by apply exports_rel_step | done].
Qed.

(** C24: the exports refine the abstract machine [exports_step]: after
    any sequence of deliverable events from the mount, the files the kept
    instance has saved and the downloads it has rejected are exactly
    those of the machine run on the same events: every click saves
    ["qrcode." ++ extension] with the last non-empty text typed, or is
    rejected with ["QR code is empty"] when none was typed. *)
Theorem exports_refine es s :
  run_events es mount = Some s ->
  lib_saved (kept s) = ex_saved (fold_left (fun x e => exports_step e x) es exports_init) /\
  lib_rejected (kept s) = ex_rejected (fold_left (fun x e => exports_step e x) es exports_init).
Proof.
  intros Hrun.
  destruct (exports_rel_run es mount s exports_init reachable_mount exports_rel_mount Hrun)
    as (_ & Hs & Hr & _).
  done.
Qed.

(** ** The theorems on concrete states *)

Lemma preview_shows_text_witness :
  reachable demo_state /\ shown (kept demo_state) preview_div = ["https://example.com"].
Proof.
  pose proof demo_state_reachable as Hr.
  split; [exact Hr|]. rewrite (preview_shows_text demo_state Hr). reflexivity.
Defined.

Lemma exports_refine_witness :
  exists s, run_events [EvClick DownloadSVG; EvText "https://example.com"; EvClick DownloadJPG;
                        EvText ""; EvClick DownloadPNG] mount = Some s /\
    lib_saved (kept s) = [("qrcode.jpeg", "https://example.com"); ("qrcode.png", "https://example.com")].
Proof.
  eexists. split; [reflexivity|].
  match goal with |- lib_saved (kept ?s) = _ =>
    rewrite (proj1 (exports_refine [EvClick DownloadSVG; EvText "https://example.com";
                                    EvClick DownloadJPG; EvText ""; EvClick DownloadPNG] s eq_refl))
  end.
  vm_compute. reflexivity.
Defined.

Lemma stale_export_after_clear_witness :
  reachable demo_state /\ text (cells demo_state) <> "" /\
  shown (kept (dispatch (EvClick DownloadPNG) (dispatch (EvText "") demo_state))) preview_div = [] /\
  lib_saved (kept (dispatch (EvClick DownloadPNG) (dispatch (EvText "") demo_state))) =
    [("qrcode.png", "https://example.com")].
Proof.
  pose proof demo_state_reachable as Hr.
  assert (Ht : text (cells demo_state) <> "") by (vm_compute; discriminate).
  destruct (stale_export_after_clear demo_state DownloadPNG Hr Ht) as (_ & Hs & Hv & _).
  split_and!; [exact Hr | exact Ht | exact Hs |]. rewrite Hv. vm_compute. reflexivity.
Defined.
