(* ===== verification/StrictMode.v ===== *)
(** * React StrictMode: the effects mounted twice

    In development, React's [<StrictMode>] evaluates the body of a
    component twice per render, and after the first commit it unmounts
    and re-mounts the component's effects: it runs their cleanups (the
    two effects of [QRGeneratorPro] return none) and runs every effect
    again, in declaration order and whatever its dependencies.  So the
    mount calls [qr.append(qrRef.current)] and [qr.update({...})] twice;
    later commits are the ordinary ones, each render again evaluating
    the body, hence [new QRCodeStyling({...})], twice.  [mount_strict]
    is that mount, [dispatch_strict] an event under StrictMode (the
    handler, with the second evaluation of the body when it rendered),
    and [reachable_strict] the states reached from the mount.
    [reprefix] relates them to the states of [QRGeneratorPro]: the same
    cells, ref, dependency lists and readers, twice the evaluations of
    the constructor, and the trace of calls with the mount's two calls in
    front ([dispatch_reprefix]: the handlers never read the trace or the
    count). *)

From stdpp Require Import base list strings option.
From S2P Require Import Prelude JsValues ReactHooks QRStyling JsObject QRLib QRGeneratorPro Preview.

(** A render under StrictMode evaluates the body twice. *)
Definition render_strict (s : St) : St := render (render s).

(** The re-mount of the effects: [qr.append(qrRef.current)], then
    [qr.update({...})], their dependency lists recorded again. *)
Definition remount_effects (s : St) : St :=
  set_sync_deps (sync_deps (cells s)) (sync_effect (set_append_deps [] (append_effect s))).

(** The first render and commit under StrictMode. *)
Definition mount_strict : St := remount_effects (commit (render_strict unmounted)).

(** The calls of the first commit, which the re-mount repeats. *)
Definition strict_prefix : list QRCall := [CallAppend preview_div; CallUpdate (payload init_cells)].

(** A state of the plain component seen under StrictMode, with [k]
    evaluations of the constructor. *)
Definition reprefix (pre : list QRCall) (k : nat) (s : St) : St :=
  mkSt (cells s) (qrRef s) (appendDeps s) (syncDeps s) k (pre ++ calls s) (readers s) (nextReader s).

(** An event under StrictMode: the handler, and when it rendered, the
    second evaluation of the body. *)
Definition dispatch_strict (e : Event) (s : St) : St :=
  let s' := dispatch e s in
  if Nat.eqb (constructed s') (constructed s) then s' else render s'.

(** The count grows by what the plain handler renders. *)
Definition count_after (k : nat) (s s' : St) : nat := k + (constructed s' - constructed s).

(** The states of a component mounted under StrictMode. *)
Inductive reachable_strict : St -> Prop :=
| reachable_strict_mount : reachable_strict mount_strict
| reachable_strict_step t e :
    reachable_strict t -> event_ok t e = true -> reachable_strict (dispatch_strict e t).

(** ** The handlers do not read the trace of calls or the count *)

Lemma mount_strict_reprefix : mount_strict = reprefix strict_prefix 2 mount.
Proof. reflexivity. Qed.

Lemma add_call_reprefix pre k c s : add_call c (reprefix pre k s) = reprefix pre k (add_call c s).
Proof. unfold add_call, reprefix. simpl. by rewrite app_assoc. Qed.

Lemma append_effect_reprefix pre k s :
  append_effect (reprefix pre k s) = reprefix pre k (append_effect s).
Proof. unfold append_effect. simpl. case_match; [apply add_call_reprefix|done]. Qed.

Lemma run_append_effect_reprefix pre k s :
  run_append_effect (reprefix pre k s) = reprefix pre k (run_append_effect s).
Proof.
  unfold run_append_effect. cbn [appendDeps reprefix]. case_match; [|done].
  by rewrite append_effect_reprefix.
Qed.

Lemma run_sync_effect_reprefix pre k s :
  run_sync_effect (reprefix pre k s) = reprefix pre k (run_sync_effect s).
Proof.
  unfold run_sync_effect, sync_effect. cbn [syncDeps cells reprefix]. case_match; [|done].
  by rewrite add_call_reprefix.
Qed.

Lemma commit_reprefix pre k s : commit (reprefix pre k s) = reprefix pre k (commit s).
Proof.
  unfold commit. change (attach_ref (reprefix pre k s)) with (reprefix pre k (attach_ref s)).
  by rewrite run_append_effect_reprefix, run_sync_effect_reprefix.
Qed.

Lemma constructed_commit s : constructed (commit s) = constructed s.
Proof.
  unfold commit, run_sync_effect, run_append_effect, sync_effect, append_effect.
  by repeat case_match.
Qed.

Lemma set_cell_reprefix pre k cur v c' s :
  set_cell cur v c' (reprefix pre k s) = reprefix pre (count_after k s (set_cell cur v c' s)) (set_cell cur v c' s).
Proof.
  unfold count_after, set_cell. case_match.
  - change (render (with_cells c' (reprefix pre k s))) with (reprefix pre (S k) (render (with_cells c' s))).
    rewrite commit_reprefix, constructed_commit. simpl. by replace (k + (S (constructed s) - constructed s)) with (S k) by lia.
  - by rewrite Nat.sub_diag, Nat.add_0_r.
Qed.

Lemma dispatch_reprefix pre k e s :
  dispatch e (reprefix pre k s) = reprefix pre (count_after k s (dispatch e s)) (dispatch e s).
Proof.
  destruct e as [v|v|v|v|v|v|files|id|id|b]; try apply set_cell_reprefix;
    unfold count_after; cbn [dispatch].
  - unfold handleLogoUpload. case_match; simpl; by rewrite Nat.sub_diag, Nat.add_0_r.
  - unfold reader_onload. cbn [readers nextReader reprefix]. case_match; [|by rewrite Nat.sub_diag, Nat.add_0_r].
    change (with_readers (drop_reader id (readers s)) (nextReader s) (reprefix pre k s))
      with (reprefix pre k (with_readers (drop_reader id (readers s)) (nextReader s) s)).
    unfold setLogo. rewrite set_cell_reprefix. unfold count_after. by cbn [constructed with_readers].
  - simpl. by rewrite Nat.sub_diag, Nat.add_0_r.
  - unfold download. rewrite add_call_reprefix. simpl. by rewrite Nat.sub_diag, Nat.add_0_r.
Qed.

Lemma event_ok_reprefix pre k s e : event_ok (reprefix pre k s) e = event_ok s e.
Proof. by destruct e. Qed.

(** An event under StrictMode is the plain event, with twice its renders
    counted. *)
Lemma dispatch_strict_reprefix pre e s :
  Inv s -> event_ok s e = true ->
  dispatch_strict e (reprefix pre (2 * constructed s) s) =
  reprefix pre (2 * constructed (dispatch e s)) (dispatch e s).
Proof.
  intros HI Hok. unfold dispatch_strict. rewrite dispatch_reprefix. unfold count_after.
  cbn [constructed reprefix].
  destruct (dispatch_shape s e HI Hok) as [(_ & Hk & _) | (_ & _ & Hk & _)]; rewrite Hk.
  - rewrite Nat.sub_diag, Nat.add_0_r, Nat.eqb_refl. done.
  - replace (2 * constructed s + (S (constructed s) - constructed s)) with (S (2 * constructed s)) by lia.
    rewrite (proj2 (Nat.eqb_neq _ _)) by lia. unfold render, reprefix. simpl. do 2 f_equal. lia.
Qed.

(** Every state under StrictMode is a state of the plain component with
    the mount's calls repeated in front and twice its evaluations of the
    constructor. *)
Lemma reachable_strict_reprefix t :
  reachable_strict t -> exists s, reachable s /\ t = reprefix strict_prefix (2 * constructed s) s.
Proof.
  induction 1 as [|t e Ht IH Hok].
  - exists mount. split; [constructor | apply mount_strict_reprefix].
  - destruct IH as (s & Hs & ->). rewrite event_ok_reprefix in Hok.
    exists (dispatch e s). split; [by apply reachable_step|].
    apply dispatch_strict_reprefix; [by apply reachable_Inv | done].
Qed.

(** ** The second attachment is harmless *)

(** C15: under StrictMode the mount appends the instance to the preview
    twice, so the single attachment the specification states does not
    hold in development; yet in every state the instance's options are
    the constructor's with the current payload merged in, and the preview
    shows exactly one drawing of the current text, or nothing for an
    empty text, as without StrictMode. *)
Theorem strict_mode_double_append s :
  reachable_strict s ->
  countb is_append (calls s) = 2 /\
  qr_options (@instance LibT _ s) = merge_payload (payload (cells s)) init_options /\
  shown (kept s) preview_div = if String.eqb (text (cells s)) "" then [] else [text (cells s)].
Proof.
  intros Ht. destruct (reachable_strict_reprefix s Ht) as (s0 & Hr & ->).
  pose proof (reachable_Inv _ Hr) as HI. split_and!.
  - cbn [calls reprefix]. rewrite countb_app, (inv_appends _ HI). done.
  - unfold instance. rewrite replay_options. cbn [calls cells reprefix].
    rewrite last_match_app, (inv_last_update _ HI), qr_new_options. done.
  - rewrite kept_replay. cbn [calls cells reprefix]. rewrite lib_replay_app.
    apply replay_shows_text; [done | apply lib_replay_ok, init_ok].
Qed.

(** ** Each render evaluates the constructor twice *)

(** ** The theorems on concrete states *)

Lemma strict_mode_double_append_witness :
  reachable_strict (dispatch_strict (EvText "https://example.com") mount_strict) /\
  shown (kept (dispatch_strict (EvText "https://example.com") mount_strict)) preview_div = ["https://example.com"].
Proof.
  assert (Ht : reachable_strict (dispatch_strict (EvText "https://example.com") mount_strict))
    by (apply reachable_strict_step; [constructor | reflexivity]).
  split; [exact Ht|]. exact (proj2 (proj2 (strict_mode_double_append _ Ht))).
Defined.

