(* ===== verification/View.v ===== *)
(** * What the panel displays

    The JSX of lines 101-200 renders controlled elements: the text input
    shows [value={text}] (lines 106-112), each [<select>] shows the option
    whose value is [value={dotStyle}] (and the two others, lines 118-154),
    each [<input type="color">] shows [value={fgColor}] or
    [value={bgColor}] (lines 163-178), and three buttons carry their
    labels (lines 197-199).  What the browser displays for such a value
    React's and HTML's: React's controlled select marks the option whose
    value matches, and the first option when none does
    ([ReactDOMSelect]'s [updateOptions]), and a colour input sanitizes its value (a valid
    simple colour, hexadecimal digits of either case, is lower-cased;
    anything else becomes ["#000000"]).  [view] is the display of a state;
    the theorem says that it shows the state exactly. *)

From Stdlib Require Import Ascii.
From stdpp Require Import base list strings.
From S2P Require Import Prelude StyleTypes QRGeneratorPro.

(** The label a [<select value={v}>] shows: that of its option whose
    value is [v], none when no option has it. *)
Fixpoint selected_label (opts : list (string * string)) (v : string) : option string :=
  match opts with
  | [] => None
  | (v', l) :: opts' => if String.eqb v v' then Some l else selected_label opts' v
  end.

Definition is_upper_hex (c : ascii) : bool :=
  let n := nat_of_ascii c in Nat.leb 65 n && Nat.leb n 70.

Fixpoint all_hex (s : string) : bool :=
  match s with
  | EmptyString => true
  | String c s' => (is_lower_hex c || is_upper_hex c) && all_hex s'
  end.

(** The option a controlled [<select value={v}>] shows: React selects
    the option whose value is [v], and the first option when none has it. *)
Definition select_shows (opts : list (string * string)) (v : string) : option string :=
  match selected_label opts v with
  | Some l => Some l
  | None => option_map snd (head opts)
  end.

(** HTML's valid simple colour: ["#"] and six hexadecimal digits. *)
Definition valid_simple_color (s : string) : bool :=
  match s with
  | String c rest => Ascii.eqb c "#"%char && Nat.eqb (String.length rest) 6 && all_hex rest
  | _ => false
  end.

Definition ascii_lower (c : ascii) : ascii :=
  let n := nat_of_ascii c in
  if Nat.leb 65 n && Nat.leb n 90 then ascii_of_nat (n + 32) else c.

Fixpoint string_lower (s : string) : string :=
  match s with
  | EmptyString => EmptyString
  | String c s' => String (ascii_lower c) (string_lower s')
  end.

(** The value sanitization of [<input type="color">]. *)
Definition sanitize_color (s : string) : string :=
  if valid_simple_color s then string_lower s else "#000000".

(** What the panel displays. *)
Record View := mkView {
  view_text : string;
  view_placeholder : string;
  view_dot : option string;
  view_corner_dot : option string;
  view_corner_square : option string;
  view_fg : string;
  view_bg : string;
  view_buttons : list (string * Button)
}.

(** The display of a state: the controlled elements of lines 106-199. *)
Definition view (s : St) : View :=
  let c := cells s in
  mkView (text c) "Enter text or URL (auto-detects URLs)"
    (select_shows dot_style_options (dotStyle c))
    (select_shows corner_dot_style_options (cornerDotStyle c))
    (select_shows corner_square_style_options (cornerSquareStyle c))
    (sanitize_color (fgColor c)) (sanitize_color (bgColor c))
    [("Download PNG", DownloadPNG); ("Download JPG", DownloadJPG); ("Download SVG", DownloadSVG)].

(** The three select cells hold values of their selects' options. *)
Definition selects_ok (c : Cells) : Prop :=
  dotStyle c ∈ dot_style_options.*1 /\
  cornerDotStyle c ∈ corner_dot_style_options.*1 /\
  cornerSquareStyle c ∈ corner_square_style_options.*1.

(** ** Selects and colour inputs *)

Lemma selected_label_elem opts v :
  v ∈ opts.*1 -> exists l, selected_label opts v = Some l /\ (v, l) ∈ opts.
Proof.
  induction opts as [|[v' l'] opts IH]; intros Hv; [by apply not_elem_of_nil in Hv|].
  simpl. destruct (String.eqb_spec v v') as [->|Hne].
  - exists l'. split; [done | by left].
  - apply elem_of_cons in Hv as [Hv|Hv]; [done|].
    destruct (IH Hv) as (l & Hl & Hin). exists l. split; [done | by right].
Qed.

Lemma select_shows_elem opts v :
  v ∈ opts.*1 -> exists l, select_shows opts v = Some l /\ (v, l) ∈ opts.
Proof.
  intros Hv. destruct (selected_label_elem opts v Hv) as (l & Hl & Hin).
  exists l. unfold select_shows. by rewrite Hl.
Qed.

Lemma ascii_lower_hex c : is_lower_hex c = true -> ascii_lower c = c.
Proof.
  unfold is_lower_hex, ascii_lower. intros H.
  destruct (Nat.leb 65 _ && Nat.leb _ 90) eqn:E; [exfalso|done].
  apply andb_true_iff in E as [E1 E2]. apply Nat.leb_le in E1, E2.
  apply orb_true_iff in H as [H|H]; apply andb_true_iff in H as [H1 H2];
    apply Nat.leb_le in H1, H2; lia.
Qed.

Lemma lower_hex_string s : all_lower_hex s = true -> all_hex s = true /\ string_lower s = s.
Proof.
  induction s as [|c s IH]; simpl; [done|]. intros [Hc Hs]%andb_true_iff.
  destruct (IH Hs) as [-> ->]. rewrite Hc, ascii_lower_hex by done. done.
Qed.

(** A colour the input itself reported is displayed unchanged. *)
Lemma sanitize_simple_color s : is_simple_color s = true -> sanitize_color s = s.
Proof.
  destruct s as [|c rest]; [done|]. unfold is_simple_color, sanitize_color, valid_simple_color.
  intros [[Hc Hl]%andb_true_iff Hh]%andb_true_iff. destruct (lower_hex_string rest Hh) as [Ha Hr].
  rewrite Hc, Hl, Ha. simpl. rewrite Hr. apply Ascii.eqb_eq in Hc as ->. done.
Qed.

(** What a deliverable event does to the three select cells. *)
Lemma selects_dispatch s e :
  Inv s ->
  dotStyle (cells (dispatch e s)) = (match e with EvDotStyle v => v | _ => dotStyle (cells s) end) /\
  cornerDotStyle (cells (dispatch e s)) =
    (match e with EvCornerDotStyle v => v | _ => cornerDotStyle (cells s) end) /\
  cornerSquareStyle (cells (dispatch e s)) =
    (match e with EvCornerSquareStyle v => v | _ => cornerSquareStyle (cells s) end).
Proof.
  intros HI. rewrite cells_dispatch by done. unfold cells_after.
  destruct e; try case_match; done.
Qed.

Lemma reachable_selects_ok s : reachable s -> selects_ok (cells s).
Proof.
  induction 1 as [|s e Hr IH Hok].
  - unfold selects_ok. simpl. split_and!; by apply (bool_decide_unpack _).
  - unfold selects_ok in *. destruct (selects_dispatch s e (reachable_Inv _ Hr)) as (-> & -> & ->).
    destruct IH as (H1 & H2 & H3).
    destruct e; cbn [event_ok] in Hok; split_and!; try done; by apply select_value_ok_elem.
Qed.

(** ** The display shows the state *)

(** C23: the panel displays its state exactly: in every reachable state
    the text input shows the text, each select shows the option whose
    value is its cell (never React's fallback to the first option: the
    cells only take values of their selects' options, although the
    corner-square type also has ["dot"]), and each colour input shows its cell, untouched by the
    browser's sanitization. *)
Theorem view_shows_state s :
  reachable s ->
  view_text (view s) = text (cells s) /\
  (exists l, view_dot (view s) = Some l /\ (dotStyle (cells s), l) ∈ dot_style_options) /\
  (exists l, view_corner_dot (view s) = Some l /\
             (cornerDotStyle (cells s), l) ∈ corner_dot_style_options) /\
  (exists l, view_corner_square (view s) = Some l /\
             (cornerSquareStyle (cells s), l) ∈ corner_square_style_options) /\
  view_fg (view s) = fgColor (cells s) /\ view_bg (view s) = bgColor (cells s).
Proof.
  intros Hr. destruct (reachable_selects_ok s Hr) as (H1 & H2 & H3).
  destruct (inv_cells _ (reachable_Inv _ Hr)) as (_ & _ & _ & Hfg & Hbg & _).
  split_and!; [done|..]; first [by apply select_shows_elem | by apply sanitize_simple_color].
Qed.

(** ** The theorem on a concrete state *)

Lemma view_shows_state_witness :
  reachable demo_state /\ view_dot (view demo_state) = Some "Square" /\
  view_fg (view demo_state) = "#000000".
Proof.
  pose proof demo_state_reachable as H.
  split_and!; [exact H | reflexivity |].
  exact (proj1 (proj2 (proj2 (proj2 (proj2 (view_shows_state demo_state H)))))).
Defined.
