(* ===== verification/LibKeyOrder.v ===== *)
(** * The library object up to the order of its options' keys

    [lib_equiv] relates two [QRCodeStyling] objects ([QRLib]) whose
    options objects are equivalent up to key order ([JsEquiv.jsv_equiv])
    and whose container, QR code, drawn element, DOM, saved files and
    rejections are the same.  Every call the component makes preserves it
    ([lib_call_equiv]): the library reads its options only by key.  So the
    instance the component keeps ([Preview.kept]) would hold, show and
    save the same whatever the order of the keys of the constructor's
    literal (lines 26-45). *)

From stdpp Require Import base list strings option.
From S2P Require Import Prelude QRStyling JsObject JsEquiv QRLib QRGeneratorPro Preview.

(** Two library objects that differ at most in the order of their
    options' keys. *)
Definition lib_equiv (q q' : QRLib) : Prop :=
  lib_options q ≃ lib_options q' /\ lib_container q = lib_container q' /\
  lib_qr q = lib_qr q' /\ lib_svg q = lib_svg q' /\ lib_next q = lib_next q' /\
  lib_dom q = lib_dom q' /\ lib_saved q = lib_saved q' /\ lib_rejected q = lib_rejected q'.

(** ** The library's reads of [data] *)

Lemma js_truthy_equiv v w : v ≃ w -> js_truthy v = js_truthy w.
Proof. by destruct 1. Qed.

Lemma options_data_equiv v w : v ≃ w -> options_data v ≃ options_data w.
Proof. destruct 1; simpl; try constructor. by apply get_prop_equiv; constructor. Qed.

Lemma data_string_equiv v w :
  v ≃ w -> match v with JString s => s | _ => "" end = match w with JString s => s | _ => "" end.
Proof. by destruct 1. Qed.

Lemma payload_object_wf p : payload_object p ≃ payload_object p.
Proof. apply wf_jsv_refl. unfold payload_object. by destruct (up_image p). Qed.

(** ** Every call preserves the relation *)

Ltac lib_equiv_fields :=
  repeat match goal with
  | q : QRLib |- _ => destruct q
  | H : lib_equiv _ _ |- _ => destruct H as (? & ? & ? & ? & ? & ? & ? & ?)
  end; simpl in *; subst.

Lemma lib_append_equiv c q q' : lib_equiv q q' -> lib_equiv (lib_append c q) (lib_append c q').
Proof. intros H. lib_equiv_fields. destruct c; by split_and!. Qed.

Lemma lib_update_equiv o o' q q' :
  option_Forall2 jsv_equiv o o' -> lib_equiv q q' -> lib_equiv (lib_update o q) (lib_update o' q').
Proof.
  intros Ho (Hopt & Hc & Hqr & Hsvg & Hn & Hdom & Hs & Hr).
  assert (Hopts : (match o with Some s => merge_deep_all (lib_options q) [s] | None => lib_options q end) ≃
                  (match o' with Some s => merge_deep_all (lib_options q') [s] | None => lib_options q' end)).
  { destruct Ho; [apply merge_deep_all_equiv; [done | by repeat constructor] | done]. }
  unfold lib_update. cbv zeta. rewrite <- Hc, <- Hdom, <- Hs, <- Hr, <- Hn.
  pose proof (options_data_equiv _ _ Hopts) as Hd.
  rewrite (js_truthy_equiv _ _ Hd), (data_string_equiv _ _ Hd).
  match goal with |- context [if js_truthy ?d then _ else _] => destruct (js_truthy d) end;
    [apply lib_append_equiv|]; by split_and!.
Qed.

Lemma lib_download_equiv d q q' : lib_equiv q q' -> lib_equiv (lib_download d q) (lib_download d q').
Proof. intros H. lib_equiv_fields. unfold lib_download. simpl. case_match; by split_and!. Qed.

Lemma lib_call_equiv c q q' : lib_equiv q q' -> lib_equiv (lib_call c q) (lib_call c q').
Proof.
  intros H. destruct c as [el|p|d]; unfold lib_call.
  - by apply lib_append_equiv.
  - apply lib_update_equiv; [constructor; apply payload_object_wf | done].
  - by apply lib_download_equiv.
Qed.

Lemma lib_replay_equiv cs q q' : lib_equiv q q' -> lib_equiv (lib_replay cs q) (lib_replay cs q').
Proof.
  revert q q'. induction cs as [|c cs IH]; intros q q' H; [done|].
  apply IH, lib_call_equiv, H.
Qed.

Lemma lib_new_equiv c c' : c ≃ c' -> lib_equiv (lib_new c) (lib_new c').
Proof.
  intros Hc. apply lib_update_equiv; [constructor|].
  split_and!; try done. unfold lib_options. apply merge_deep_all_equiv; [apply default_options_wf | by constructor].
Qed.

(** ** The kept instance does not see the order of the keys *)

(** had the component written the keys of the literal given to
    [new QRCodeStyling({...})] (lines 26-45) in any other order, at any
    level, the instance [useRef] keeps would, after the same calls, show
    the same drawing in the preview, hold the same QR code, save the same
    files, raise the same rejections and read the same options. *)
Theorem kept_key_order s c :
  c ≃ ctor_object init_options ->
  let q := lib_replay (calls s) (lib_new c) in
  shown q preview_div = shown (kept s) preview_div /\ lib_qr q = lib_qr (kept s) /\
  lib_saved q = lib_saved (kept s) /\ lib_rejected q = lib_rejected (kept s) /\
  options_of_object (lib_options q) = options_of_object (lib_options (kept s)).
Proof.
  intros Hc. cbv zeta. rewrite kept_replay.
  destruct (lib_replay_equiv (calls s) _ _ (lib_new_equiv _ _ Hc)) as (Ho & _ & Hqr & _ & _ & Hdom & Hs & Hr).
  unfold shown. rewrite Hdom. split_and!; try done. by apply options_of_object_equiv.
Qed.
